(** * The gesture-to-actuation state machine

    A shallow embedding of [FSMController] (source/fsm_controller.py) and of the
    calls it makes on the robot controller (source/robot_controller.py).

    - Timestamps are Python floats, that is IEEE binary64 values: they are
      modelled by Rocq's primitive floats, so [now - since >= limit] is
      computed exactly as Python computes it.
    - [time.time()] is read once at the top of [update]; here the reading is
      the argument [now].
    - Gestures are Python strings, [pending_selection] and the four [..._since]
      attributes are [None] or a value.
    - The robot controller is any object with the four methods the engine
      calls. A method returns or raises; the engine's mutations made before a
      raise stay, as they do on a Python object. *)

From Stdlib Require Import ZArith List String Bool Lia.
From Stdlib Require Import Floats.PrimFloat.
Import ListNotations.

Local Open Scope Z_scope.
Local Open Scope string_scope.
Local Open Scope list_scope.

(** ** Data model *)

Inductive FSMState : Set := DISABLED | ENABLED | AWAIT_CONFIRM | RUNNING.

Definition FSMState_eqb (a b : FSMState) : bool :=
  match a, b with
  | DISABLED, DISABLED | ENABLED, ENABLED
  | AWAIT_CONFIRM, AWAIT_CONFIRM | RUNNING, RUNNING => true
  | _, _ => false
  end.

Record FSMController : Type := mkFSM {
  state : FSMState;
  gesture_counter : Z;
  confirm_counter : Z;
  start_hold_since : option float;
  stop_hold_since : option float;
  awaiting_confirm_since : option float;
  running_since : option float;
  pending_selection : option string;
  log_messages : list string
}.

(** Timing parameters set by the constructor and never assigned again. *)
Definition START_HOLD_TIME : float := 3.0%float.
Definition STOP_HOLD_TIME : float := 3.0%float.
Definition CONFIRM_TIMEOUT : float := 5.0%float.
(** The literal 0.20 of the source: its nearest binary64 value. *)
Definition EXEC_PULSE_TIME : float := 0x1.999999999999ap-3%float.
Definition MAX_RUNNING_TIME : float := 15.0%float.
Definition GESTURE_CONFIRM_COUNT : Z := 15.

(** The engine as the constructor leaves it. *)
Definition __init__ : FSMController :=
  {| state := DISABLED;
     gesture_counter := 0;
     confirm_counter := 0;
     start_hold_since := None;
     stop_hold_since := None;
     awaiting_confirm_since := None;
     running_since := None;
     pending_selection := None;
     log_messages := [] |}.

(** Attribute assignment, one function per attribute. *)
Definition with_state (v : FSMState) (s : FSMController) : FSMController :=
  mkFSM v (gesture_counter s) (confirm_counter s) (start_hold_since s)
        (stop_hold_since s) (awaiting_confirm_since s) (running_since s)
        (pending_selection s) (log_messages s).
Definition with_gesture_counter (v : Z) (s : FSMController) : FSMController :=
  mkFSM (state s) v (confirm_counter s) (start_hold_since s)
        (stop_hold_since s) (awaiting_confirm_since s) (running_since s)
        (pending_selection s) (log_messages s).
Definition with_confirm_counter (v : Z) (s : FSMController) : FSMController :=
  mkFSM (state s) (gesture_counter s) v (start_hold_since s)
        (stop_hold_since s) (awaiting_confirm_since s) (running_since s)
        (pending_selection s) (log_messages s).
Definition with_start_hold_since (v : option float) (s : FSMController) : FSMController :=
  mkFSM (state s) (gesture_counter s) (confirm_counter s) v
        (stop_hold_since s) (awaiting_confirm_since s) (running_since s)
        (pending_selection s) (log_messages s).
Definition with_stop_hold_since (v : option float) (s : FSMController) : FSMController :=
  mkFSM (state s) (gesture_counter s) (confirm_counter s) (start_hold_since s)
        v (awaiting_confirm_since s) (running_since s)
        (pending_selection s) (log_messages s).
Definition with_awaiting_confirm_since (v : option float) (s : FSMController) : FSMController :=
  mkFSM (state s) (gesture_counter s) (confirm_counter s) (start_hold_since s)
        (stop_hold_since s) v (running_since s)
        (pending_selection s) (log_messages s).
Definition with_running_since (v : option float) (s : FSMController) : FSMController :=
  mkFSM (state s) (gesture_counter s) (confirm_counter s) (start_hold_since s)
        (stop_hold_since s) (awaiting_confirm_since s) v
        (pending_selection s) (log_messages s).
Definition with_pending_selection (v : option string) (s : FSMController) : FSMController :=
  mkFSM (state s) (gesture_counter s) (confirm_counter s) (start_hold_since s)
        (stop_hold_since s) (awaiting_confirm_since s) (running_since s)
        v (log_messages s).
Definition with_log_messages (v : list string) (s : FSMController) : FSMController :=
  mkFSM (state s) (gesture_counter s) (confirm_counter s) (start_hold_since s)
        (stop_hold_since s) (awaiting_confirm_since s) (running_since s)
        (pending_selection s) v.

(** ** Python values *)

(** [a >= b] and [a > b] on floats. *)
Definition float_ge (a b : float) : bool := PrimFloat.leb b a.
Definition float_gt (a b : float) : bool := PrimFloat.ltb b a.

(** Truth value of a float: every float but 0.0 and -0.0 is true. *)
Definition truthy (t : float) : bool := negb (PrimFloat.eqb t 0%float).

(** [since and (now - since > limit)] as a condition: false when [since] is
    [None] or a zero, else the comparison. *)
Definition elapsed_over (since : option float) (now limit : float) : bool :=
  match since with
  | None => false
  | Some t => truthy t && float_gt (PrimFloat.sub now t) limit
  end.

(** [self.pending_selection == dynamic_gesture]: [None] equals no string. *)
Definition selection_is (p : option string) (g : string) : bool :=
  match p with
  | Some d => String.eqb d g
  | None => false
  end.

(** [dynamic_gesture in ['CW', 'CCW']]. *)
Definition is_direction (g : string) : bool :=
  existsb (String.eqb g) ["CW"; "CCW"].

(** What an f-string prints for [self.pending_selection]. *)
Definition fmt_selection (p : option string) : string :=
  match p with
  | Some d => d
  | None => "None"
  end.

(** ** The robot controller as the engine sees it *)

Inductive call : Type :=
| set_enabled (enabled : bool)
| set_program_selection (is_prog2 : bool)
| pulse_execute (pulse_time : float)
| get_program_finished.

(** A call returns a value (the engine looks at it only for
    [get_program_finished]) or raises an [Exception] whose text is [e]. *)
Inductive response : Type :=
| Returns (v : bool)
| Raises (e : string).

(** A robot answers a call knowing the calls made on it before; every
    behaviour of an external device along one execution is such a function. *)
Definition Robot : Type := list call -> call -> response.

Definition is_set_enabled (b : bool) (c : call) : bool :=
  match c with
  | set_enabled b' => Bool.eqb b b'
  | _ => false
  end.

(** How many times [set_enabled(b)] occurs among the calls. *)
Definition count_set_enabled (b : bool) (cs : list call) : nat :=
  List.length (filter (is_set_enabled b) cs).

(** ** Statements: state, exceptions, the call trace *)

Inductive outcome (A : Type) : Type :=
| Returned (a : A)
| Raised (e : string).
Arguments Returned {A} a.
Arguments Raised {A} e.

(** What a running [update] can touch: the engine, the local list
    [new_log_messages] (shared with the handlers, which append to it in place)
    and the calls made on the robot so far. *)
Record Frame : Type := mkFrame {
  self : FSMController;
  new_log_messages : list string;
  calls : list call
}.

Definition M (A : Type) : Type := Frame -> outcome A * Frame.

Definition ret {A} (a : A) : M A := fun f => (Returned a, f).

Definition bind {A B} (m : M A) (k : A -> M B) : M B :=
  fun f =>
    match m f with
    | (Returned a, f') => k a f'
    | (Raised e, f') => (Raised e, f')
    end.

Notation "x <- m ;; k" := (bind m (fun x => k))
  (at level 61, m at next level, right associativity).
Notation "m ;; k" := (bind m (fun _ => k))
  (at level 61, right associativity).

(** [try: body except Exception as e: handler]. *)
Definition try_except {A} (body : M A) (handler : string -> M A) : M A :=
  fun f =>
    match body f with
    | (Returned a, f') => (Returned a, f')
    | (Raised e, f') => handler e f'
    end.

(** Read [self.attr]. *)
Definition get {A} (attr : FSMController -> A) : M A :=
  fun f => (Returned (attr (self f)), f).

(** [self.attr = v], through one of the [with_] functions. *)
Definition assign (upd : FSMController -> FSMController) : M unit :=
  fun f => (Returned tt, mkFrame (upd (self f)) (new_log_messages f) (calls f)).

(** [log_messages.append(msg)] on the list of the running [update]. *)
Definition append (msg : string) : M unit :=
  fun f => (Returned tt, mkFrame (self f) (new_log_messages f ++ [msg]) (calls f)).

(** A method call on the robot: recorded, then answered. *)
Definition invoke (robot_controller : Robot) (c : call) : M bool :=
  fun f =>
    let f' := mkFrame (self f) (new_log_messages f) (calls f ++ [c]) in
    match robot_controller (calls f) c with
    | Returns v => (Returned v, f')
    | Raises e => (Raised e, f')
    end.

(** ** The engine *)

Definition _transition_to (new_state : FSMState) (now : float) : M unit :=
  old_state <- get state ;;
  assign (with_state new_state) ;;
  match new_state with
  | DISABLED =>
      assign (with_start_hold_since None) ;;
      assign (with_awaiting_confirm_since None) ;;
      assign (with_pending_selection None) ;;
      assign (with_running_since None) ;;
      assign (with_gesture_counter 0) ;;
      assign (with_confirm_counter 0)
  | ENABLED =>
      match old_state with
      | DISABLED =>
          assign (with_start_hold_since None) ;;
          assign (with_awaiting_confirm_since None) ;;
          assign (with_pending_selection None)
      | AWAIT_CONFIRM =>
          assign (with_awaiting_confirm_since None) ;;
          assign (with_pending_selection None) ;;
          assign (with_confirm_counter 0)
      | RUNNING =>
          assign (with_running_since None) ;;
          assign (with_pending_selection None)
      | ENABLED => ret tt
      end
  | AWAIT_CONFIRM =>
      assign (with_running_since None) ;;
      assign (with_gesture_counter 0)
  | RUNNING =>
      assign (with_running_since (Some now)) ;;
      assign (with_awaiting_confirm_since None) ;;
      assign (with_pending_selection None) ;;
      assign (with_confirm_counter 0)
  end.

Definition _handle_disabled_state (static_gesture : string) (now : float)
    (robot_controller : Robot) : M unit :=
  if static_gesture =? "Open" then
    since <- get start_hold_since ;;
    match since with
    | None => assign (with_start_hold_since (Some now))
    | Some t =>
        if float_ge (PrimFloat.sub now t) START_HOLD_TIME then
          (* START_HOLD_TIME printed with one decimal *)
          append "START >= 3.0s -> HABILITADO" ;;
          invoke robot_controller (set_enabled true) ;;
          _transition_to ENABLED now
        else ret tt
    end
  else
    assign (with_start_hold_since None).

Definition _handle_enabled_state (dynamic_gesture : string) (now : float) : M unit :=
  if is_direction dynamic_gesture then
    pending <- get pending_selection ;;
    (if selection_is pending dynamic_gesture then
       n <- get gesture_counter ;;
       assign (with_gesture_counter (n + 1))
     else
       assign (with_pending_selection (Some dynamic_gesture)) ;;
       assign (with_gesture_counter 1)) ;;
    n <- get gesture_counter ;;
    if n >=? GESTURE_CONFIRM_COUNT then
      assign (with_awaiting_confirm_since (Some now)) ;;
      _transition_to AWAIT_CONFIRM now ;;
      pending <- get pending_selection ;;
      append ("Seleção inicial '" ++ fmt_selection pending
              ++ "' -> Aguardando confirmação.") ;;
      assign (with_gesture_counter 0)
    else ret tt
  else
    assign (with_pending_selection None) ;;
    assign (with_gesture_counter 0).

Definition _handle_await_confirm_state (dynamic_gesture : string) (now : float)
    (robot_controller : Robot) : M unit :=
  pending <- get pending_selection ;;
  (if selection_is pending dynamic_gesture then
     n <- get confirm_counter ;;
     assign (with_confirm_counter (n + 1))
   else
     assign (with_confirm_counter 0)) ;;
  n <- get confirm_counter ;;
  if n >=? GESTURE_CONFIRM_COUNT then
    let is_prog2 := selection_is pending "CCW" in
    invoke robot_controller (set_program_selection is_prog2) ;;
    append ("Seleção '" ++ fmt_selection pending ++ "' confirmada. Executando.") ;;
    try_except
      (invoke robot_controller (pulse_execute EXEC_PULSE_TIME) ;; ret tt)
      (fun e => append ("Erro ao executar pulso: " ++ e)) ;;
    invoke robot_controller (set_program_selection false) ;;
    _transition_to RUNNING now ;;
    assign (with_confirm_counter 0)
  else
    since <- get awaiting_confirm_since ;;
    if elapsed_over since now CONFIRM_TIMEOUT then
      append "Timeout de confirmação. Retornando para HABILITADO." ;;
      _transition_to ENABLED now
    else ret tt.

Definition _handle_running_state (now : float) (robot_controller : Robot) : M unit :=
  try_except
    (program_finished <- invoke robot_controller get_program_finished ;;
     if program_finished then
       append "Programa finalizado. Retornando para HABILITADO." ;;
       _transition_to ENABLED now
     else
       since <- get running_since ;;
       if elapsed_over since now MAX_RUNNING_TIME then
         append "Timeout de execução. Retornando para HABILITADO." ;;
         _transition_to ENABLED now
       else ret tt)
    (fun e => append ("Erro ao verificar status do programa: " ++ e)).

(** The body of [update] after [new_log_messages = []]. *)
Definition update_body (static_gesture dynamic_gesture : string)
    (robot_controller : Robot) (now : float) : M unit :=
  (* Handle stop gesture (Close hand) *)
  (if static_gesture =? "Close" then
     held <- get stop_hold_since ;;
     (match held with
      | None => assign (with_stop_hold_since (Some now))
      | Some _ => ret tt
      end) ;;
     (* stop_hold_since is set from here on *)
     let since := match held with None => now | Some t => t end in
     if float_ge (PrimFloat.sub now since) STOP_HOLD_TIME then
       st <- get state ;;
       (if FSMState_eqb st DISABLED then ret tt
        else
          (* STOP_HOLD_TIME printed with one decimal *)
          append "STOP >= 3.0s -> DESABILITADO" ;;
          invoke robot_controller (set_enabled false) ;;
          _transition_to DISABLED now) ;;
       assign (with_stop_hold_since None)
     else ret tt
   else
     assign (with_stop_hold_since None)) ;;
  (* State machine logic: one branch, chosen by the state as it is now *)
  st <- get state ;;
  (match st with
   | DISABLED => _handle_disabled_state static_gesture now robot_controller
   | ENABLED => _handle_enabled_state dynamic_gesture now
   | AWAIT_CONFIRM => _handle_await_confirm_state dynamic_gesture now robot_controller
   | RUNNING => _handle_running_state now robot_controller
   end) ;;
  (* self.log_messages.extend(new_log_messages) *)
  fun f => (Returned tt,
            mkFrame (with_log_messages (log_messages (self f) ++ new_log_messages f) (self f))
                    (new_log_messages f) (calls f)).

(** [update]: the caller sees whether it returned or raised, the engine and
    the calls made on the robot. *)
Definition update (static_gesture dynamic_gesture : string)
    (robot_controller : Robot) (now : float)
    (fsm : FSMController) (made : list call)
    : outcome unit * FSMController * list call :=
  let '(r, f) :=
    update_body static_gesture dynamic_gesture robot_controller now
                (mkFrame fsm [] made) in
  (r, self f, calls f).

(** [get_log_messages]: a copy of the buffer, and the buffer cleared. *)
Definition get_log_messages (fsm : FSMController) : list string * FSMController :=
  let messages := log_messages fsm in
  (messages, with_log_messages [] fsm).

(** ** The tick loop *)

(** One frame of [HandGestureApp.update_frame], as far as the engine is
    concerned: the two gesture labels and the clock reading of that frame. *)
Record tick : Type := mkTick {
  static_gesture : string;
  dynamic_gesture : string;
  now : float
}.

(** One [update] per tick. A raise ends the loop: the frame callback is not
    scheduled again. *)
Fixpoint run (robot_controller : Robot) (ticks : list tick)
    (fsm : FSMController) (made : list call)
    : outcome unit * FSMController * list call :=
  match ticks with
  | [] => (Returned tt, fsm, made)
  | t :: rest =>
      match update (static_gesture t) (dynamic_gesture t) robot_controller (now t) fsm made with
      | (Returned _, fsm', made') => run robot_controller rest fsm' made'
      | (Raised e, fsm', made') => (Raised e, fsm', made')
      end
  end.

(** The engine and the trace after a run, whatever its outcome. *)
Definition engine_after (r : outcome unit * FSMController * list call) : FSMController :=
  snd (fst r).
Definition calls_after (r : outcome unit * FSMController * list call) : list call :=
  snd r.
Definition outcome_of (r : outcome unit * FSMController * list call) : outcome unit :=
  fst (fst r).

(** A robot whose every call succeeds and whose program has finished: the
    simulation mode of [RobotController]. *)
Definition simulation : Robot := fun _ _ => Returns true.

(** A robot that is still running its program. *)
Definition busy : Robot :=
  fun _ c => match c with get_program_finished => Returns false | _ => Returns true end.

(** A robot none of whose calls gets through. *)
Definition unplugged : Robot := fun _ _ => Raises "RTDE".

Definition ticks_of (st dyn : string) (times : list float) : list tick :=
  map (mkTick st dyn) times.

(** The caller's two operations on the engine: a tick, and a drain of the log
    buffer ([update_frame] does one of each per frame). *)
Inductive op : Type :=
| Tick (t : tick)
| Drain.

(** The ticks of a session, drains dropped. *)
Fixpoint ticks_in (ops : list op) : list tick :=
  match ops with
  | [] => []
  | Tick t :: rest => t :: ticks_in rest
  | Drain :: rest => ticks_in rest
  end.

(** A session: what each drain returned, in order, and how the session ended. *)
Fixpoint session (robot_controller : Robot) (ops : list op)
    (fsm : FSMController) (made : list call)
    : list (list string) * (outcome unit * FSMController * list call) :=
  match ops with
  | [] => ([], (Returned tt, fsm, made))
  | Tick t :: rest =>
      match update (static_gesture t) (dynamic_gesture t) robot_controller (now t) fsm made with
      | (Returned _, fsm', made') => session robot_controller rest fsm' made'
      | (Raised e, fsm', made') => ([], (Raised e, fsm', made'))
      end
  | Drain :: rest =>
      let '(messages, fsm') := get_log_messages fsm in
      let '(drained, r) := session robot_controller rest fsm' made in
      (messages :: drained, r)
  end.

(** ** Notions the statements use *)

(** The instant a hold counts from: the recorded start, or this tick when no
    hold is in progress. *)
Definition hold_start (since : option float) (now : float) : float :=
  match since with
  | None => now
  | Some t => t
  end.

(** The stop override fires on this tick: the test made at the top of
    [update]. *)
Definition stop_due (fsm : FSMController) (static_gesture : string) (now : float) : bool :=
  (static_gesture =? "Close")
  && float_ge (PrimFloat.sub now (hold_start (stop_hold_since fsm) now)) STOP_HOLD_TIME.

(** [stop_hold_since] after a tick on which the override did not fire. *)
Definition stop_hold_next (fsm : FSMController) (static_gesture : string) (now : float)
    : option float :=
  if static_gesture =? "Close" then Some (hold_start (stop_hold_since fsm) now) else None.

(** Every tick shows the static gesture [g]. *)
Definition all_static (g : string) (ticks : list tick) : bool :=
  forallb (fun t => static_gesture t =? g) ticks.

(** No tick shows the static gesture [g]. *)
Definition none_static (g : string) (ticks : list tick) : bool :=
  forallb (fun t => negb (static_gesture t =? g)) ticks.

(** Every tick shows the dynamic gesture [g]. *)
Definition all_dynamic (g : string) (ticks : list tick) : bool :=
  forallb (fun t => dynamic_gesture t =? g) ticks.

(** Every tick shows a direction, and never the direction of the tick before. *)
Fixpoint alternating (ticks : list tick) : bool :=
  match ticks with
  | [] => true
  | t :: rest =>
      is_direction (dynamic_gesture t)
      && match rest with
         | [] => true
         | u :: _ => negb (dynamic_gesture t =? dynamic_gesture u)
         end
      && alternating rest
  end.

(** The gesture counter as the Enabled handler leaves it, before testing it,
    on a tick showing the direction [dir]. *)
Definition gesture_count_next (fsm : FSMController) (dir : string) : Z :=
  if selection_is (pending_selection fsm) dir
  then gesture_counter fsm + 1
  else 1.

(** The engine is DISABLED or ENABLED, and in ENABLED a tick showing [dir]
    does not complete a selection. *)
Definition not_selecting (fsm : FSMController) (dir : string) : Prop :=
  (state fsm = DISABLED \/ state fsm = ENABLED)
  /\ (state fsm = ENABLED -> gesture_count_next fsm dir < GESTURE_CONFIRM_COUNT).

(** Where a selection may be pending: nowhere but in AWAIT_CONFIRM, where a
    direction is, and in ENABLED while a run of one direction is counted. *)
Definition selection_where_due (fsm : FSMController) : Prop :=
  match state fsm with
  | DISABLED | RUNNING => pending_selection fsm = None
  | AWAIT_CONFIRM =>
      exists dir, pending_selection fsm = Some dir /\ is_direction dir = true
  | ENABLED =>
      pending_selection fsm = None
      \/ ((exists dir, pending_selection fsm = Some dir /\ is_direction dir = true)
          /\ 1 <= gesture_counter fsm < GESTURE_CONFIRM_COUNT)
  end.

(** The confirm counter as the AwaitConfirm handler leaves it before testing it. *)
Definition confirm_count_next (fsm : FSMController) (dynamic_gesture : string) : Z :=
  if selection_is (pending_selection fsm) dynamic_gesture
  then confirm_counter fsm + 1
  else 0.

(** What the execution path logs after the confirmation when the pulse raised. *)
Definition pulse_error (robot_controller : Robot) (fsm : FSMController) (made : list call)
    : list string :=
  match robot_controller
          (made ++ [set_program_selection (selection_is (pending_selection fsm) "CCW")])
          (pulse_execute EXEC_PULSE_TIME) with
  | Returns _ => []
  | Raises e => [("Erro ao executar pulso: " ++ e)%string]
  end.

(** On none of the ticks does the time since [t0] reach [limit]: the test
    [now - t0 >= limit] of the two holds is false. *)
Definition short_of (limit t0 : float) (ticks : list tick) : bool :=
  forallb (fun t => negb (float_ge (PrimFloat.sub (now t) t0) limit)) ticks.

(** On none of the ticks has [limit] elapsed since [since]. *)
Definition none_elapsed (since : option float) (limit : float) (ticks : list tick) : bool :=
  forallb (fun t => negb (elapsed_over since (now t) limit)) ticks.

(** ** Sample robots, runs and engines *)

(** A robot whose pulse fails and whose other calls succeed. *)
Definition pulse_fails : Robot :=
  fun _ c => match c with pulse_execute _ => Raises "DO6" | _ => Returns true end.

(** A robot that refuses to put the program selection back to program 1. *)
Definition selection_reset_fails : Robot :=
  fun _ c => match c with set_program_selection false => Raises "DO5" | _ => Returns true end.

(** Ticks of one static gesture, no dynamic one, a second apart from [start]. *)
Definition five_seconds (st : string) (start : float) : list tick :=
  ticks_of st "" (map (PrimFloat.add start) [0; 1; 2; 3; 4]%float).

(** [n] ticks an eighth of a second apart, showing [a] and [b] in turn. *)
Fixpoint in_turn (n : nat) (a b : string) (start : float) : list tick :=
  match n with
  | O => []
  | S k => mkTick "Pointer" a start :: in_turn k b a (PrimFloat.add start 0.125)
  end.

(** Two ticks of Open three seconds apart, from the initial engine: armed. *)
Definition arming : list tick := ticks_of "Open" "" [100; 103]%float.

(** Fifteen ticks of one direction, a second apart, the first at [start]. *)
Definition fifteen (dir : string) (start : float) : list tick :=
  ticks_of "Pointer" dir
    (map (PrimFloat.add start)
       [0; 1; 2; 3; 4; 5; 6; 7; 8; 9; 10; 11; 12; 13; 14]%float).

(** Fifteen ticks of one direction, an eighth of a second apart. *)
Definition fifteen_quick (dir : string) (start : float) : list tick :=
  ticks_of "Pointer" dir
    (map (fun k => PrimFloat.add start (PrimFloat.div k 8))
       [0; 1; 2; 3; 4; 5; 6; 7; 8; 9; 10; 11; 12; 13; 14]%float).

(** The engine armed; with CCW selected and awaiting confirmation since 118.0;
    with fourteen repeats counted; with the program started at 121.75. These
    are the engines the scenario goes through (see [sample_engines]). *)
Definition armed : FSMController :=
  mkFSM ENABLED 0 0 None None None None None
        ["START >= 3.0s -> HABILITADO"].
Definition awaiting_ccw : FSMController :=
  mkFSM AWAIT_CONFIRM 0 0 None None (Some 118%float) None (Some "CCW")
        ["START >= 3.0s -> HABILITADO";
         "Seleção inicial 'CCW' -> Aguardando confirmação."].
Definition almost_confirmed : FSMController :=
  with_confirm_counter 14 awaiting_ccw.
Definition running_ccw : FSMController :=
  mkFSM RUNNING 0 0 None None None (Some 121.75%float) None
        ["START >= 3.0s -> HABILITADO";
         "Seleção inicial 'CCW' -> Aguardando confirmação.";
         "Seleção 'CCW' confirmada. Executando."].


(** ** Further notions on the engine *)

(** The timers and counters a state leaves set: every one that does not belong
    to the state is cleared. [slack] is 0 after an [update] that returned, 1
    after one that raised (the confirm counter may then stand at the count). *)
Definition settled (slack : Z) (fsm : FSMController) : Prop :=
  match state fsm with
  | DISABLED =>
      awaiting_confirm_since fsm = None /\ running_since fsm = None
      /\ gesture_counter fsm = 0 /\ confirm_counter fsm = 0
  | ENABLED =>
      start_hold_since fsm = None /\ awaiting_confirm_since fsm = None
      /\ running_since fsm = None
      /\ 0 <= gesture_counter fsm < GESTURE_CONFIRM_COUNT /\ confirm_counter fsm = 0
  | AWAIT_CONFIRM =>
      start_hold_since fsm = None /\ awaiting_confirm_since fsm <> None
      /\ running_since fsm = None
      /\ gesture_counter fsm = 0
      /\ 0 <= confirm_counter fsm < GESTURE_CONFIRM_COUNT + slack
  | RUNNING =>
      start_hold_since fsm = None /\ awaiting_confirm_since fsm = None
      /\ running_since fsm <> None
      /\ gesture_counter fsm = 0 /\ confirm_counter fsm = 0
  end.

(** The argument of the last [set_enabled] among the calls, [enabled] when
    there is none. *)
Fixpoint enabled_after (enabled : bool) (cs : list call) : bool :=
  match cs with
  | [] => enabled
  | set_enabled b :: rest => enabled_after b rest
  | _ :: rest => enabled_after enabled rest
  end.

(** Whether the last call is a [set_program_selection] ([selected] when there
    is no call). *)
Fixpoint selected_after (selected : bool) (cs : list call) : bool :=
  match cs with
  | [] => selected
  | set_program_selection _ :: rest => selected_after true rest
  | _ :: rest => selected_after false rest
  end.

(** Every [pulse_execute] among the calls comes while enabled and right after
    a [set_program_selection]. *)
Fixpoint pulse_discipline (enabled selected : bool) (cs : list call) : bool :=
  match cs with
  | [] => true
  | set_enabled b :: rest => pulse_discipline b false rest
  | set_program_selection _ :: rest => pulse_discipline enabled true rest
  | pulse_execute _ :: rest => enabled && selected && pulse_discipline enabled false rest
  | get_program_finished :: rest => pulse_discipline enabled false rest
  end.

(** The calls one [update] may make, by the state it starts in. *)
Definition calls_of_a_tick (st : FSMState) (new : list call) : Prop :=
  match st with
  | DISABLED => new = [] \/ new = [set_enabled true]
  | ENABLED => new = [] \/ new = [set_enabled false]
  | AWAIT_CONFIRM =>
      new = [] \/ new = [set_enabled false]
      \/ exists v,
           new = [set_program_selection v]
           \/ new = [set_program_selection v; pulse_execute EXEC_PULSE_TIME;
                     set_program_selection false]
  | RUNNING => new = [get_program_finished] \/ new = [set_enabled false]
  end.

(** The two calls the engine makes outside any [try]. *)
Definition unguarded (c : call) : bool :=
  match c with
  | set_enabled _ | set_program_selection _ => true
  | pulse_execute _ | get_program_finished => false
  end.

(** ** The robot controller (source/robot_controller.py)

    The RTDE library objects and the clock are outside the program: an
    operation on them either completes, with a value, or fails with an
    exception. What is printed is not modelled. *)
Module RobotController.

(** The operations the controller performs outside itself. *)
Inductive io : Type :=
| RTDEIOInterface (host : string)
| RTDEReceiveInterface (host : string) (frequency : Z)
| RTDEControlInterface (host : string) (frequency : Z)
| DashboardClient (hostname : string)
| dash_connect
| dash_loadURP (name : string)
| dash_play
| dash_stop
| setStandardDigitalOut (pin : Z) (value : bool)
| setConfigurableDigitalOut (pin : Z) (value : bool)
| setToolDigitalOut (pin : Z) (value : bool)
| getDigitalOutState (pin : Z)
| sleep (seconds : float)
| stopL (deceleration : float)
| disconnect_c
| disconnect_r
| disconnect_io
| disconnect_dash.

Inductive answer : Type :=
| Done (value : bool)
| Fails (e : string).

(** The library and the robot behind it: an answer to each operation, given
    the operations performed before. *)
Definition Device : Type := list io -> io -> answer.

(** The attributes of a [RobotController] that its methods read or write. An
    interface attribute holds an object (true) or none (false): it is [None],
    or, for [rtde_dash], not assigned before [connect] assigns it. A method
    call on it raises an AttributeError in both cases; [cleanup] tests the
    attributes only after a call on [rtde_dash] went through. *)
Record controller : Type := mkController {
  host : string;
  frequency : Z;
  rtde_io : bool;
  rtde_r : bool;
  rtde_c : bool;
  rtde_dash : bool;
  connected : bool;
  simulation_mode : bool
}.

Record world : Type := mkWorld {
  this : controller;
  performed : list io
}.

Definition M (A : Type) : Type := world -> outcome A * world.

Definition ret {A} (a : A) : M A := fun w => (Returned a, w).

Definition bind {A B} (m : M A) (k : A -> M B) : M B :=
  fun w =>
    match m w with
    | (Returned a, w') => k a w'
    | (Raised e, w') => (Raised e, w')
    end.

Declare Scope rc_scope.
Delimit Scope rc_scope with rc.
Notation "x <- m ;; k" := (bind m (fun x => k))
  (at level 61, m at next level, right associativity) : rc_scope.
Notation "m ;; k" := (bind m (fun _ => k))
  (at level 61, right associativity) : rc_scope.
Local Open Scope rc_scope.

Definition try_except {A} (body : M A) (handler : string -> M A) : M A :=
  fun w =>
    match body w with
    | (Returned a, w') => (Returned a, w')
    | (Raised e, w') => handler e w'
    end.

(** [try: body finally: final]. *)
Definition try_finally {A} (body : M A) (final : M unit) : M A :=
  fun w =>
    match body w with
    | (Returned a, w') =>
        match final w' with
        | (Returned _, w'') => (Returned a, w'')
        | (Raised e, w'') => (Raised e, w'')
        end
    | (Raised e, w') =>
        match final w' with
        | (Returned _, w'') => (Raised e, w'')
        | (Raised e', w'') => (Raised e', w'')
        end
    end.

Definition get {A} (attr : controller -> A) : M A :=
  fun w => (Returned (attr (this w)), w).

Definition assign (upd : controller -> controller) : M unit :=
  fun w => (Returned tt, mkWorld (upd (this w)) (performed w)).

Definition raise {A} (e : string) : M A := fun w => (Raised e, w).

(** An operation on the library: recorded, then answered. *)
Definition perform (device : Device) (o : io) : M bool :=
  fun w =>
    let w' := mkWorld (this w) (performed w ++ [o]) in
    match device (performed w) o with
    | Done v => (Returned v, w')
    | Fails e => (Raised e, w')
    end.

(** A method call [self.attr.method(...)]: an AttributeError when the
    attribute holds no object. *)
Definition call_on (attr : controller -> bool) (device : Device) (o : io) : M bool :=
  object <- get attr ;;
  if object then perform device o else raise "AttributeError".

(** [for x in xs: body x]. *)
Fixpoint for_each {A} (xs : list A) (body : A -> M unit) : M unit :=
  match xs with
  | [] => ret tt
  | x :: rest => body x ;; for_each rest body
  end.

Definition with_connected (v : bool) (c : controller) : controller :=
  mkController (host c) (frequency c) (rtde_io c) (rtde_r c) (rtde_c c) (rtde_dash c)
               v (simulation_mode c).
Definition with_simulation_mode (v : bool) (c : controller) : controller :=
  mkController (host c) (frequency c) (rtde_io c) (rtde_r c) (rtde_c c) (rtde_dash c)
               (connected c) v.
Definition with_rtde_io (v : bool) (c : controller) : controller :=
  mkController (host c) (frequency c) v (rtde_r c) (rtde_c c) (rtde_dash c)
               (connected c) (simulation_mode c).
Definition with_rtde_r (v : bool) (c : controller) : controller :=
  mkController (host c) (frequency c) (rtde_io c) v (rtde_c c) (rtde_dash c)
               (connected c) (simulation_mode c).
Definition with_rtde_c (v : bool) (c : controller) : controller :=
  mkController (host c) (frequency c) (rtde_io c) (rtde_r c) v (rtde_dash c)
               (connected c) (simulation_mode c).
Definition with_rtde_dash (v : bool) (c : controller) : controller :=
  mkController (host c) (frequency c) (rtde_io c) (rtde_r c) (rtde_c c) v
               (connected c) (simulation_mode c).

(** [self.connected and not self.simulation_mode]. *)
Definition live : M bool :=
  c <- get connected ;;
  s <- get simulation_mode ;;
  ret (c && negb s).

Definition _set_all_outputs_false (device : Device) : M unit :=
  on <- live ;;
  if on then
    try_except
      ((* Standard digital outputs (0-7) *)
       for_each [0; 1; 2; 3; 4; 5; 6; 7]
         (fun i => call_on rtde_io device (setStandardDigitalOut i false) ;; ret tt) ;;
       (* Configurable digital outputs (8-15) *)
       for_each [8; 9; 10; 11; 12; 13; 14; 15]
         (fun i => call_on rtde_io device (setConfigurableDigitalOut i false) ;; ret tt) ;;
       (* Tool digital outputs (0-1) *)
       for_each [0; 1]
         (fun i => call_on rtde_io device (setToolDigitalOut i false) ;; ret tt))
      (fun e => ret tt)
  else ret tt.

Definition connect (device : Device) : M bool :=
  sim <- get simulation_mode ;;
  if sim then
    assign (with_connected true) ;;
    ret true
  else
    try_except
      (h <- get host ;;
       f <- get frequency ;;
       perform device (RTDEIOInterface h) ;; assign (with_rtde_io true) ;;
       perform device (RTDEReceiveInterface h f) ;; assign (with_rtde_r true) ;;
       perform device (RTDEControlInterface h f) ;; assign (with_rtde_c true) ;;
       perform device (DashboardClient h) ;; assign (with_rtde_dash true) ;;
       call_on rtde_dash device dash_connect ;;
       call_on rtde_dash device (dash_loadURP "Futurecom/main.urp") ;;
       call_on rtde_dash device dash_play ;;
       _set_all_outputs_false device ;;
       assign (with_connected true) ;;
       ret true)
      (fun e =>
         assign (with_connected false) ;;
         assign (with_simulation_mode true) ;;
         ret false).

(** The constructor: the attributes, then [connect]. [rtde_available] is
    whether the RTDE library could be imported. *)
Definition __init__ (rtde_available : bool) (host : string) (frequency : Z)
    (device : Device) : M unit :=
  fun w =>
    (connect device ;; ret tt)
      (mkWorld (mkController host frequency false false false false false
                             (negb rtde_available))
               (performed w)).

Definition pulse_execute (device : Device) (pulse_time : float) : M bool :=
  try_except
    (on <- live ;;
     if on then
       call_on rtde_io device (setStandardDigitalOut 6 true) ;;
       perform device (sleep pulse_time) ;;
       call_on rtde_io device (setStandardDigitalOut 6 false) ;;
       ret true
     else ret true)
    (fun e => ret false).

Definition set_program_selection (device : Device) (is_prog2 : bool) : M bool :=
  try_except
    (on <- live ;;
     if on then
       call_on rtde_io device (setStandardDigitalOut 5 is_prog2) ;;
       ret true
     else ret true)
    (fun e => ret false).

Definition set_enabled (device : Device) (enabled : bool) : M bool :=
  try_except
    (on <- live ;;
     if on then
       call_on rtde_io device (setStandardDigitalOut 4 enabled) ;;
       ret true
     else ret true)
    (fun e => ret false).

Definition get_program_finished (device : Device) : M bool :=
  try_except
    (on <- live ;;
     if on then call_on rtde_r device (getDigitalOutState 7)
     else ret true)
    (fun e => ret false).

Definition stop_robot (device : Device) : M bool :=
  on <- live ;;
  if on then
    try_except
      (call_on rtde_c device (stopL 10.0) ;; ret true)
      (fun e => ret false)
  else ret false.

Definition cleanup (device : Device) : M unit :=
  try_finally
    (try_except
       (on <- live ;;
        if on then
          call_on rtde_dash device dash_stop ;;
          _set_all_outputs_false device ;;
          stop_robot device ;;
          c <- get rtde_c ;;
          (if c then perform device disconnect_c ;; ret tt else ret tt) ;;
          r <- get rtde_r ;;
          (if r then perform device disconnect_r ;; ret tt else ret tt) ;;
          i <- get rtde_io ;;
          (if i then perform device disconnect_io ;; ret tt else ret tt) ;;
          d <- get rtde_dash ;;
          (if d then perform device disconnect_dash ;; ret tt else ret tt)
        else ret tt)
       (fun e => ret tt))
    (assign (with_connected false)).

Definition is_connected : M bool := live.

End RobotController.

(** ** The engine on the robot controller *)

(** The method a call of the engine lands on. *)
Definition method (device : RobotController.Device) (c : call) : RobotController.M bool :=
  match c with
  | set_enabled enabled => RobotController.set_enabled device enabled
  | set_program_selection is_prog2 => RobotController.set_program_selection device is_prog2
  | pulse_execute pulse_time => RobotController.pulse_execute device pulse_time
  | get_program_finished => RobotController.get_program_finished device
  end.

(** The controller and the operations performed, after the calls [made]. *)
Definition world_after (device : RobotController.Device) (w : RobotController.world)
    (made : list call) : RobotController.world :=
  fold_left (fun w c => snd (method device c w)) made w.

(** A [RobotController] in the place of the engine's robot. *)
Definition as_robot (device : RobotController.Device) (w : RobotController.world) : Robot :=
  fun made c =>
    match fst (method device c (world_after device w made)) with
    | Returned v => Returns v
    | Raised e => Raises e
    end.

(** The controller is connected to a robot, its interfaces in place. *)
Definition connected_to_robot (c : RobotController.controller) : bool :=
  RobotController.connected c && negb (RobotController.simulation_mode c)
  && RobotController.rtde_io c && RobotController.rtde_r c
  && RobotController.rtde_c c && RobotController.rtde_dash c.

(** A library none of whose operations fails. *)
Definition working (device : RobotController.Device) : Prop :=
  forall before o, exists v, device before o = RobotController.Done v.

(** The value last written to standard digital output [pin], [known] when
    nothing was written to it. *)
Fixpoint standard_out (pin : Z) (known : option bool) (ios : list RobotController.io)
    : option bool :=
  match ios with
  | [] => known
  | RobotController.setStandardDigitalOut p v :: rest =>
      standard_out pin (if (p =? pin)%Z then Some v else known) rest
  | _ :: rest => standard_out pin known rest
  end.

(** Whether an output is known to be high. *)
Definition high (v : option bool) : bool :=
  match v with
  | Some true => true
  | _ => false
  end.

(** What the calls of the engine write and read on a working robot. *)
Definition operations_of (c : call) : list RobotController.io :=
  match c with
  | set_enabled enabled => [RobotController.setStandardDigitalOut 4 enabled]
  | set_program_selection is_prog2 => [RobotController.setStandardDigitalOut 5 is_prog2]
  | pulse_execute pulse_time =>
      [RobotController.setStandardDigitalOut 6 true;
       RobotController.sleep pulse_time;
       RobotController.setStandardDigitalOut 6 false]
  | get_program_finished => [RobotController.getDigitalOutState 7]
  end.

(** The argument of the last [set_program_selection] among the calls. *)
Fixpoint program_after (is_prog2 : bool) (cs : list call) : bool :=
  match cs with
  | [] => is_prog2
  | set_program_selection v :: rest => program_after v rest
  | _ :: rest => program_after is_prog2 rest
  end.

(** The operations that set a connection up. *)
Definition setup (host : string) (frequency : Z) : list RobotController.io :=
  [RobotController.RTDEIOInterface host;
   RobotController.RTDEReceiveInterface host frequency;
   RobotController.RTDEControlInterface host frequency;
   RobotController.DashboardClient host;
   RobotController.dash_connect;
   RobotController.dash_loadURP "Futurecom/main.urp";
   RobotController.dash_play].

(** The eighteen writes of [_set_all_outputs_false]. *)
Definition all_outputs_false : list RobotController.io :=
  map (fun i => RobotController.setStandardDigitalOut i false) [0; 1; 2; 3; 4; 5; 6; 7]
  ++ map (fun i => RobotController.setConfigurableDigitalOut i false)
       [8; 9; 10; 11; 12; 13; 14; 15]
  ++ map (fun i => RobotController.setToolDigitalOut i false) [0; 1].

Definition is_output_write (o : RobotController.io) : bool :=
  match o with
  | RobotController.setStandardDigitalOut _ _
  | RobotController.setConfigurableDigitalOut _ _
  | RobotController.setToolDigitalOut _ _ => true
  | _ => false
  end.

(** Sample libraries: one that works and reports the program finished, one
    whose every operation fails, one that is there until the first write. *)
Definition robot_ready : RobotController.Device :=
  fun _ _ => RobotController.Done true.
Definition robot_gone : RobotController.Device :=
  fun _ _ => RobotController.Fails "RTDE".
Definition robot_lost_after_setup : RobotController.Device :=
  fun _ o => if is_output_write o then RobotController.Fails "RTDE"
             else RobotController.Done false.

(** A controller connected to the robot at the default address, nothing
    performed yet; and one in simulation. *)
Definition on_line : RobotController.world :=
  RobotController.mkWorld
    (RobotController.mkController "192.168.0.160" 10 true true true true true false) [].
Definition simulated : RobotController.world :=
  RobotController.mkWorld
    (RobotController.mkController "192.168.0.160" 10 false false false false true true) [].

(** ** Python strings *)

(** [needle in hay]. *)
Fixpoint contains (needle hay : string) : bool :=
  String.prefix needle hay
  || match hay with
     | EmptyString => false
     | String _ rest => contains needle rest
     end.

(** [s.replace(old, new)] for a non-empty [old]: the occurrences of [old]
    found from left to right, none overlapping another. [skip] counts the
    characters of an occurrence still to pass. *)
Fixpoint replace_from (old new : string) (skip : nat) (s : string) : string :=
  match s with
  | EmptyString => EmptyString
  | String c rest =>
      match skip with
      | S k => replace_from old new k rest
      | O =>
          if String.prefix old s
          then (new ++ replace_from old new (String.length old - 1) rest)%string
          else String c (replace_from old new 0 rest)
      end
  end.

Definition replace (old new s : string) : string := replace_from old new 0 s.

(** Truth value of a string, and of a string or None. *)
Definition nonempty (s : string) : bool :=
  match s with
  | EmptyString => false
  | String _ _ => true
  end.

(** ** The window (source/gui_interface.py)

    The Tk widgets are outside the program; of the text widget only its
    content is kept, of the status variables their values. The video label
    is left out. [time.strftime] is a clock read once per logged line: its
    answer is given for the number of lines logged before. *)
Module GUIInterface.

Definition Clock : Type := nat -> string.

Record gui : Type := mkGUI {
  estado : string;
  gesto_estatico : string;
  gesto_dinamico : string;
  selecao_pendente : string;
  log_text : string;
  log_messages : list string
}.

Definition __init__ : gui :=
  mkGUI "DISABLED" "N/A" "N/A" "N/A" "" [].

Definition log_message (strftime : Clock) (message : string) (g : gui) : gui :=
  let timestamp := strftime (List.length (log_messages g)) in
  let line := ("[" ++ timestamp ++ "] " ++ message)%string in
  mkGUI (estado g) (gesto_estatico g) (gesto_dinamico g) (selecao_pendente g)
        (log_text g ++ line ++ String (Ascii.ascii_of_nat 10) EmptyString)%string
        (log_messages g ++ [line]).

(** [message not in self.log_messages]. *)
Definition not_logged (message : string) (g : gui) : bool :=
  negb (existsb (String.eqb message) (log_messages g)).

Definition update_display (strftime : Clock)
    (state static_gesture dynamic_gesture : string) (pending_selection : option string)
    (messages : list string) (g : gui) : gui :=
  let g :=
    mkGUI state
          (if nonempty static_gesture then static_gesture else "N/A")
          (if nonempty dynamic_gesture then dynamic_gesture else "N/A")
          (match pending_selection with
           | Some p => if nonempty p then p else "N/A"
           | None => "N/A"
           end)
          (log_text g) (log_messages g) in
  fold_left
    (fun g message =>
       if not_logged message g
       then log_message strftime (replace "[timestamp] " "" message) g
       else g)
    messages g.

Definition get_log_messages (g : gui) : list string := log_messages g.

End GUIInterface.

(** ** The frame loop (source/hand_gesture_app.py)

    Of a frame only what reaches the engine and the window is kept: whether
    the camera gave an image and, for each hand found in it, the labels the
    gesture detector returned. *)
Module HandGestureApp.

Record app : Type := mkApp {
  fsm_controller : FSMController;
  gui : GUIInterface.gui;
  robot_calls : list call
}.

(** [FSMState.name]. *)
Definition name (s : FSMState) : string :=
  match s with
  | DISABLED => "DISABLED"
  | ENABLED => "ENABLED"
  | AWAIT_CONFIRM => "AWAIT_CONFIRM"
  | RUNNING => "RUNNING"
  end.

(** The constructor, as far as the engine and the window go. *)
Definition __init__ (strftime : GUIInterface.Clock) : app :=
  mkApp __init__
        (GUIInterface.log_message strftime "Aplicação iniciada. Aguardando gestos."
           GUIInterface.__init__)
        [].

(** The gestures after the loop over the hands: for each hand the static
    label, shortened to Close or Open when it holds that word, and the
    direction when the dynamic label names one. *)
Definition gestures (hands : list (string * string)) : string * string :=
  fold_left
    (fun current hand =>
       let '(current_static_gesture, current_dynamic_gesture) := current in
       let '(static_label, dynamic_label) := hand in
       let current_static_gesture := static_label in
       let current_dynamic_gesture :=
         if contains "Counter" dynamic_label then "CCW"
         else if contains "Clockwise" dynamic_label then "CW"
         else current_dynamic_gesture in
       let current_static_gesture :=
         if contains "Close" current_static_gesture then "Close"
         else if contains "Open" current_static_gesture then "Open"
         else current_static_gesture in
       (current_static_gesture, current_dynamic_gesture))
    hands ("", "").

(** One frame. [capture] is None when the camera gave no image: nothing is
    updated then. [now] is the clock the engine reads. *)
Definition update_frame (robot_controller : Robot) (strftime : GUIInterface.Clock)
    (capture : option (list (string * string))) (now : float) (a : app)
    : outcome unit * app :=
  match capture with
  | None => (Returned tt, a)
  | Some hands =>
      let '(current_static_gesture, current_dynamic_gesture) := gestures hands in
      match update current_static_gesture current_dynamic_gesture robot_controller now
                   (fsm_controller a) (robot_calls a) with
      | (Raised e, fsm, made) => (Raised e, mkApp fsm (gui a) made)
      | (Returned _, fsm, made) =>
          let state_name := name (state fsm) in
          let pending := pending_selection fsm in
          let '(messages, fsm) := get_log_messages fsm in
          (Returned tt,
           mkApp fsm
                 (GUIInterface.update_display strftime state_name
                    current_static_gesture current_dynamic_gesture pending messages
                    (gui a))
                 made)
      end
  end.

End HandGestureApp.

(** One frame after another; a raise ends the loop. *)
Fixpoint frames (robot_controller : Robot) (strftime : GUIInterface.Clock)
    (fs : list (option (list (string * string)) * float)) (a : HandGestureApp.app)
    : outcome unit * HandGestureApp.app :=
  match fs with
  | [] => (Returned tt, a)
  | (capture, now) :: rest =>
      match HandGestureApp.update_frame robot_controller strftime capture now a with
      | (Returned _, a') => frames robot_controller strftime rest a'
      | (Raised e, a') => (Raised e, a')
      end
  end.

(** The ticks the frames give the engine. *)
Fixpoint ticks_of_frames (fs : list (option (list (string * string)) * float))
    : list tick :=
  match fs with
  | [] => []
  | (None, _) :: rest => ticks_of_frames rest
  | (Some hands, now) :: rest =>
      mkTick (fst (HandGestureApp.gestures hands)) (snd (HandGestureApp.gestures hands)) now
      :: ticks_of_frames rest
  end.

(** The lines the window logs for [messages], the first at the clock's
    answer number [n]. *)
Fixpoint stamped (strftime : GUIInterface.Clock) (n : nat) (messages : list string)
    : list string :=
  match messages with
  | [] => []
  | m :: rest =>
      ("[" ++ strftime n ++ "] " ++ replace "[timestamp] " "" m)%string
      :: stamped strftime (S n) rest
  end.

(** The first character is an opening bracket. *)
Definition bracketed (s : string) : bool :=
  match s with
  | String c _ => Ascii.eqb c (Ascii.ascii_of_nat 91)
  | EmptyString => false
  end.

(** ** The labels of the gestures (source/gesture_detector.py)

    The two classifiers and the label files are outside the program: a class
    id is any Python integer, the labels any list of strings. *)
Module GestureDetector.

(** [labels[i]]: an index below zero counts from the end. *)
Definition item (labels : list string) (i : Z) : outcome string :=
  let n := Z.of_nat (List.length labels) in
  if ((0 <=? i)%Z && (i <? n)%Z) then Returned (nth (Z.to_nat i) labels "")
  else if ((- n <=? i)%Z && (i <? 0)%Z) then Returned (nth (Z.to_nat (n + i)) labels "")
  else Raised "list index out of range".

Definition get_static_gesture_label (keypoint_classifier_labels : list string)
    (hand_sign_id : Z) : outcome string :=
  if (hand_sign_id <? Z.of_nat (List.length keypoint_classifier_labels))%Z
  then item keypoint_classifier_labels hand_sign_id
  else Returned "".

(** [Counter(iterable)]: the elements with their counts, in the order in
    which they first appear. *)
Fixpoint count_one (x : Z) (items : list (Z * Z)) : list (Z * Z) :=
  match items with
  | [] => [(x, 1)]
  | (k, n) :: rest =>
      if (k =? x)%Z then (k, n + 1) :: rest else (k, n) :: count_one x rest
  end.

Definition Counter (iterable : list Z) : list (Z * Z) :=
  fold_left (fun items x => count_one x items) iterable [].

(** [most_common()]: the items sorted by count, largest first, by a stable
    sort: items of equal count keep their order. *)
Fixpoint insert_item (item : Z * Z) (sorted : list (Z * Z)) : list (Z * Z) :=
  match sorted with
  | [] => [item]
  | y :: rest =>
      if (snd y <=? snd item)%Z then item :: y :: rest else y :: insert_item item rest
  end.

Definition most_common (items : list (Z * Z)) : list (Z * Z) :=
  fold_right insert_item [] items.

Definition get_dynamic_gesture_label (point_history_classifier_labels : list string)
    (finger_gesture_history : list Z) : outcome string :=
  match finger_gesture_history with
  | [] => Returned ""
  | _ :: _ =>
      match most_common (Counter finger_gesture_history) with
      | (most_common_fg_id, _) :: _ =>
          if (most_common_fg_id <? Z.of_nat (List.length point_history_classifier_labels))%Z
          then item point_history_classifier_labels most_common_fg_id
          else Returned ""
      | [] => Returned ""
      end
  end.

End GestureDetector.

(** How often [x] occurs in [l]. *)
Definition occurrences (x : Z) (l : list Z) : Z :=
  Z.of_nat (count_occ Z.eq_dec l x).

(** The elements of [l], each once, in the order in which they first appear. *)
Definition seen (x : Z) (acc : list Z) : list Z :=
  if existsb (Z.eqb x) acc then acc else acc ++ [x].

Definition firsts (l : list Z) : list Z :=
  fold_left (fun acc x => seen x acc) l [].

(** A part of a method that assigns no attribute. *)
Definition keeps_attributes {A} (m : RobotController.M A) : Prop :=
  forall w, RobotController.this (snd (m w)) = RobotController.this w.
(** * Properties *)

(** ** Proof steps shared by the lemmas on [update] *)

(** The tests of the engine stay folded under [cbn]. *)
Local Arguments selection_is : simpl never.
Local Arguments is_direction : simpl never.
Local Arguments elapsed_over : simpl never.
Local Arguments float_ge : simpl never.
Local Arguments float_gt : simpl never.
Local Arguments fmt_selection : simpl never.
Local Arguments Z.geb : simpl never.
Local Arguments Z.add : simpl never.
Local Arguments String.append : simpl never.

Ltac unfold_engine :=
  unfold update, update_body, _handle_disabled_state, _handle_enabled_state,
    _handle_await_confirm_state, _handle_running_state, _transition_to,
    try_except, bind, get, assign, append, invoke, ret in *.

(** Carry out the attribute writes and reads. *)
Ltac fields :=
  unfold with_state, with_gesture_counter, with_confirm_counter,
    with_start_hold_since, with_stop_hold_since, with_awaiting_confirm_since,
    with_running_since, with_pending_selection, with_log_messages;
  cbn [state gesture_counter confirm_counter start_hold_since stop_hold_since
       awaiting_confirm_since running_since pending_selection log_messages].

(** Split on the innermost test the goal is stuck on. *)
Ltac case_step :=
  match goal with
  | |- context [match ?x with _ => _ end] =>
      lazymatch x with
      | context [match _ with _ => _ end] => fail
      | _ => destruct x eqn:?
      end
  end.

Ltac string_facts :=
  repeat match goal with
  | H : (_ =? _)%string = true |- _ => apply String.eqb_eq in H; subst
  | H : (?a =? ?a)%string = false |- _ => rewrite String.eqb_refl in H; discriminate
  end.

Ltac count_facts :=
  unfold GESTURE_CONFIRM_COUNT in *;
  repeat match goal with
  | H : (_ >=? _) = true |- _ => rewrite Z.geb_leb in H; apply Z.leb_le in H
  | H : (_ >=? _) = false |- _ => rewrite Z.geb_leb in H; apply Z.leb_gt in H
  end.

(** Close a branch the hypotheses exclude. *)
Ltac excluded :=
  try congruence;
  try (cbn in *; rewrite <- ?app_assoc in *; cbn [app] in *; congruence);
  try (exfalso; count_facts; lia).

Ltac engine_cases :=
  unfold_engine; cbn;
  repeat (case_step; string_facts; cbn; try congruence).

(** Settle a hypothesis at a concrete input. *)
Ltac evaluated :=
  first [ reflexivity | vm_compute; reflexivity | vm_compute; discriminate ].

(** Read off what a returned [update] produced. *)
Ltac returned :=
  let H := fresh "H" in
  intros H; inversion H; subst; clear H.

(** A selection that equals a gesture is that gesture. *)
Ltac selected :=
  match goal with
  | H : selection_is ?p _ = true |- _ =>
      unfold selection_is in H;
      destruct p; [apply String.eqb_eq in H; subst | discriminate]
  end.

(** ** The log buffer *)

(** [update] never reads the buffer: it only extends it, by messages that do
    not depend on what the buffer holds. *)
Lemma update_appends_to_any_buffer st dyn robot t fsm made l :
  update st dyn robot t (with_log_messages l fsm) made =
  let '(r, fsm', made') := update st dyn robot t (with_log_messages [] fsm) made in
  (r, with_log_messages (l ++ log_messages fsm') fsm', made').
Proof.
  destruct fsm as [s gc cc sh th ah rh ps lg].
  engine_cases; rewrite ?app_nil_r; reflexivity.
Qed.

Lemma with_log_messages_same fsm : with_log_messages (log_messages fsm) fsm = fsm.
Proof. destruct fsm; reflexivity. Qed.

Lemma run_appends_to_any_buffer robot ticks :
  forall fsm made l,
    run robot ticks (with_log_messages l fsm) made =
    let '(r, fsm', made') := run robot ticks (with_log_messages [] fsm) made in
    (r, with_log_messages (l ++ log_messages fsm') fsm', made').
Proof.
  induction ticks as [|t ticks IH]; intros fsm made l; cbn [run].
  - cbn. rewrite app_nil_r. reflexivity.
  - rewrite (update_appends_to_any_buffer _ _ _ _ fsm made l).
    destruct (update (static_gesture t) (dynamic_gesture t) robot (now t)
                (with_log_messages [] fsm) made) as [[[u|e] fsm1] made1].
    + cbv beta iota zeta.
      replace (run robot ticks fsm1 made1)
        with (run robot ticks (with_log_messages (log_messages fsm1) fsm1) made1)
        by (rewrite with_log_messages_same; reflexivity).
      rewrite (IH fsm1 made1 (l ++ log_messages fsm1)).
      rewrite (IH fsm1 made1 (log_messages fsm1)).
      destruct (run robot ticks (with_log_messages [] fsm1) made1) as [[r fsm2] made2].
      cbn. rewrite app_assoc. reflexivity.
    + reflexivity.
Qed.

Lemma session_against_run robot ops :
  forall fsm made,
    let '(drained, (r, fsm', made')) := session robot ops fsm made in
    let '(r0, fsm0, made0) := run robot (ticks_in ops) fsm made in
    r = r0 /\ made' = made0
    /\ with_log_messages [] fsm' = with_log_messages [] fsm0
    /\ List.concat drained ++ log_messages fsm' = log_messages fsm0.
Proof.
  induction ops as [|[t|] ops IH]; intros fsm made.
  - cbn. auto.
  - cbn [session ticks_in run].
    destruct (update (static_gesture t) (dynamic_gesture t) robot (now t) fsm made)
      as [[[u|e] fsm1] made1].
    + apply IH.
    + cbn. auto.
  - cbn [session ticks_in get_log_messages].
    specialize (IH (with_log_messages [] fsm) made).
    destruct (session robot ops (with_log_messages [] fsm) made)
      as [drained [[r fsm'] made']].
    replace (run robot (ticks_in ops) fsm made)
      with (run robot (ticks_in ops) (with_log_messages (log_messages fsm) fsm) made)
      by (rewrite with_log_messages_same; reflexivity).
    rewrite run_appends_to_any_buffer.
    destruct (run robot (ticks_in ops) (with_log_messages [] fsm) made)
      as [[r0 fsm0] made0].
    destruct IH as (-> & -> & Hsame & Hlog).
    repeat split; trivial.
    cbn [List.concat]. rewrite <- app_assoc, Hlog. reflexivity.
Qed.

(** C9. A drain returns the buffer as it stands, oldest message first, and
    leaves it empty, so that a second drain with no [update] in between returns
    nothing; [update] only appends to the buffer; and over any session of ticks
    and drains, what the drains returned, one after the other, followed by
    what is still buffered, is the buffer of the same ticks run with no drain
    at all: nothing lost, nothing twice, order kept. The engine is otherwise
    the same with and without drains. *)
Theorem drain_loses_and_repeats_nothing :
  (forall fsm,
      fst (get_log_messages fsm) = log_messages fsm
      /\ log_messages (snd (get_log_messages fsm)) = []
      /\ fst (get_log_messages (snd (get_log_messages fsm))) = [])
  /\ (forall st dyn robot t fsm made,
         exists emitted,
           log_messages (engine_after (update st dyn robot t fsm made))
           = log_messages fsm ++ emitted)
  /\ (forall robot ops fsm made,
         let with_drains := session robot ops fsm made in
         let undrained := run robot (ticks_in ops) fsm made in
         List.concat (fst with_drains) ++ log_messages (engine_after (snd with_drains))
         = log_messages (engine_after undrained)
         /\ with_log_messages [] (engine_after (snd with_drains))
            = with_log_messages [] (engine_after undrained)
         /\ calls_after (snd with_drains) = calls_after undrained
         /\ outcome_of (snd with_drains) = outcome_of undrained).
Proof.
  split; [|split].
  - intros fsm. cbn. auto.
  - intros st dyn robot t fsm made.
    replace (update st dyn robot t fsm made)
      with (update st dyn robot t (with_log_messages (log_messages fsm) fsm) made)
      by (rewrite with_log_messages_same; reflexivity).
    rewrite update_appends_to_any_buffer.
    destruct (update st dyn robot t (with_log_messages [] fsm) made) as [[r fsm'] made'].
    exists (log_messages fsm'). reflexivity.
  - intros robot ops fsm made.
    pose proof (session_against_run robot ops fsm made) as H.
    cbv zeta.
    destruct (session robot ops fsm made) as [drained [[r fsm'] made']].
    destruct (run robot (ticks_in ops) fsm made) as [[r0 fsm0] made0].
    cbn. tauto.
Qed.

(** A session of the scenario kind: the drains return the two messages once
    each, in the order they were logged. *)
Example drain_session :
  fst (session simulation
         ([Tick (mkTick "Open" "" 100); Tick (mkTick "Open" "" 103); Drain; Drain]
          ++ map Tick (ticks_of "Pointer" "CW"
                         [104; 105; 106; 107; 108; 109; 110; 111; 112; 113;
                          114; 115; 116; 117; 118]%float)
          ++ [Drain])
         __init__ [])
  = [ ["START >= 3.0s -> HABILITADO"]; [];
      ["Seleção inicial 'CW' -> Aguardando confirmação."] ].
Proof. vm_compute. reflexivity. Qed.

(** ** One tick in AwaitConfirm *)

(** The tick on which the count is reached, when both selection calls go
    through: the three calls, the confirmation logged (and the pulse error,
    had the pulse raised), and the engine in RUNNING. *)
Lemma execution_tick robot st dyn t fsm made v1 v2 :
  state fsm = AWAIT_CONFIRM ->
  stop_due fsm st t = false ->
  selection_is (pending_selection fsm) dyn = true ->
  confirm_counter fsm + 1 >= GESTURE_CONFIRM_COUNT ->
  robot made (set_program_selection (selection_is (pending_selection fsm) "CCW"))
    = Returns v1 ->
  robot (made ++ [set_program_selection (selection_is (pending_selection fsm) "CCW");
                  pulse_execute EXEC_PULSE_TIME])
        (set_program_selection false) = Returns v2 ->
  update st dyn robot t fsm made =
  (Returned tt,
   mkFSM RUNNING (gesture_counter fsm) 0 (start_hold_since fsm)
         (stop_hold_next fsm st t) None (Some t) None
         (log_messages fsm
          ++ [("Seleção '" ++ fmt_selection (pending_selection fsm)
               ++ "' confirmada. Executando.")%string]
          ++ pulse_error robot fsm made),
   made ++ [set_program_selection (selection_is (pending_selection fsm) "CCW");
            pulse_execute EXEC_PULSE_TIME;
            set_program_selection false]).
Proof.
  destruct fsm as [s gc cc sh th ah rh ps lg].
  unfold stop_due, stop_hold_next, hold_start, pulse_error, GESTURE_CONFIRM_COUNT.
  cbn [state stop_hold_since pending_selection confirm_counter gesture_counter
       start_hold_since log_messages].
  intros -> Hstop Hsel Hcount Hsel1 Hsel2.
  engine_cases; excluded.
  all: rewrite <- ?app_assoc; cbn [app]; reflexivity.
Qed.

(** A matching tick short of the count and of the timeout: one more on the
    counter, nothing else. *)
Lemma waiting_tick robot st dyn t fsm made :
  state fsm = AWAIT_CONFIRM ->
  stop_due fsm st t = false ->
  selection_is (pending_selection fsm) dyn = true ->
  confirm_counter fsm + 1 < GESTURE_CONFIRM_COUNT ->
  elapsed_over (awaiting_confirm_since fsm) t CONFIRM_TIMEOUT = false ->
  update st dyn robot t fsm made =
  (Returned tt,
   with_stop_hold_since (stop_hold_next fsm st t)
     (with_confirm_counter (confirm_counter fsm + 1) fsm),
   made).
Proof.
  destruct fsm as [s gc cc sh th ah rh ps lg].
  unfold stop_due, stop_hold_next, hold_start.
  cbn [state stop_hold_since pending_selection confirm_counter gesture_counter
       start_hold_since log_messages awaiting_confirm_since].
  intros -> Hstop Hsel Hcount Hwait.
  engine_cases; excluded.
  all: rewrite ?app_nil_r; reflexivity.
Qed.

(** The timeout tick: the count not reached, the timeout over. *)
Lemma timeout_tick robot st dyn t fsm made :
  state fsm = AWAIT_CONFIRM ->
  stop_due fsm st t = false ->
  confirm_count_next fsm dyn < GESTURE_CONFIRM_COUNT ->
  elapsed_over (awaiting_confirm_since fsm) t CONFIRM_TIMEOUT = true ->
  update st dyn robot t fsm made =
  (Returned tt,
   mkFSM ENABLED (gesture_counter fsm) 0 (start_hold_since fsm)
         (stop_hold_next fsm st t) None (running_since fsm) None
         (log_messages fsm ++ ["Timeout de confirmação. Retornando para HABILITADO."]),
   made).
Proof.
  destruct fsm as [s gc cc sh th ah rh ps lg].
  unfold stop_due, stop_hold_next, hold_start, confirm_count_next.
  cbn [state stop_hold_since pending_selection confirm_counter gesture_counter
       start_hold_since log_messages awaiting_confirm_since running_since].
  intros -> Hstop Hcount Hover.
  destruct (selection_is ps dyn) eqn:Hsel.
  all: engine_cases; excluded.
  all: reflexivity.
Qed.

(** Ticks that repeat the pending selection, away from the stop gesture, the
    count and the timeout: the counter goes up by their number. *)
Lemma waiting_run robot d ticks :
  forall fsm made,
    state fsm = AWAIT_CONFIRM ->
    pending_selection fsm = Some d ->
    all_dynamic d ticks = true ->
    none_static "Close" ticks = true ->
    none_elapsed (awaiting_confirm_since fsm) CONFIRM_TIMEOUT ticks = true ->
    confirm_counter fsm + Z.of_nat (List.length ticks) < GESTURE_CONFIRM_COUNT ->
    exists held,
      run robot ticks fsm made =
      (Returned tt,
       with_stop_hold_since held
         (with_confirm_counter (confirm_counter fsm + Z.of_nat (List.length ticks)) fsm),
       made).
Proof.
  induction ticks as [|t ticks IH]; intros fsm made Hst Hps Hdyn Hnc Hne Hlt.
  - exists (stop_hold_since fsm). cbn [run List.length Z.of_nat].
    rewrite Z.add_0_r. destruct fsm; reflexivity.
  - cbn [all_dynamic none_static none_elapsed forallb] in Hdyn, Hnc, Hne.
    apply andb_prop in Hdyn as [Hd Hdyn], Hnc as [Hc Hnc], Hne as [He Hne].
    apply String.eqb_eq in Hd.
    apply negb_true_iff in Hc, He.
    cbn [List.length] in Hlt. rewrite Nat2Z.inj_succ in Hlt.
    cbn [run].
    rewrite (waiting_tick robot (static_gesture t) (dynamic_gesture t) (now t) fsm made);
      trivial.
    + destruct (IH (with_stop_hold_since (stop_hold_next fsm (static_gesture t) (now t))
                      (with_confirm_counter (confirm_counter fsm + 1) fsm)) made)
        as [held Hrun]; trivial.
      * fields. lia.
      * exists held. rewrite Hrun. cbn [List.length]. rewrite Nat2Z.inj_succ.
        destruct fsm; fields. rewrite <- Z.add_assoc, Z.add_1_l. reflexivity.
    + unfold stop_due. rewrite Hc. reflexivity.
    + rewrite Hps, Hd. apply String.eqb_refl.
    + lia.
Qed.

Lemma run_app robot a b fsm made :
  run robot (a ++ b) fsm made =
  match run robot a fsm made with
  | (Returned _, fsm', made') => run robot b fsm' made'
  | (Raised e, fsm', made') => (Raised e, fsm', made')
  end.
Proof.
  revert fsm made. induction a as [|t a IH]; intros fsm made; cbn [run app].
  - reflexivity.
  - destruct (update (static_gesture t) (dynamic_gesture t) robot (now t) fsm made)
      as [[[u|e] fsm1] made1]; [apply IH | reflexivity].
Qed.

Lemma forallb_snoc {A} (p : A -> bool) l x :
  forallb p (l ++ [x]) = forallb p l && p x.
Proof. rewrite forallb_app. cbn. rewrite andb_true_r. reflexivity. Qed.

(** C5. From AwaitConfirm with the counter at zero, fifteen ticks in a row
    that repeat the pending selection (none of them the stop gesture, the
    confirmation timeout not over on the first fourteen): for fourteen ticks
    the engine waits and calls nothing; on the fifteenth [update] calls
    [set_program_selection] with the variant of the pending selection (program
    2 exactly for CCW), then [pulse_execute] with the pulse time, then
    [set_program_selection(False)], once each and in that order, and ends in
    RUNNING with [running_since] the clock of that tick and
    [awaiting_confirm_since], [pending_selection], [confirm_counter] cleared.
    Whether [pulse_execute] returns or raises changes only the log, which
    gets the error after the confirmation. *)
Theorem confirmed_selection_executes robot d waiting last fsm made v1 v2 :
  state fsm = AWAIT_CONFIRM ->
  pending_selection fsm = Some d ->
  confirm_counter fsm = 0 ->
  Z.of_nat (List.length (waiting ++ [last])) = GESTURE_CONFIRM_COUNT ->
  all_dynamic d (waiting ++ [last]) = true ->
  none_static "Close" (waiting ++ [last]) = true ->
  none_elapsed (awaiting_confirm_since fsm) CONFIRM_TIMEOUT waiting = true ->
  robot made (set_program_selection (d =? "CCW")) = Returns v1 ->
  robot (made ++ [set_program_selection (d =? "CCW"); pulse_execute EXEC_PULSE_TIME])
        (set_program_selection false) = Returns v2 ->
  state (engine_after (run robot waiting fsm made)) = AWAIT_CONFIRM
  /\ calls_after (run robot waiting fsm made) = made
  /\ run robot (waiting ++ [last]) fsm made =
     (Returned tt,
      mkFSM RUNNING (gesture_counter fsm) 0 (start_hold_since fsm)
            None None (Some (now last)) None
            (log_messages fsm
             ++ [("Seleção '" ++ d ++ "' confirmada. Executando.")%string]
             ++ match robot (made ++ [set_program_selection (d =? "CCW")])
                            (pulse_execute EXEC_PULSE_TIME) with
                | Returns _ => []
                | Raises e => [("Erro ao executar pulso: " ++ e)%string]
                end),
      made ++ [set_program_selection (d =? "CCW");
               pulse_execute EXEC_PULSE_TIME;
               set_program_selection false]).
Proof.
  destruct fsm as [s gc cc sh th ah rh ps lg].
  cbn [state pending_selection confirm_counter awaiting_confirm_since
       gesture_counter start_hold_since log_messages].
  intros -> -> -> Hlen Hdyn Hnc Hne Hsel1 Hsel2.
  unfold all_dynamic, none_static in Hdyn, Hnc.
  rewrite forallb_snoc in Hdyn, Hnc.
  apply andb_prop in Hdyn as [Hdyn Hd], Hnc as [Hnc Hc].
  apply String.eqb_eq in Hd. apply negb_true_iff in Hc.
  rewrite length_app, Nat2Z.inj_add in Hlen. cbn [List.length Z.of_nat] in Hlen.
  unfold GESTURE_CONFIRM_COUNT in Hlen.
  destruct (waiting_run robot d waiting
              (mkFSM AWAIT_CONFIRM gc 0 sh th ah rh (Some d) lg) made)
    as [held Hrun]; trivial.
  { unfold GESTURE_CONFIRM_COUNT. cbn [confirm_counter]. lia. }
  rewrite run_app, Hrun. cbn [engine_after calls_after fst snd].
  split; [reflexivity | split; [reflexivity|]].
  cbn [run]. fields.
  erewrite execution_tick with (v1 := v1) (v2 := v2).
  - unfold stop_hold_next, pulse_error. fields. rewrite Hc. reflexivity.
  - reflexivity.
  - unfold stop_due. rewrite Hc. reflexivity.
  - cbn [pending_selection selection_is]. rewrite Hd. apply String.eqb_refl.
  - cbn [confirm_counter]. unfold GESTURE_CONFIRM_COUNT. lia.
  - exact Hsel1.
  - exact Hsel2.
Qed.

(** The sample engines are those of the scenario. *)
Example sample_engines :
  run simulation arming __init__ [] = (Returned tt, armed, [set_enabled true])
  /\ run simulation (fifteen "CCW" 104) armed [] = (Returned tt, awaiting_ccw, [])
  /\ run busy (firstn 14 (fifteen_quick "CCW" 120)) awaiting_ccw []
     = (Returned tt, almost_confirmed, [])
  /\ run busy (fifteen_quick "CCW" 120) awaiting_ccw []
     = (Returned tt, running_ccw,
        [set_program_selection true; pulse_execute EXEC_PULSE_TIME;
         set_program_selection false]).
Proof. repeat split; vm_compute; reflexivity. Qed.

(** The pulse raising on the fifteenth tick of a confirmation: caught, logged,
    and the program starts all the same. *)
Lemma confirmed_selection_executes_witness :
  state (engine_after (run pulse_fails (firstn 14 (fifteen_quick "CCW" 120)) awaiting_ccw []))
  = AWAIT_CONFIRM
  /\ calls_after (run pulse_fails (firstn 14 (fifteen_quick "CCW" 120)) awaiting_ccw []) = []
  /\ run pulse_fails
       (firstn 14 (fifteen_quick "CCW" 120) ++ [mkTick "Pointer" "CCW" 121.75]) awaiting_ccw []
     = (Returned tt,
        mkFSM RUNNING 0 0 None None None (Some 121.75%float) None
              (log_messages awaiting_ccw
               ++ ["Seleção 'CCW' confirmada. Executando."]
               ++ ["Erro ao executar pulso: DO6"]),
        [set_program_selection true; pulse_execute EXEC_PULSE_TIME;
         set_program_selection false]).
Proof.
  apply (confirmed_selection_executes pulse_fails "CCW"
           (firstn 14 (fifteen_quick "CCW" 120)) (mkTick "Pointer" "CCW" 121.75)
           awaiting_ccw [] true true); evaluated.
Defined.

(** C7. In AwaitConfirm, on a tick where the stop override does not fire, the
    count is not reached and more than the confirmation timeout has passed
    since [awaiting_confirm_since] (a clock reading, which the source tests by
    truth value: not zero), [update] returns the engine to ENABLED, logs the
    timeout and clears [pending_selection], [awaiting_confirm_since] and
    [confirm_counter]; it calls nothing on the robot. *)
Theorem confirmation_times_out robot st dyn t fsm made since :
  state fsm = AWAIT_CONFIRM ->
  stop_due fsm st t = false ->
  confirm_count_next fsm dyn < GESTURE_CONFIRM_COUNT ->
  awaiting_confirm_since fsm = Some since ->
  truthy since = true ->
  float_gt (PrimFloat.sub t since) CONFIRM_TIMEOUT = true ->
  update st dyn robot t fsm made =
  (Returned tt,
   mkFSM ENABLED (gesture_counter fsm) 0 (start_hold_since fsm)
         (stop_hold_next fsm st t) None (running_since fsm) None
         (log_messages fsm ++ ["Timeout de confirmação. Retornando para HABILITADO."]),
   made).
Proof.
  intros Hst Hstop Hcount Hsince Htrue Hover.
  apply timeout_tick; trivial.
  rewrite Hsince. unfold elapsed_over. rewrite Htrue, Hover. reflexivity.
Qed.

(** Six seconds after the selection, the gesture lost. *)
Lemma confirmation_times_out_witness :
  update "Pointer" "" unplugged 124.5 awaiting_ccw [] =
  (Returned tt,
   mkFSM ENABLED 0 0 None None None None None
         (log_messages awaiting_ccw
          ++ ["Timeout de confirmação. Retornando para HABILITADO."]),
   []).
Proof.
  apply (confirmation_times_out unplugged "Pointer" "" 124.5 awaiting_ccw [] 118);
    evaluated.
Defined.

(** C10. In AwaitConfirm, on a tick where the count is reached and the
    confirmation timeout is over as well, [update] takes the execution path:
    the three robot calls, the confirmation logged, the engine in RUNNING, and
    no timeout message. On such a tick the timeout is not looked at: whatever
    [awaiting_confirm_since] holds, [update] does the same. *)
Theorem count_reached_beats_timeout robot st dyn t fsm made v1 v2 :
  state fsm = AWAIT_CONFIRM ->
  stop_due fsm st t = false ->
  selection_is (pending_selection fsm) dyn = true ->
  confirm_counter fsm + 1 >= GESTURE_CONFIRM_COUNT ->
  elapsed_over (awaiting_confirm_since fsm) t CONFIRM_TIMEOUT = true ->
  robot made (set_program_selection (selection_is (pending_selection fsm) "CCW"))
    = Returns v1 ->
  robot (made ++ [set_program_selection (selection_is (pending_selection fsm) "CCW");
                  pulse_execute EXEC_PULSE_TIME])
        (set_program_selection false) = Returns v2 ->
  update st dyn robot t fsm made =
  (Returned tt,
   mkFSM RUNNING (gesture_counter fsm) 0 (start_hold_since fsm)
         (stop_hold_next fsm st t) None (Some t) None
         (log_messages fsm
          ++ [("Seleção '" ++ fmt_selection (pending_selection fsm)
               ++ "' confirmada. Executando.")%string]
          ++ pulse_error robot fsm made),
   made ++ [set_program_selection (selection_is (pending_selection fsm) "CCW");
            pulse_execute EXEC_PULSE_TIME;
            set_program_selection false])
  /\ forall since,
       update st dyn robot t (with_awaiting_confirm_since since fsm) made
       = update st dyn robot t fsm made.
Proof.
  intros Hst Hstop Hsel Hcount _ Hsel1 Hsel2.
  split.
  - eapply execution_tick; eassumption.
  - intros since.
    rewrite (execution_tick robot st dyn t fsm made v1 v2); trivial.
    rewrite (execution_tick robot st dyn t (with_awaiting_confirm_since since fsm)
               made v1 v2); trivial.
Qed.

(** The fifteenth repeat arriving seven seconds after the selection. *)
Lemma count_reached_beats_timeout_witness :
  update "Pointer" "CCW" simulation 125
    almost_confirmed [] =
  (Returned tt,
   mkFSM RUNNING 0 0 None None None (Some 125%float) None
         (log_messages awaiting_ccw ++ ["Seleção 'CCW' confirmada. Executando."]),
   [set_program_selection true; pulse_execute EXEC_PULSE_TIME;
    set_program_selection false]).
Proof.
  apply (count_reached_beats_timeout simulation "Pointer" "CCW" 125
           almost_confirmed [] true true); evaluated.
Defined.

(** ** One tick in Running *)

(** C2, amended. In RUNNING, on a tick where the stop override does not fire,
    [update] polls the robot once and returns, and the answer decides:
    - the poll returns true: ENABLED, completion logged, before the bound and
      past it alike (no timeout message);
    - the poll returns false and more than the maximum running time has passed
      since [running_since] (a clock reading, tested by truth value: not
      zero): ENABLED, the forced timeout logged;
    - the poll returns false before the bound: RUNNING, nothing changed but
      the stop hold;
    - the poll raises: the error is logged and the engine stays in RUNNING,
      timers and counters unchanged, before the bound and past it alike. *)
Theorem running_poll_decides robot st dyn t fsm made :
  state fsm = RUNNING ->
  stop_due fsm st t = false ->
  update st dyn robot t fsm made =
  (Returned tt,
   match robot made get_program_finished with
   | Returns true =>
       mkFSM ENABLED (gesture_counter fsm) (confirm_counter fsm) (start_hold_since fsm)
             (stop_hold_next fsm st t) (awaiting_confirm_since fsm) None None
             (log_messages fsm ++ ["Programa finalizado. Retornando para HABILITADO."])
   | Returns false =>
       if elapsed_over (running_since fsm) t MAX_RUNNING_TIME then
         mkFSM ENABLED (gesture_counter fsm) (confirm_counter fsm) (start_hold_since fsm)
               (stop_hold_next fsm st t) (awaiting_confirm_since fsm) None None
               (log_messages fsm ++ ["Timeout de execução. Retornando para HABILITADO."])
       else
         with_stop_hold_since (stop_hold_next fsm st t) fsm
   | Raises e =>
       with_log_messages
         (log_messages fsm ++ [("Erro ao verificar status do programa: " ++ e)%string])
         (with_stop_hold_since (stop_hold_next fsm st t) fsm)
   end,
   made ++ [get_program_finished]).
Proof.
  destruct fsm as [s gc cc sh th ah rh ps lg].
  unfold stop_due, stop_hold_next, hold_start.
  cbn [state stop_hold_since pending_selection confirm_counter gesture_counter
       start_hold_since log_messages awaiting_confirm_since running_since].
  intros -> Hstop.
  engine_cases; excluded.
  all: rewrite ?app_nil_r; reflexivity.
Qed.

(** Eighteen seconds into the program, the robot not answering: still RUNNING. *)
Lemma running_poll_decides_witness :
  update "" "" unplugged 140 running_ccw [] =
  (Returned tt,
   with_log_messages
     (log_messages running_ccw ++ ["Erro ao verificar status do programa: RTDE"])
     running_ccw,
   [get_program_finished]).
Proof.
  apply (running_poll_decides unplugged "" "" 140 running_ccw []); evaluated.
Defined.

(** C2 as stated fails. Past the maximum running time (18.25 s since the
    program started), a poll that raises leaves the engine in RUNNING, and a
    poll that returns true logs the completion, not the forced timeout. *)
Lemma running_timeout_depends_on_poll :
  float_gt (PrimFloat.sub 140 121.75) MAX_RUNNING_TIME = true
  /\ running_since running_ccw = Some 121.75%float
  /\ state running_ccw = RUNNING
  /\ unplugged [] get_program_finished = Raises "RTDE"
  /\ state (engine_after (update "" "" unplugged 140 running_ccw [])) = RUNNING
  /\ simulation [] get_program_finished = Returns true
  /\ log_messages (engine_after (update "" "" simulation 140 running_ccw []))
     = log_messages running_ccw ++ ["Programa finalizado. Retornando para HABILITADO."].
Proof. repeat split; vm_compute; reflexivity. Qed.

(** ** Calls that raise *)

(** C3, where the code departs from it. [update] raises when [set_enabled] or
    [set_program_selection] raises: on the stop override (the engine stays
    ENABLED, the hold stays recorded, the STOP message is lost), on arming
    (the engine stays DISABLED), on the first and on the last selection call of
    a confirmed execution (the engine stays in AWAIT_CONFIRM). *)
Example update_raises_with_the_robot :
  update "Close" "" unplugged 103 (with_stop_hold_since (Some 100%float) armed) []
  = (Raised "RTDE", with_stop_hold_since (Some 100%float) armed, [set_enabled false])
  /\ update "Open" "" unplugged 103 (with_start_hold_since (Some 100%float) __init__) []
     = (Raised "RTDE", with_start_hold_since (Some 100%float) __init__, [set_enabled true])
  /\ update "Pointer" "CCW" unplugged 121.75 almost_confirmed []
     = (Raised "RTDE", with_confirm_counter 15 almost_confirmed,
        [set_program_selection true])
  /\ update "Pointer" "CCW" selection_reset_fails 121.75 almost_confirmed []
     = (Raised "DO5", with_confirm_counter 15 almost_confirmed,
        [set_program_selection true; pulse_execute EXEC_PULSE_TIME;
         set_program_selection false]).
Proof. repeat split; vm_compute; reflexivity. Qed.

(** ** The stop override *)

Lemma count_set_enabled_app b l l' :
  count_set_enabled b (l ++ l') = (count_set_enabled b l + count_set_enabled b l')%nat.
Proof. unfold count_set_enabled. rewrite filter_app, length_app. reflexivity. Qed.

(** The tick on which the override fires, from any state but DISABLED:
    [set_enabled(False)] and nothing else is called, and the handler of the
    state the engine was in does not run. *)
Lemma stop_tick robot dyn t fsm made v :
  state fsm <> DISABLED ->
  stop_due fsm "Close" t = true ->
  robot made (set_enabled false) = Returns v ->
  update "Close" dyn robot t fsm made =
  (Returned tt,
   mkFSM DISABLED 0 0 None None None None None
         (log_messages fsm ++ ["STOP >= 3.0s -> DESABILITADO"]),
   made ++ [set_enabled false]).
Proof.
  destruct fsm as [s gc cc sh th ah rh ps lg].
  unfold stop_due, hold_start.
  cbn [state stop_hold_since log_messages].
  intros Hst Hstop Hret.
  destruct s; try congruence.
  all: engine_cases; excluded.
  all: reflexivity.
Qed.

Lemma stop_tick_raises robot dyn t fsm made e :
  state fsm <> DISABLED ->
  stop_due fsm "Close" t = true ->
  robot made (set_enabled false) = Raises e ->
  outcome_of (update "Close" dyn robot t fsm made) = Raised e.
Proof.
  destruct fsm as [s gc cc sh th ah rh ps lg].
  unfold stop_due, hold_start, outcome_of.
  cbn [state stop_hold_since log_messages].
  intros Hst Hstop Hret.
  destruct s; try congruence.
  all: engine_cases; excluded.
  all: reflexivity.
Qed.

(** A Close tick short of the hold: the hold goes on from where it counts,
    the engine does not become DISABLED, [set_enabled(False)] is not called. *)
Lemma held_tick robot dyn t fsm made fsm' made' :
  state fsm <> DISABLED ->
  stop_due fsm "Close" t = false ->
  update "Close" dyn robot t fsm made = (Returned tt, fsm', made') ->
  state fsm' <> DISABLED
  /\ stop_hold_since fsm' = Some (hold_start (stop_hold_since fsm) t)
  /\ count_set_enabled false made' = count_set_enabled false made.
Proof.
  destruct fsm as [s gc cc sh th ah rh ps lg].
  unfold stop_due, hold_start.
  cbn [state stop_hold_since log_messages].
  intros Hst Hstop.
  destruct s; try congruence.
  all: engine_cases; excluded.
  all: try discriminate.
  all: returned; cbn [state stop_hold_since].
  all: rewrite ?count_set_enabled_app; cbn.
  all: repeat split; try congruence; try lia.
Qed.

(** In DISABLED a Close tick calls nothing and changes nothing but the holds. *)
Lemma disabled_close_tick robot dyn t fsm made :
  state fsm = DISABLED ->
  exists held,
    update "Close" dyn robot t fsm made =
    (Returned tt, with_start_hold_since None (with_stop_hold_since held fsm), made).
Proof.
  destruct fsm as [s gc cc sh th ah rh ps lg].
  cbn [state]. intros ->.
  engine_cases; rewrite ?app_nil_r; eexists; reflexivity.
Qed.

(** Any tick but a Close one drops the stop hold, however [update] ends. *)
Lemma other_tick_drops_stop_hold robot st dyn t fsm made :
  st <> "Close" ->
  stop_hold_since (engine_after (update st dyn robot t fsm made)) = None.
Proof.
  intros Hst. apply String.eqb_neq in Hst.
  destruct fsm as [s gc cc sh th ah rh ps lg].
  unfold engine_after.
  engine_cases; excluded.
  all: reflexivity.
Qed.

Lemma run_returned_prefix robot a b fsm made :
  outcome_of (run robot (a ++ b) fsm made) = Returned tt ->
  exists fsm1 made1,
    run robot a fsm made = (Returned tt, fsm1, made1)
    /\ run robot (a ++ b) fsm made = run robot b fsm1 made1.
Proof.
  rewrite run_app.
  destruct (run robot a fsm made) as [[[[]|e] fsm1] made1]; cbn.
  - intros _. exists fsm1, made1. auto.
  - discriminate.
Qed.

Lemma disabled_close_run robot ticks :
  forall fsm made,
    state fsm = DISABLED ->
    all_static "Close" ticks = true ->
    exists fsm',
      run robot ticks fsm made = (Returned tt, fsm', made) /\ state fsm' = DISABLED.
Proof.
  induction ticks as [|[st dyn t] ticks IH]; intros fsm made Hst Hall.
  - exists fsm. auto.
  - cbn [all_static forallb static_gesture] in Hall.
    apply andb_prop in Hall as [Hc Hall]. apply String.eqb_eq in Hc. subst st.
    cbn [run static_gesture dynamic_gesture now].
    destruct (disabled_close_tick robot dyn t fsm made Hst) as [held ->].
    apply IH; [destruct fsm; exact Hst | exact Hall].
Qed.

(** Close ticks short of the hold, from any state but DISABLED. *)
Lemma held_run robot last pre :
  forall fsm made fsm' made',
    state fsm <> DISABLED ->
    all_static "Close" pre = true ->
    short_of STOP_HOLD_TIME (hold_start (stop_hold_since fsm) (now (hd last pre))) pre = true ->
    run robot pre fsm made = (Returned tt, fsm', made') ->
    state fsm' <> DISABLED
    /\ count_set_enabled false made' = count_set_enabled false made
    /\ hold_start (stop_hold_since fsm') (now last)
       = hold_start (stop_hold_since fsm) (now (hd last pre)).
Proof.
  induction pre as [|[st dyn t] pre IH]; intros fsm made fsm' made' Hst Hall Hshort Hrun.
  - cbn in Hrun. inversion Hrun; subst. auto.
  - cbn [all_static forallb static_gesture] in Hall.
    apply andb_prop in Hall as [Hc Hall]. apply String.eqb_eq in Hc. subst st.
    cbn [hd now] in *. cbn [short_of forallb now] in Hshort.
    apply andb_prop in Hshort as [Hnow Hshort]. apply negb_true_iff in Hnow.
    cbn [run static_gesture dynamic_gesture now] in Hrun.
    destruct (update "Close" dyn robot t fsm made) as [[[[]|e] fsm1] made1] eqn:Hup;
      [|discriminate].
    assert (Hquiet : stop_due fsm "Close" t = false).
    { unfold stop_due. rewrite Hnow. reflexivity. }
    destruct (held_tick robot dyn t fsm made fsm1 made1 Hst Hquiet Hup)
      as (Hst1 & Hheld & Hcount).
    assert (Hshort1 : short_of STOP_HOLD_TIME
                        (hold_start (stop_hold_since fsm1) (now (hd last pre))) pre = true).
    { rewrite Hheld. exact Hshort. }
    destruct (IH fsm1 made1 fsm' made' Hst1 Hall Hshort1 Hrun) as (Hst' & Hcount' & Hheld').
    rewrite Hheld in Hheld'. cbn [hold_start] in Hheld'.
    repeat split; congruence.
Qed.

(** C1, amended. (1) On a tick showing Close with the stop hold reached, from
    any state but DISABLED, [update] calls [set_enabled(False)] and nothing
    else, and leaves the engine DISABLED with every timer, counter and the
    pending selection cleared: the handler of the state the engine was in does
    not run, whatever the dynamic gesture. (2) Over a run of Close ticks from
    any state but DISABLED, each [update] returning, with the hold (counted
    from the recorded start, or from the first tick when none is recorded)
    reached on tick [last] and not before: the engine is not DISABLED before
    [last], is DISABLED from [last] on, and [set_enabled(False)] has been
    called exactly once, however long Close stays. (3) From DISABLED, Close
    ticks call nothing at all and leave the engine DISABLED. (4) A tick
    showing anything but Close leaves no stop hold recorded. *)
Theorem stop_override_disables :
  (forall robot dyn t fsm made v,
      state fsm <> DISABLED ->
      stop_due fsm "Close" t = true ->
      robot made (set_enabled false) = Returns v ->
      update "Close" dyn robot t fsm made =
      (Returned tt,
       mkFSM DISABLED 0 0 None None None None None
             (log_messages fsm ++ ["STOP >= 3.0s -> DESABILITADO"]),
       made ++ [set_enabled false]))
  /\ (forall robot pre last post fsm made,
         state fsm <> DISABLED ->
         all_static "Close" (pre ++ last :: post) = true ->
         short_of STOP_HOLD_TIME
           (hold_start (stop_hold_since fsm) (now (hd last pre))) pre = true ->
         float_ge (PrimFloat.sub (now last)
                     (hold_start (stop_hold_since fsm) (now (hd last pre))))
                  STOP_HOLD_TIME = true ->
         outcome_of (run robot (pre ++ last :: post) fsm made) = Returned tt ->
         state (engine_after (run robot pre fsm made)) <> DISABLED
         /\ state (engine_after (run robot (pre ++ [last]) fsm made)) = DISABLED
         /\ state (engine_after (run robot (pre ++ last :: post) fsm made)) = DISABLED
         /\ count_set_enabled false (calls_after (run robot (pre ++ last :: post) fsm made))
            = S (count_set_enabled false made))
  /\ (forall robot ticks fsm made,
         state fsm = DISABLED ->
         all_static "Close" ticks = true ->
         outcome_of (run robot ticks fsm made) = Returned tt
         /\ state (engine_after (run robot ticks fsm made)) = DISABLED
         /\ calls_after (run robot ticks fsm made) = made)
  /\ (forall robot st dyn t fsm made,
         st <> "Close" ->
         stop_hold_since (engine_after (update st dyn robot t fsm made)) = None).
Proof.
  split; [|split; [|split]].
  - exact stop_tick.
  - intros robot pre last post fsm made Hst Hall Hshort Hreach Hret.
    unfold all_static in Hall. rewrite forallb_app in Hall.
    apply andb_prop in Hall as [Hpre Hrest].
    cbn [forallb] in Hrest. apply andb_prop in Hrest as [Hlast Hpost].
    apply String.eqb_eq in Hlast.
    destruct (run_returned_prefix robot pre (last :: post) fsm made Hret)
      as (fsm1 & made1 & Hrun1 & Hsplit).
    destruct (held_run robot last pre fsm made fsm1 made1 Hst Hpre Hshort Hrun1)
      as (Hst1 & Hcount1 & Hheld1).
    rewrite Hsplit in Hret |- *. rewrite run_app, Hrun1.
    destruct last as [st dyn t]. cbn [static_gesture] in Hlast. subst st.
    cbn [run static_gesture dynamic_gesture now] in *.
    assert (Hdue : stop_due fsm1 "Close" t = true).
    { unfold stop_due. rewrite Hheld1, Hreach. reflexivity. }
    destruct (robot made1 (set_enabled false)) as [v|e] eqn:Hrobot.
    + rewrite (stop_tick robot dyn t fsm1 made1 v Hst1 Hdue Hrobot) in *.
      destruct (disabled_close_run robot post
                  (mkFSM DISABLED 0 0 None None None None None
                     (log_messages fsm1 ++ ["STOP >= 3.0s -> DESABILITADO"]))
                  (made1 ++ [set_enabled false]) eq_refl Hpost)
        as (fsm2 & Hrun2 & Hst2).
      rewrite Hrun2. cbn [engine_after calls_after fst snd].
      repeat split; trivial.
      rewrite count_set_enabled_app, Hcount1. cbn. lia.
    + pose proof (stop_tick_raises robot dyn t fsm1 made1 e Hst1 Hdue Hrobot) as Hraise.
      unfold outcome_of in *.
      destruct (update "Close" dyn robot t fsm1 made1) as [[[[]|e'] fsm2] made2];
        cbn in Hraise, Hret; discriminate.
  - intros robot ticks fsm made Hst Hall.
    destruct (disabled_close_run robot ticks fsm made Hst Hall) as (fsm' & -> & Hst').
    cbn. auto.
  - exact other_tick_drops_stop_hold.
Qed.

(** A closed hand over the confirming engine, the fifteenth repeat included:
    the override wins on the tick the hold is reached; from the running
    engine four seconds of Close disable once; from the initial engine they
    call nothing; an open hand drops the hold. *)
Lemma stop_override_disables_witness :
  update "Close" "CCW" simulation 106
    (with_stop_hold_since (Some 103%float) almost_confirmed) []
  = (Returned tt,
     mkFSM DISABLED 0 0 None None None None None
           (log_messages almost_confirmed ++ ["STOP >= 3.0s -> DESABILITADO"]),
     [set_enabled false])
  /\ (state (engine_after (run busy (firstn 3 (five_seconds "Close" 200)) running_ccw []))
      <> DISABLED
      /\ state (engine_after (run busy (firstn 3 (five_seconds "Close" 200)
                                         ++ [mkTick "Close" "" 203]) running_ccw []))
         = DISABLED
      /\ state (engine_after (run busy (firstn 3 (five_seconds "Close" 200)
                                         ++ mkTick "Close" "" 203 :: five_seconds "Close" 204)
                                running_ccw []))
         = DISABLED
      /\ count_set_enabled false
           (calls_after (run busy (firstn 3 (five_seconds "Close" 200)
                                     ++ mkTick "Close" "" 203 :: five_seconds "Close" 204)
                            running_ccw []))
         = 1%nat)
  /\ (outcome_of (run unplugged (five_seconds "Close" 100) __init__ []) = Returned tt
      /\ state (engine_after (run unplugged (five_seconds "Close" 100) __init__ [])) = DISABLED
      /\ calls_after (run unplugged (five_seconds "Close" 100) __init__ []) = [])
  /\ stop_hold_since
       (engine_after (update "Open" "" simulation 105
                        (with_stop_hold_since (Some 103%float) armed) []))
     = None.
Proof.
  split; [|split; [|split]].
  - apply (proj1 stop_override_disables simulation "CCW" 106%float
             (with_stop_hold_since (Some 103%float) almost_confirmed) [] true);
      evaluated.
  - apply (proj1 (proj2 stop_override_disables) busy
             (firstn 3 (five_seconds "Close" 200)) (mkTick "Close" "" 203)
             (five_seconds "Close" 204) running_ccw []); evaluated.
  - apply (proj1 (proj2 (proj2 stop_override_disables)) unplugged
             (five_seconds "Close" 100) __init__ []); evaluated.
  - apply (proj2 (proj2 (proj2 stop_override_disables)) simulation "Open" "" 105%float
             (with_stop_hold_since (Some 103%float) armed) []); evaluated.
Defined.

(** C1 as stated fails for the DISABLED engine: Close held for four seconds,
    the hold reached on the fourth tick, and [set_enabled(False)] is not called
    once but never. *)
Lemma stop_hold_in_disabled_calls_nothing :
  state __init__ = DISABLED
  /\ all_static "Close" (five_seconds "Close" 100) = true
  /\ stop_due (engine_after (run simulation (firstn 3 (five_seconds "Close" 100)) __init__ []))
       "Close" 103 = true
  /\ run simulation (five_seconds "Close" 100) __init__ []
     = (Returned tt, with_stop_hold_since (Some 104%float) __init__, [])
  /\ count_set_enabled false
       (calls_after (run simulation (five_seconds "Close" 100) __init__ [])) <> 1%nat.
Proof. repeat split; vm_compute; try reflexivity; discriminate. Qed.

(** ** The start hold *)

(** The first Open tick of a hold only records the instant. *)
Lemma open_first_tick robot dyn t fsm made :
  state fsm = DISABLED ->
  start_hold_since fsm = None ->
  update "Open" dyn robot t fsm made =
  (Returned tt, with_start_hold_since (Some t) (with_stop_hold_since None fsm), made).
Proof.
  destruct fsm as [s gc cc sh th ah rh ps lg].
  cbn [state start_hold_since]. intros -> ->.
  engine_cases; rewrite ?app_nil_r; reflexivity.
Qed.

(** An Open tick short of the hold changes nothing. *)
Lemma open_wait_tick robot dyn t fsm made t0 :
  state fsm = DISABLED ->
  start_hold_since fsm = Some t0 ->
  float_ge (PrimFloat.sub t t0) START_HOLD_TIME = false ->
  update "Open" dyn robot t fsm made =
  (Returned tt, with_stop_hold_since None fsm, made).
Proof.
  destruct fsm as [s gc cc sh th ah rh ps lg].
  cbn [state start_hold_since]. intros -> -> Hshort.
  engine_cases; excluded.
  rewrite ?app_nil_r; reflexivity.
Qed.

(** The Open tick on which the hold is reached. *)
Lemma open_arm_tick robot dyn t fsm made t0 v :
  state fsm = DISABLED ->
  start_hold_since fsm = Some t0 ->
  float_ge (PrimFloat.sub t t0) START_HOLD_TIME = true ->
  robot made (set_enabled true) = Returns v ->
  update "Open" dyn robot t fsm made =
  (Returned tt,
   mkFSM ENABLED (gesture_counter fsm) (confirm_counter fsm) None None None
         (running_since fsm) None
         (log_messages fsm ++ ["START >= 3.0s -> HABILITADO"]),
   made ++ [set_enabled true]).
Proof.
  destruct fsm as [s gc cc sh th ah rh ps lg].
  cbn [state start_hold_since gesture_counter confirm_counter running_since log_messages].
  intros -> -> Hreach Hret.
  engine_cases; excluded.
  reflexivity.
Qed.

(** Away from the stop gesture an engine that is not DISABLED does not become
    so, and [set_enabled(True)] is not called, however [update] ends. *)
Lemma armed_tick robot st dyn t fsm made :
  st <> "Close" ->
  state fsm <> DISABLED ->
  state (engine_after (update st dyn robot t fsm made)) <> DISABLED
  /\ count_set_enabled true (calls_after (update st dyn robot t fsm made))
     = count_set_enabled true made.
Proof.
  intros Hst Hs. apply String.eqb_neq in Hst.
  destruct fsm as [s gc cc sh th ah rh ps lg].
  cbn [state] in Hs. unfold engine_after, calls_after.
  destruct s; try congruence.
  all: engine_cases; excluded.
  all: unfold count_set_enabled; rewrite ?filter_app, ?length_app; cbn.
  all: split; try congruence; try lia.
Qed.

(** In DISABLED any tick but an Open one calls nothing and drops the hold. *)
Lemma disabled_other_tick robot st dyn t fsm made :
  st <> "Open" ->
  state fsm = DISABLED ->
  exists held,
    update st dyn robot t fsm made =
    (Returned tt, with_start_hold_since None (with_stop_hold_since held fsm), made).
Proof.
  intros Hst. apply String.eqb_neq in Hst.
  destruct fsm as [s gc cc sh th ah rh ps lg].
  cbn [state]. intros ->.
  engine_cases; excluded.
  all: rewrite ?app_nil_r; eexists; reflexivity.
Qed.

Lemma open_wait_run robot t0 mid :
  forall fsm made,
    state fsm = DISABLED ->
    start_hold_since fsm = Some t0 ->
    stop_hold_since fsm = None ->
    all_static "Open" mid = true ->
    short_of START_HOLD_TIME t0 mid = true ->
    run robot mid fsm made = (Returned tt, fsm, made).
Proof.
  induction mid as [|[st dyn t] mid IH]; intros fsm made Hst Hsince Hstop Hall Hshort.
  - reflexivity.
  - cbn [all_static forallb static_gesture] in Hall.
    apply andb_prop in Hall as [Ho Hall]. apply String.eqb_eq in Ho. subst st.
    cbn [short_of forallb now] in Hshort.
    apply andb_prop in Hshort as [Hnow Hshort]. apply negb_true_iff in Hnow.
    cbn [run static_gesture dynamic_gesture now].
    rewrite (open_wait_tick robot dyn t fsm made t0 Hst Hsince Hnow).
    replace (with_stop_hold_since None fsm) with fsm
      by (destruct fsm; cbn in Hstop; subst; reflexivity).
    apply IH; trivial.
Qed.

Lemma armed_run robot post :
  forall fsm made,
    none_static "Close" post = true ->
    state fsm <> DISABLED ->
    state (engine_after (run robot post fsm made)) <> DISABLED
    /\ count_set_enabled true (calls_after (run robot post fsm made))
       = count_set_enabled true made.
Proof.
  induction post as [|[st dyn t] post IH]; intros fsm made Hnone Hst.
  - cbn. auto.
  - cbn [none_static forallb static_gesture] in Hnone.
    apply andb_prop in Hnone as [Hc Hnone].
    apply negb_true_iff, String.eqb_neq in Hc.
    destruct (armed_tick robot st dyn t fsm made Hc Hst) as [Hst1 Hcount1].
    cbn [run static_gesture dynamic_gesture now].
    destruct (update st dyn robot t fsm made) as [[[[]|e] fsm1] made1].
    + cbn [engine_after calls_after fst snd] in Hst1, Hcount1.
      destruct (IH fsm1 made1 Hnone Hst1) as [Hst2 Hcount2].
      split; congruence.
    + auto.
Qed.

Lemma all_static_none_static g h ticks :
  g <> h -> all_static g ticks = true -> none_static h ticks = true.
Proof.
  intros Hgh. unfold all_static, none_static.
  induction ticks as [|t ticks IH]; cbn; trivial.
  intros H. apply andb_prop in H as [Hg H]. apply String.eqb_eq in Hg.
  rewrite Hg, (IH H).
  apply String.eqb_neq in Hgh. rewrite Hgh. reflexivity.
Qed.

Lemma open_hold_run robot first mid fsm made :
  state fsm = DISABLED ->
  start_hold_since fsm = None ->
  all_static "Open" (first :: mid) = true ->
  short_of START_HOLD_TIME (now first) mid = true ->
  run robot (first :: mid) fsm made =
  (Returned tt,
   with_start_hold_since (Some (now first)) (with_stop_hold_since None fsm), made).
Proof.
  intros Hst Hsince Hall Hshort.
  destruct first as [st dyn t].
  cbn [all_static forallb static_gesture] in Hall.
  apply andb_prop in Hall as [Ho Hall]. apply String.eqb_eq in Ho. subst st.
  cbn [run static_gesture dynamic_gesture now] in *.
  rewrite (open_first_tick robot dyn t fsm made Hst Hsince).
  apply open_wait_run with (t0 := t); trivial.
Qed.

(** C8. (1) From DISABLED with no start hold recorded, over ticks that all
    show Open: the first tick records the instant; while the time since then
    falls short of the start hold the engine stays DISABLED and calls nothing;
    on the first tick that reaches it, [update] calls [set_enabled(True)] and
    the engine is ENABLED; and however long Open stays after that, the engine
    does not go back to DISABLED and [set_enabled(True)] has been called
    exactly once. (2) A hold that falls short of the duration on every tick
    never enables: the engine is DISABLED after it, nothing called. (3) In
    DISABLED, a tick showing anything but Open leaves no start hold recorded,
    calls nothing, and the engine stays DISABLED. *)
Theorem start_hold_enables :
  (forall robot first mid last post fsm made v,
      state fsm = DISABLED ->
      start_hold_since fsm = None ->
      all_static "Open" (first :: mid ++ last :: post) = true ->
      short_of START_HOLD_TIME (now first) mid = true ->
      float_ge (PrimFloat.sub (now last) (now first)) START_HOLD_TIME = true ->
      robot made (set_enabled true) = Returns v ->
      state (engine_after (run robot (first :: mid) fsm made)) = DISABLED
      /\ run robot (first :: mid ++ [last]) fsm made
         = (Returned tt,
            mkFSM ENABLED (gesture_counter fsm) (confirm_counter fsm) None None None
                  (running_since fsm) None
                  (log_messages fsm ++ ["START >= 3.0s -> HABILITADO"]),
            made ++ [set_enabled true])
      /\ state (engine_after (run robot (first :: mid ++ last :: post) fsm made))
         <> DISABLED
      /\ count_set_enabled true
           (calls_after (run robot (first :: mid ++ last :: post) fsm made))
         = S (count_set_enabled true made))
  /\ (forall robot first mid fsm made,
         state fsm = DISABLED ->
         start_hold_since fsm = None ->
         all_static "Open" (first :: mid) = true ->
         short_of START_HOLD_TIME (now first) mid = true ->
         run robot (first :: mid) fsm made
         = (Returned tt,
            with_start_hold_since (Some (now first)) (with_stop_hold_since None fsm),
            made))
  /\ (forall robot st dyn t fsm made,
         st <> "Open" ->
         state fsm = DISABLED ->
         outcome_of (update st dyn robot t fsm made) = Returned tt
         /\ state (engine_after (update st dyn robot t fsm made)) = DISABLED
         /\ start_hold_since (engine_after (update st dyn robot t fsm made)) = None
         /\ calls_after (update st dyn robot t fsm made) = made).
Proof.
  split; [|split].
  - intros robot first mid last post fsm made v Hst Hsince Hall Hshort Hreach Hret.
    assert (Hall' := Hall).
    change (first :: mid ++ last :: post) with ((first :: mid) ++ last :: post) in Hall.
    unfold all_static in Hall. rewrite forallb_app in Hall.
    apply andb_prop in Hall as [Hhold Hrest].
    cbn [forallb] in Hrest. apply andb_prop in Hrest as [Hlast Hpost].
    apply String.eqb_eq in Hlast.
    pose proof (open_hold_run robot first mid fsm made Hst Hsince Hhold Hshort) as Hrun.
    assert (Harm :
      run robot (first :: mid ++ [last]) fsm made
      = (Returned tt,
         mkFSM ENABLED (gesture_counter fsm) (confirm_counter fsm) None None None
               (running_since fsm) None
               (log_messages fsm ++ ["START >= 3.0s -> HABILITADO"]),
         made ++ [set_enabled true])).
    { change (first :: mid ++ [last]) with ((first :: mid) ++ [last]).
      rewrite run_app, Hrun.
      destruct last as [st dyn t]. cbn [static_gesture now] in *. subst st.
      cbn [run static_gesture dynamic_gesture now].
      rewrite (open_arm_tick robot dyn t _ made (now first) v).
      - destruct fsm; reflexivity.
      - destruct fsm; exact Hst.
      - destruct fsm; reflexivity.
      - exact Hreach.
      - exact Hret. }
    split; [rewrite Hrun; destruct fsm; exact Hst|].
    split; [exact Harm|].
    replace (first :: mid ++ last :: post) with ((first :: mid ++ [last]) ++ post)
      by (cbn; rewrite <- app_assoc; reflexivity).
    rewrite run_app, Harm.
    destruct (armed_run robot post
                (mkFSM ENABLED (gesture_counter fsm) (confirm_counter fsm) None None None
                   (running_since fsm) None
                   (log_messages fsm ++ ["START >= 3.0s -> HABILITADO"]))
                (made ++ [set_enabled true])) as [Hst2 Hcount2].
    + apply all_static_none_static with (g := "Open"); [discriminate | exact Hpost].
    + cbn. discriminate.
    + split; [exact Hst2|].
      rewrite Hcount2, count_set_enabled_app. cbn. lia.
  - exact open_hold_run.
  - intros robot st dyn t fsm made Hst Hs.
    destruct (disabled_other_tick robot st dyn t fsm made Hst Hs) as [held ->].
    cbn. destruct fsm; auto.
Qed.

(** Open held for five seconds from the start, then selection gestures: armed
    on the fourth tick, once; two seconds of Open do not arm; a fist drops the
    hold. *)
Lemma start_hold_enables_witness :
  (state (engine_after (run simulation (firstn 3 (five_seconds "Open" 100)) __init__ []))
   = DISABLED
   /\ run simulation (firstn 3 (five_seconds "Open" 100) ++ [mkTick "Open" "" 103])
        __init__ []
      = (Returned tt, armed, [set_enabled true])
   /\ state (engine_after
               (run simulation
                  (firstn 3 (five_seconds "Open" 100)
                   ++ mkTick "Open" "" 103 :: ticks_of "Open" "CW" [104; 105]%float)
                  __init__ []))
      <> DISABLED
   /\ count_set_enabled true
        (calls_after
           (run simulation
              (firstn 3 (five_seconds "Open" 100)
               ++ mkTick "Open" "" 103 :: ticks_of "Open" "CW" [104; 105]%float)
              __init__ []))
      = 1%nat)
  /\ run unplugged (firstn 3 (five_seconds "Open" 100)) __init__ []
     = (Returned tt, with_start_hold_since (Some 100%float) __init__, [])
  /\ (outcome_of (update "Close" "" unplugged 102
                    (with_start_hold_since (Some 100%float) __init__) [])
      = Returned tt
      /\ state (engine_after (update "Close" "" unplugged 102
                                (with_start_hold_since (Some 100%float) __init__) []))
         = DISABLED
      /\ start_hold_since
           (engine_after (update "Close" "" unplugged 102
                            (with_start_hold_since (Some 100%float) __init__) []))
         = None
      /\ calls_after (update "Close" "" unplugged 102
                        (with_start_hold_since (Some 100%float) __init__) [])
         = []).
Proof.
  split; [|split].
  - apply (proj1 start_hold_enables simulation (mkTick "Open" "" 100)
             (ticks_of "Open" "" [101; 102]%float) (mkTick "Open" "" 103)
             (ticks_of "Open" "CW" [104; 105]%float) __init__ [] true); evaluated.
  - apply (proj1 (proj2 start_hold_enables) unplugged (mkTick "Open" "" 100)
             (ticks_of "Open" "" [101; 102]%float) __init__ []); evaluated.
  - apply (proj2 (proj2 start_hold_enables) unplugged "Close" "" 102%float
             (with_start_hold_since (Some 100%float) __init__) []);
      first [ discriminate | evaluated ].
Defined.

(** ** Selection in Enabled *)

(** A direction tick short of the count. *)
Lemma counting_tick robot st dir t fsm made :
  state fsm = ENABLED ->
  st <> "Close" ->
  is_direction dir = true ->
  gesture_count_next fsm dir < GESTURE_CONFIRM_COUNT ->
  update st dir robot t fsm made =
  (Returned tt,
   with_stop_hold_since None
     (with_gesture_counter (gesture_count_next fsm dir)
        (with_pending_selection (Some dir) fsm)),
   made).
Proof.
  intros Hs Hst. apply String.eqb_neq in Hst. revert Hs.
  destruct fsm as [s gc cc sh th ah rh ps lg].
  unfold gesture_count_next.
  cbn [state pending_selection gesture_counter]. intros -> Hdir Hcount.
  destruct (selection_is ps dir) eqn:Hsel.
  - engine_cases; excluded.
    all: selected.
    all: rewrite ?app_nil_r; reflexivity.
  - engine_cases; excluded.
    all: rewrite ?app_nil_r; reflexivity.
Qed.

(** The direction tick that reaches the count. *)
Lemma selecting_tick robot st dir t fsm made :
  state fsm = ENABLED ->
  st <> "Close" ->
  is_direction dir = true ->
  gesture_count_next fsm dir >= GESTURE_CONFIRM_COUNT ->
  update st dir robot t fsm made =
  (Returned tt,
   mkFSM AWAIT_CONFIRM 0 (confirm_counter fsm) (start_hold_since fsm) None
         (Some t) None (Some dir)
         (log_messages fsm
          ++ [("Seleção inicial '" ++ dir ++ "' -> Aguardando confirmação.")%string]),
   made).
Proof.
  intros Hs Hst. apply String.eqb_neq in Hst. revert Hs.
  destruct fsm as [s gc cc sh th ah rh ps lg].
  unfold gesture_count_next.
  cbn [state pending_selection gesture_counter confirm_counter start_hold_since
       log_messages].
  intros -> Hdir Hcount.
  destruct (selection_is ps dir) eqn:Hsel.
  - engine_cases; excluded.
    all: selected.
    all: reflexivity.
  - engine_cases; excluded.
    all: reflexivity.
Qed.

Lemma counting_run robot dir ticks :
  forall fsm made,
    state fsm = ENABLED ->
    pending_selection fsm = Some dir ->
    is_direction dir = true ->
    all_dynamic dir ticks = true ->
    none_static "Close" ticks = true ->
    gesture_counter fsm + Z.of_nat (List.length ticks) < GESTURE_CONFIRM_COUNT ->
    exists held,
      run robot ticks fsm made =
      (Returned tt,
       with_stop_hold_since held
         (with_gesture_counter (gesture_counter fsm + Z.of_nat (List.length ticks)) fsm),
       made).
Proof.
  induction ticks as [|[st dyn t] ticks IH]; intros fsm made Hs Hps Hdir Hdyn Hnc Hlt.
  - exists (stop_hold_since fsm). cbn [run List.length Z.of_nat].
    rewrite Z.add_0_r. destruct fsm; reflexivity.
  - cbn [all_dynamic none_static forallb static_gesture dynamic_gesture] in Hdyn, Hnc.
    apply andb_prop in Hdyn as [Hd Hdyn], Hnc as [Hc Hnc].
    apply String.eqb_eq in Hd. subst dyn.
    apply negb_true_iff, String.eqb_neq in Hc.
    cbn [List.length] in Hlt |- *. rewrite Nat2Z.inj_succ in Hlt |- *.
    cbn [run static_gesture dynamic_gesture now].
    assert (Hnext : gesture_count_next fsm dir = gesture_counter fsm + 1).
    { unfold gesture_count_next, selection_is. rewrite Hps, String.eqb_refl.
      reflexivity. }
    rewrite (counting_tick robot st dir t fsm made Hs Hc Hdir) by (rewrite Hnext; lia).
    rewrite Hnext.
    destruct (IH (with_stop_hold_since None
                    (with_gesture_counter (gesture_counter fsm + 1)
                       (with_pending_selection (Some dir) fsm))) made)
      as [held Hrun]; trivial.
    + fields. lia.
    + exists held. rewrite Hrun.
      destruct fsm as [s gc cc sh th ah rh ps lg]. cbn in Hps. subst ps.
      fields. rewrite <- Z.add_assoc, Z.add_1_l. reflexivity.
Qed.

(** One tick of an alternation: the engine does not reach AWAIT_CONFIRM, and
    is as far from a selection for any other direction as it was. *)
Lemma alternating_tick robot st dir t fsm made :
  is_direction dir = true ->
  not_selecting fsm dir ->
  state (engine_after (update st dir robot t fsm made)) <> AWAIT_CONFIRM
  /\ (state (engine_after (update st dir robot t fsm made)) = DISABLED
      \/ state (engine_after (update st dir robot t fsm made)) = ENABLED)
  /\ (outcome_of (update st dir robot t fsm made) = Returned tt ->
      forall other, other <> dir ->
        not_selecting (engine_after (update st dir robot t fsm made)) other).
Proof.
  destruct fsm as [s gc cc sh th ah rh ps lg].
  unfold not_selecting, gesture_count_next, engine_after, outcome_of.
  cbn [state pending_selection gesture_counter].
  intros Hdir [Hidle Hcount].
  assert (Hfar : 1 < GESTURE_CONFIRM_COUNT) by (unfold GESTURE_CONFIRM_COUNT; lia).
  destruct s; [ clear Hcount | specialize (Hcount eq_refl) | | ];
    try (destruct Hidle; discriminate).
  all: engine_cases; excluded.
  all: cbn [fst snd state pending_selection gesture_counter].
  all: split; [discriminate | split; [auto|]].
  all: try discriminate.
  all: intros _ other Hother; split; [auto|]; intros Hen; try discriminate Hen.
  all: unfold selection_is; try exact Hfar.
  all: try selected.
  all: apply not_eq_sym, String.eqb_neq in Hother; rewrite Hother; exact Hfar.
Qed.

Lemma alternating_run robot ticks :
  forall fsm made,
    alternating ticks = true ->
    (state fsm = DISABLED \/ state fsm = ENABLED) ->
    (forall t rest, ticks = t :: rest -> not_selecting fsm (dynamic_gesture t)) ->
    state (engine_after (run robot ticks fsm made)) <> AWAIT_CONFIRM.
Proof.
  induction ticks as [|[st dir t] ticks IH]; intros fsm made Halt Hidle Hhead.
  - cbn. destruct Hidle as [-> | ->]; discriminate.
  - cbn [alternating dynamic_gesture] in Halt.
    apply andb_prop in Halt as [Halt Hrest]. apply andb_prop in Halt as [Hdir Hnext].
    specialize (Hhead _ _ eq_refl). cbn [dynamic_gesture] in Hhead.
    destruct (alternating_tick robot st dir t fsm made Hdir Hhead)
      as (Hnot & Hidle1 & Hready).
    cbn [run static_gesture dynamic_gesture now].
    destruct (update st dir robot t fsm made) as [[[[]|e] fsm1] made1].
    + cbn [engine_after outcome_of fst snd] in *.
      apply IH; trivial.
      intros u rest ->. apply Hready; trivial.
      apply negb_true_iff, String.eqb_neq in Hnext. congruence.
    + exact Hnot.
Qed.

Lemma alternating_firstn n :
  forall ticks, alternating ticks = true -> alternating (firstn n ticks) = true.
Proof.
  induction n as [|n IH]; intros [|t ticks] Halt; cbn [firstn]; trivial.
  cbn [alternating] in Halt |- *.
  apply andb_prop in Halt as [Halt Hrest]. apply andb_prop in Halt as [Hdir Hnext].
  rewrite Hdir, (IH ticks Hrest). cbn [andb].
  destruct n, ticks; cbn [firstn]; trivial.
  rewrite Hnext. reflexivity.
Qed.

(** C6. (1) From ENABLED with the gesture counter below fourteen (it is zero
    when the engine enters ENABLED), over ticks that show a direction each and
    never the direction of the tick before, whatever the static gestures, the
    clock and the robot do: after no number of ticks is the engine in
    AWAIT_CONFIRM. (2) From ENABLED with the gesture counter at zero, fifteen
    ticks in a row of one direction, none of them the stop gesture: the engine
    is still ENABLED after fourteen, and the fifteenth takes it to
    AWAIT_CONFIRM with that direction as the pending selection, the instant
    recorded, the selection logged and nothing called. *)
Theorem selection_needs_a_sustained_direction :
  (forall robot ticks fsm made n,
      state fsm = ENABLED ->
      gesture_counter fsm + 1 < GESTURE_CONFIRM_COUNT ->
      alternating ticks = true ->
      state (engine_after (run robot (firstn n ticks) fsm made)) <> AWAIT_CONFIRM)
  /\ (forall robot dir counting last fsm made,
         state fsm = ENABLED ->
         gesture_counter fsm = 0 ->
         is_direction dir = true ->
         Z.of_nat (List.length (counting ++ [last])) = GESTURE_CONFIRM_COUNT ->
         all_dynamic dir (counting ++ [last]) = true ->
         none_static "Close" (counting ++ [last]) = true ->
         state (engine_after (run robot counting fsm made)) = ENABLED
         /\ run robot (counting ++ [last]) fsm made =
            (Returned tt,
             mkFSM AWAIT_CONFIRM 0 (confirm_counter fsm) (start_hold_since fsm) None
                   (Some (now last)) None (Some dir)
                   (log_messages fsm
                    ++ [("Seleção inicial '" ++ dir
                         ++ "' -> Aguardando confirmação.")%string]),
             made)).
Proof.
  split.
  - intros robot ticks fsm made n Hs Hcount Halt.
    apply alternating_run.
    + apply alternating_firstn, Halt.
    + auto.
    + intros t rest _. split; [auto|]. intros _.
      unfold gesture_count_next, GESTURE_CONFIRM_COUNT in *.
      destruct (selection_is (pending_selection fsm) (dynamic_gesture t)); lia.
  - intros robot dir counting last fsm made Hs Hgc Hdir Hlen Hdyn Hnc.
    unfold all_dynamic, none_static in Hdyn, Hnc.
    rewrite forallb_snoc in Hdyn, Hnc.
    apply andb_prop in Hdyn as [Hdyn Hd], Hnc as [Hnc Hc].
    apply String.eqb_eq in Hd. apply negb_true_iff, String.eqb_neq in Hc.
    rewrite length_app, Nat2Z.inj_add in Hlen. cbn [List.length Z.of_nat] in Hlen.
    unfold GESTURE_CONFIRM_COUNT in Hlen.
    destruct counting as [|[st dyn t] mid]; [cbn in Hlen; lia|].
    cbn [List.length] in Hlen. rewrite Nat2Z.inj_succ in Hlen.
    cbn [forallb static_gesture dynamic_gesture] in Hdyn, Hnc.
    apply andb_prop in Hdyn as [Hd0 Hdyn], Hnc as [Hc0 Hnc].
    apply String.eqb_eq in Hd0. subst dyn.
    apply negb_true_iff, String.eqb_neq in Hc0.
    destruct fsm as [s gc cc sh th ah rh ps lg].
    cbn [state gesture_counter confirm_counter start_hold_since log_messages] in *.
    subst s gc.
    assert (Hfirst :
      update st dir robot t (mkFSM ENABLED 0 cc sh th ah rh ps lg) made
      = (Returned tt, mkFSM ENABLED 1 cc sh None ah rh (Some dir) lg, made)).
    { rewrite counting_tick; trivial.
      - unfold gesture_count_next. fields.
        destruct (selection_is ps dir); reflexivity.
      - unfold gesture_count_next, GESTURE_CONFIRM_COUNT. fields.
        destruct (selection_is ps dir); lia. }
    destruct (counting_run robot dir mid
                (mkFSM ENABLED 1 cc sh None ah rh (Some dir) lg) made)
      as [held Hrun]; trivial.
    { unfold GESTURE_CONFIRM_COUNT. cbn [gesture_counter]. lia. }
    cbn [gesture_counter] in Hrun. unfold with_stop_hold_since, with_gesture_counter in Hrun.
    cbn [state gesture_counter confirm_counter start_hold_since stop_hold_since
         awaiting_confirm_since running_since pending_selection log_messages] in Hrun.
    split.
    + cbn [run static_gesture dynamic_gesture now]. rewrite Hfirst, Hrun. reflexivity.
    + cbn [app run static_gesture dynamic_gesture now]. rewrite Hfirst.
      rewrite run_app, Hrun.
      destruct last as [stl dynl tl]. cbn [dynamic_gesture static_gesture now] in *.
      subst dynl. cbn [run static_gesture dynamic_gesture now].
      rewrite selecting_tick; trivial.
      unfold gesture_count_next, selection_is, GESTURE_CONFIRM_COUNT. fields.
      rewrite String.eqb_refl. lia.
Qed.

(** Forty ticks of CW and CCW in turn select nothing; fifteen of CW do. *)
Lemma selection_needs_a_sustained_direction_witness :
  state (engine_after (run simulation (firstn 40 (in_turn 40 "CW" "CCW" 104)) armed []))
  <> AWAIT_CONFIRM
  /\ (state (engine_after (run simulation (firstn 14 (fifteen "CW" 104)) armed []))
      = ENABLED
      /\ run simulation (firstn 14 (fifteen "CW" 104) ++ [mkTick "Pointer" "CW" 118])
           armed []
         = (Returned tt,
            mkFSM AWAIT_CONFIRM 0 0 None None (Some 118%float) None (Some "CW")
                  (log_messages armed
                   ++ ["Seleção inicial 'CW' -> Aguardando confirmação."]),
            [])).
Proof.
  split.
  - apply (proj1 selection_needs_a_sustained_direction simulation
             (in_turn 40 "CW" "CCW" 104) armed [] 40%nat); evaluated.
  - apply (proj2 selection_needs_a_sustained_direction simulation "CW"
             (firstn 14 (fifteen "CW" 104)) (mkTick "Pointer" "CW" 118) armed []);
      evaluated.
Defined.

(** ** Where a selection is pending *)

Lemma direction_cases dir :
  is_direction dir = true -> dir = "CW" \/ dir = "CCW".
Proof.
  unfold is_direction. cbn [existsb]. rewrite orb_false_r.
  intros H. apply orb_prop in H as [H | H]; apply String.eqb_eq in H; auto.
Qed.

(** [update] keeps the selection where it is due, however it ends. *)
Lemma update_keeps_selection_where_due st dyn robot t fsm made :
  selection_where_due fsm ->
  selection_where_due (engine_after (update st dyn robot t fsm made)).
Proof.
  destruct fsm as [s gc cc sh th ah rh ps lg].
  unfold selection_where_due, engine_after.
  cbn [state pending_selection gesture_counter].
  intros Hinv.
  destruct s.
  all: engine_cases; excluded.
  all: cbn [fst snd state pending_selection gesture_counter]; trivial.
  all: try (left; reflexivity).
  all: try (eexists; split; [reflexivity | assumption]).
  all: try (right; split; [eexists; split; [reflexivity | assumption]
                          | count_facts; lia]).
  all: try selected.
  all: destruct Hinv as [Hinv | [[d [Hd Hdir]] Hgc]]; try discriminate.
  all: inversion Hd; subst.
  all: try (eexists; split; [reflexivity | assumption]).
  all: right; split; [eexists; split; [reflexivity | assumption] | count_facts; lia].
Qed.

Lemma run_keeps_selection_where_due robot ticks :
  forall fsm made,
    selection_where_due fsm ->
    selection_where_due (engine_after (run robot ticks fsm made)).
Proof.
  induction ticks as [|[st dyn t] ticks IH]; intros fsm made Hinv.
  - exact Hinv.
  - cbn [run static_gesture dynamic_gesture now].
    pose proof (update_keeps_selection_where_due st dyn robot t fsm made Hinv) as Hstep.
    destruct (update st dyn robot t fsm made) as [[[[]|e] fsm1] made1].
    + apply IH. exact Hstep.
    + exact Hstep.
Qed.

(** C4, amended. After any ticks from the initial engine, with any robot and
    whether or not the last [update] raised: in DISABLED and in RUNNING
    [pending_selection] is None; in AWAIT_CONFIRM it is one of the two
    directions; in ENABLED it is None, or it is one of the two directions and
    the gesture counter is between one and fourteen. A selection is thus
    pending in ENABLED on every tick of a run of one direction that is being
    counted, from the first one on. *)
Theorem pending_selection_where_due robot ticks made :
  let fsm := engine_after (run robot ticks __init__ made) in
  (state fsm = DISABLED \/ state fsm = RUNNING -> pending_selection fsm = None)
  /\ (state fsm = AWAIT_CONFIRM ->
      pending_selection fsm = Some "CW" \/ pending_selection fsm = Some "CCW")
  /\ (state fsm = ENABLED ->
      pending_selection fsm = None
      \/ ((pending_selection fsm = Some "CW" \/ pending_selection fsm = Some "CCW")
          /\ 1 <= gesture_counter fsm < GESTURE_CONFIRM_COUNT)).
Proof.
  intros fsm.
  assert (Hinv : selection_where_due fsm)
    by (apply run_keeps_selection_where_due; reflexivity).
  unfold selection_where_due in Hinv.
  destruct (state fsm).
  all: repeat split; try (intros [H | H]; discriminate H); try (intros H; discriminate H).
  all: intros _; auto.
  - destruct Hinv as [Hnone | [[dir [Hdir Hd]] Hgc]]; [auto | right].
    split; [|exact Hgc].
    rewrite Hdir. destruct (direction_cases dir Hd); subst; auto.
  - destruct Hinv as [dir [Hdir Hd]].
    rewrite Hdir. destruct (direction_cases dir Hd); subst; auto.
Qed.

(** C4 as stated fails. One CW tick after arming, the engine is observed in
    ENABLED with CW pending and the counter at one; this is not the last tick
    before a transition to AWAIT_CONFIRM: whatever the next tick shows, the
    engine is not in AWAIT_CONFIRM after it, and a tick showing no direction
    drops the selection. *)
Lemma pending_selection_set_from_first_direction_tick :
  run simulation (arming ++ [mkTick "Pointer" "CW" 104]) __init__ []
  = (Returned tt,
     with_gesture_counter 1 (with_pending_selection (Some "CW") armed),
     [set_enabled true])
  /\ state (with_gesture_counter 1 (with_pending_selection (Some "CW") armed)) = ENABLED
  /\ pending_selection (with_gesture_counter 1 (with_pending_selection (Some "CW") armed))
     <> None
  /\ (forall st dyn robot t made,
         state (engine_after
                  (update st dyn robot t
                     (with_gesture_counter 1 (with_pending_selection (Some "CW") armed))
                     made))
         <> AWAIT_CONFIRM)
  /\ run simulation (arming ++ [mkTick "Pointer" "CW" 104; mkTick "Pointer" "" 105])
       __init__ []
     = (Returned tt, armed, [set_enabled true]).
Proof.
  split; [vm_compute; reflexivity|].
  split; [reflexivity|].
  split; [discriminate|].
  split; [|vm_compute; reflexivity].
  intros st dyn robot t made.
  unfold armed, with_gesture_counter, with_pending_selection, engine_after.
  cbn [state gesture_counter confirm_counter start_hold_since stop_hold_since
       awaiting_confirm_since running_since pending_selection log_messages].
  engine_cases; excluded.
  all: cbn [fst snd state]; try discriminate.
  all: exfalso; selected; count_facts; lia.
Qed.

(** * Further properties of the engine *)

(** Read attributes through the writes made before. *)
Ltac read_fields :=
  cbn [state gesture_counter confirm_counter start_hold_since stop_hold_since
       awaiting_confirm_since running_since pending_selection log_messages
       with_state with_gesture_counter with_confirm_counter with_start_hold_since
       with_stop_hold_since with_awaiting_confirm_since with_running_since
       with_pending_selection with_log_messages].

(** ** Timers and counters by state *)

Lemma update_settles st dyn robot t fsm made r fsm' made' :
  settled 0 fsm ->
  update st dyn robot t fsm made = (r, fsm', made') ->
  settled 1 fsm' /\ (r = Returned tt -> settled 0 fsm').
Proof.
  destruct fsm as [s gc cc sh th ah rh ps lg].
  unfold settled at 1.
  cbn [state gesture_counter confirm_counter start_hold_since awaiting_confirm_since
       running_since].
  intros Hinv.
  destruct s.
  all: decompose [and] Hinv; clear Hinv; subst.
  all: engine_cases.
  all: returned.
  all: unfold settled; read_fields.
  all: unfold GESTURE_CONFIRM_COUNT in *.
  all: split; [|intros Hret; try discriminate Hret].
  all: repeat split; trivial; try discriminate.
  all: try congruence.
  all: count_facts; try lia.
Qed.

(** X1. After any ticks from the initial engine, whatever the gestures, the
    clock and the robot: the engine holds only the timers and counters of its
    state. [start_hold_since] is set in DISABLED only;
    [awaiting_confirm_since] is set exactly in AWAIT_CONFIRM and
    [running_since] exactly in RUNNING; the gesture counter is zero outside
    ENABLED and between 0 and 14 inside; the confirm counter is zero outside
    AWAIT_CONFIRM and, inside, between 0 and 14 when the last [update]
    returned and at most 15 when it raised. *)
Theorem timers_and_counters_belong_to_the_state robot ticks made :
  settled 1 (engine_after (run robot ticks __init__ made))
  /\ (outcome_of (run robot ticks __init__ made) = Returned tt ->
      settled 0 (engine_after (run robot ticks __init__ made))).
Proof.
  assert (Hgen : forall ticks fsm made,
             settled 0 fsm ->
             settled 1 (engine_after (run robot ticks fsm made))
             /\ (outcome_of (run robot ticks fsm made) = Returned tt ->
                 settled 0 (engine_after (run robot ticks fsm made)))).
  { clear. induction ticks as [|[st dyn t] ticks IH]; intros fsm made Hinv.
    - cbn. split; [|auto].
      revert Hinv. unfold settled. destruct (state fsm); intuition lia.
    - cbn [run static_gesture dynamic_gesture now].
      destruct (update st dyn robot t fsm made) as [[r fsm1] made1] eqn:Hup.
      destruct (update_settles st dyn robot t fsm made r fsm1 made1 Hinv Hup)
        as [Hweak Hstrict].
      destruct r as [[]|e].
      + apply IH. apply Hstrict. reflexivity.
      + split; [exact Hweak | discriminate]. }
  apply Hgen. cbn. unfold GESTURE_CONFIRM_COUNT. repeat split; lia.
Qed.

(** ** What the engine calls, and when *)

Lemma enabled_after_app e a b :
  enabled_after e (a ++ b) = enabled_after (enabled_after e a) b.
Proof. revert e. induction a as [|[] a IH]; intros e; cbn; auto. Qed.

Lemma selected_after_app s a b :
  selected_after s (a ++ b) = selected_after (selected_after s a) b.
Proof. revert s. induction a as [|[] a IH]; intros s; cbn; auto. Qed.

Lemma pulse_discipline_app e s a b :
  pulse_discipline e s (a ++ b)
  = pulse_discipline e s a
    && pulse_discipline (enabled_after e a) (selected_after s a) b.
Proof.
  revert e s. induction a as [|[] a IH]; intros e s; cbn; auto.
  rewrite IH. destruct e, s; reflexivity.
Qed.

Lemma selected_after_last s cs :
  cs <> [] -> selected_after s cs = true ->
  exists pre v, cs = pre ++ [set_program_selection v].
Proof.
  revert s. induction cs as [|c cs IH]; intros s Hne Hsel; [congruence|].
  destruct cs as [|c' cs].
  - destruct c; cbn in Hsel; try discriminate. exists [], is_prog2. reflexivity.
  - destruct (IH (match c with set_program_selection _ => true | _ => false end))
      as (pre & v & ->); [discriminate | destruct c; exact Hsel |].
    exists (c :: pre), v. reflexivity.
Qed.

(** Each tick keeps the discipline, and leaves the robot enabled whenever the
    engine is not DISABLED. *)
Lemma update_keeps_pulse_discipline st dyn robot t fsm made r fsm' made' :
  pulse_discipline false false made = true ->
  (state fsm <> DISABLED -> enabled_after false made = true) ->
  update st dyn robot t fsm made = (r, fsm', made') ->
  pulse_discipline false false made' = true
  /\ (r = Returned tt -> state fsm' <> DISABLED -> enabled_after false made' = true).
Proof.
  destruct fsm as [s gc cc sh th ah rh ps lg].
  cbn [state]. intros Hdisc Hen.
  destruct s; [clear Hen | | |]; try specialize (Hen ltac:(discriminate)).
  all: engine_cases.
  all: returned; read_fields.
  all: rewrite <- ?app_assoc; cbn [app].
  all: rewrite ?pulse_discipline_app, ?enabled_after_app, ?Hdisc; cbn.
  all: rewrite ?Hen; cbn.
  all: split; trivial; try discriminate; try congruence.
Qed.

(** X2. In any run from the initial engine on a robot that has been called
    nothing yet, every [pulse_execute] the engine makes comes with the robot
    enabled (the last [set_enabled] call before it is [set_enabled(True)]) and
    directly after a [set_program_selection] call. *)
Theorem pulse_only_when_enabled_and_selected robot ticks before t after :
  calls_after (run robot ticks __init__ []) = before ++ pulse_execute t :: after ->
  enabled_after false before = true
  /\ exists earlier v, before = earlier ++ [set_program_selection v].
Proof.
  assert (Hgen : forall ticks fsm made,
             pulse_discipline false false made = true ->
             (state fsm <> DISABLED -> enabled_after false made = true) ->
             pulse_discipline false false (calls_after (run robot ticks fsm made)) = true).
  { clear. induction ticks as [|[st dyn tm] ticks IH]; intros fsm made Hdisc Hen.
    - exact Hdisc.
    - cbn [run static_gesture dynamic_gesture now].
      destruct (update st dyn robot tm fsm made) as [[r fsm1] made1] eqn:Hup.
      destruct (update_keeps_pulse_discipline _ _ _ _ _ _ _ _ _ Hdisc Hen Hup)
        as [Hdisc1 Hen1].
      destruct r as [[]|e]; [|exact Hdisc1].
      apply IH; [exact Hdisc1 | apply Hen1; reflexivity]. }
  intros Hcalls.
  specialize (Hgen ticks __init__ [] eq_refl ltac:(intros H; exfalso; apply H; reflexivity)).
  rewrite Hcalls, pulse_discipline_app in Hgen.
  apply andb_prop in Hgen as [_ Hpulse]. cbn [pulse_discipline] in Hpulse.
  apply andb_prop in Hpulse as [Hpulse _]. apply andb_prop in Hpulse as [Hen Hsel].
  split; [exact Hen|].
  apply (selected_after_last false); [|exact Hsel].
  intros ->. discriminate Hsel.
Qed.

(** The scenario: armed, CCW selected, then confirmed. *)
Lemma pulse_only_when_enabled_and_selected_witness :
  enabled_after false [set_enabled true; set_program_selection true] = true
  /\ exists earlier v,
       [set_enabled true; set_program_selection true]
       = earlier ++ [set_program_selection v].
Proof.
  apply (pulse_only_when_enabled_and_selected simulation
           (arming ++ fifteen "CCW" 104 ++ fifteen_quick "CCW" 120)
           [set_enabled true; set_program_selection true] EXEC_PULSE_TIME
           [set_program_selection false]).
  vm_compute. reflexivity.
Defined.

(** X3. One [update] calls the robot at most three times, and what it calls
    is set by the state it starts in: from DISABLED nothing or
    [set_enabled(True)]; from ENABLED nothing or [set_enabled(False)]; from
    AWAIT_CONFIRM nothing, [set_enabled(False)], or the selection call alone
    (when it raised) or followed by the pulse and the selection reset; from
    RUNNING one poll, or [set_enabled(False)] and no poll. *)
Theorem calls_of_one_update st dyn robot t fsm made :
  exists new,
    calls_after (update st dyn robot t fsm made) = made ++ new
    /\ calls_of_a_tick (state fsm) new.
Proof.
  destruct fsm as [s gc cc sh th ah rh ps lg].
  unfold calls_after, calls_of_a_tick. cbn [state].
  destruct s.
  all: engine_cases.
  all: cbn [snd]; rewrite <- ?app_assoc; cbn [app].
  all: try (exists []; rewrite app_nil_r; split; [reflexivity | auto]).
  all: eexists; (split; [reflexivity|]); eauto 6.
Qed.

(** X4. [update] raises only what a [set_enabled] or a
    [set_program_selection] call raised, and that call is the last it made:
    an exception of [pulse_execute] or of [get_program_finished] never leaves
    [update]. *)
Theorem update_raises_only_unguarded_calls st dyn robot t fsm made e :
  outcome_of (update st dyn robot t fsm made) = Raised e ->
  exists before c,
    calls_after (update st dyn robot t fsm made) = before ++ [c]
    /\ robot before c = Raises e
    /\ unguarded c = true.
Proof.
  destruct fsm as [s gc cc sh th ah rh ps lg].
  unfold calls_after, outcome_of.
  destruct s.
  all: engine_cases.
  all: cbn [fst snd]; try discriminate.
  all: intros Hraise; inversion Hraise; subst.
  all: eexists; eexists; (split; [reflexivity|]); split; [eassumption | reflexivity].
Qed.

Lemma update_raises_only_unguarded_calls_witness :
  exists before c,
    calls_after (update "Pointer" "CCW" selection_reset_fails 121.75 almost_confirmed [])
    = before ++ [c]
    /\ selection_reset_fails before c = Raises "DO5"
    /\ unguarded c = true.
Proof.
  apply (update_raises_only_unguarded_calls "Pointer" "CCW" selection_reset_fails
           121.75 almost_confirmed [] "DO5").
  vm_compute. reflexivity.
Defined.

(** On a robot whose [set_enabled] and [set_program_selection] never raise,
    every [update] returns. *)
Lemma update_returns_on_a_robot_that_answers robot st dyn t fsm made :
  (forall before c, unguarded c = true -> exists v, robot before c = Returns v) ->
  outcome_of (update st dyn robot t fsm made) = Returned tt.
Proof.
  intros Hanswers.
  destruct fsm as [s gc cc sh th ah rh ps lg].
  unfold outcome_of.
  destruct s.
  all: engine_cases.
  all: cbn [fst]; try reflexivity.
  all: exfalso;
    match goal with
    | H : ?called ?before ?c = Raises _ |- _ =>
        destruct (Hanswers before c eq_refl) as [? ?]; congruence
    end.
Qed.

Lemma run_returns_on_a_robot_that_answers robot :
  (forall before c, unguarded c = true -> exists v, robot before c = Returns v) ->
  forall ticks fsm made, outcome_of (run robot ticks fsm made) = Returned tt.
Proof.
  intros Hanswers.
  induction ticks as [|[st dyn t] ticks IH]; intros fsm made; [reflexivity|].
  cbn [run static_gesture dynamic_gesture now].
  pose proof (update_returns_on_a_robot_that_answers robot st dyn t fsm made Hanswers)
    as Hret.
  destruct (update st dyn robot t fsm made) as [[[[]|e] fsm1] made1]; [apply IH|].
  discriminate Hret.
Qed.

(** ** Interruptions *)

(** In ENABLED a tick that shows no direction drops the selection. *)
Lemma pause_tick robot st dyn t fsm made :
  state fsm = ENABLED ->
  st <> "Close" ->
  is_direction dyn = false ->
  update st dyn robot t fsm made =
  (Returned tt,
   with_stop_hold_since None (with_gesture_counter 0 (with_pending_selection None fsm)),
   made).
Proof.
  intros Hs Hst. apply String.eqb_neq in Hst. revert Hs.
  destruct fsm as [s gc cc sh th ah rh ps lg].
  cbn [state]. intros -> Hdir.
  engine_cases.
  all: rewrite ?app_nil_r; reflexivity.
Qed.

(** In AWAIT_CONFIRM a tick that does not repeat the selection, before the
    timeout, puts the confirm counter back to zero and changes nothing else. *)
Lemma mismatch_tick robot st dyn t fsm made :
  state fsm = AWAIT_CONFIRM ->
  st <> "Close" ->
  selection_is (pending_selection fsm) dyn = false ->
  elapsed_over (awaiting_confirm_since fsm) t CONFIRM_TIMEOUT = false ->
  update st dyn robot t fsm made =
  (Returned tt, with_stop_hold_since None (with_confirm_counter 0 fsm), made).
Proof.
  intros Hs Hst. apply String.eqb_neq in Hst. revert Hs.
  destruct fsm as [s gc cc sh th ah rh ps lg].
  cbn [state pending_selection awaiting_confirm_since]. intros -> Hsel Hwait.
  engine_cases; excluded.
  all: rewrite ?app_nil_r; reflexivity.
Qed.

(** Direction ticks short of the count, with no stop hold recorded: only the
    counter moves. *)
Lemma counting_run_exact robot dir ticks :
  forall fsm made,
    state fsm = ENABLED ->
    pending_selection fsm = Some dir ->
    stop_hold_since fsm = None ->
    is_direction dir = true ->
    all_dynamic dir ticks = true ->
    none_static "Close" ticks = true ->
    gesture_counter fsm + Z.of_nat (List.length ticks) < GESTURE_CONFIRM_COUNT ->
    run robot ticks fsm made =
    (Returned tt,
     with_gesture_counter (gesture_counter fsm + Z.of_nat (List.length ticks)) fsm,
     made).
Proof.
  induction ticks as [|[st dyn t] ticks IH]; intros fsm made Hs Hps Hstop Hdir Hdyn Hnc Hlt.
  - cbn [run List.length Z.of_nat]. rewrite Z.add_0_r. destruct fsm; reflexivity.
  - cbn [all_dynamic none_static forallb static_gesture dynamic_gesture] in Hdyn, Hnc.
    apply andb_prop in Hdyn as [Hd Hdyn], Hnc as [Hc Hnc].
    apply String.eqb_eq in Hd. subst dyn.
    apply negb_true_iff, String.eqb_neq in Hc.
    cbn [List.length] in Hlt |- *. rewrite Nat2Z.inj_succ in Hlt |- *.
    cbn [run static_gesture dynamic_gesture now].
    assert (Hnext : gesture_count_next fsm dir = gesture_counter fsm + 1).
    { unfold gesture_count_next, selection_is. rewrite Hps, String.eqb_refl.
      reflexivity. }
    rewrite (counting_tick robot st dir t fsm made Hs Hc Hdir) by (rewrite Hnext; lia).
    rewrite Hnext.
    destruct fsm as [s gc cc sh th ah rh ps lg].
    cbn [state pending_selection stop_hold_since gesture_counter] in *. subst s ps th.
    unfold with_stop_hold_since, with_gesture_counter, with_pending_selection.
    cbn [state gesture_counter confirm_counter start_hold_since stop_hold_since
         awaiting_confirm_since running_since pending_selection log_messages].
    rewrite IH; trivial; cbn [gesture_counter]; [|lia].
    unfold with_gesture_counter.
    cbn [state gesture_counter confirm_counter start_hold_since stop_hold_since
         awaiting_confirm_since running_since pending_selection log_messages].
    rewrite <- Z.add_assoc, Z.add_1_l. reflexivity.
Qed.

(** Repeats of the pending selection short of the count and of the timeout,
    with no stop hold recorded: only the counter moves. *)
Lemma waiting_run_exact robot dir ticks :
  forall fsm made,
    state fsm = AWAIT_CONFIRM ->
    pending_selection fsm = Some dir ->
    stop_hold_since fsm = None ->
    all_dynamic dir ticks = true ->
    none_static "Close" ticks = true ->
    none_elapsed (awaiting_confirm_since fsm) CONFIRM_TIMEOUT ticks = true ->
    confirm_counter fsm + Z.of_nat (List.length ticks) < GESTURE_CONFIRM_COUNT ->
    run robot ticks fsm made =
    (Returned tt,
     with_confirm_counter (confirm_counter fsm + Z.of_nat (List.length ticks)) fsm,
     made).
Proof.
  induction ticks as [|[st dyn t] ticks IH]; intros fsm made Hs Hps Hstop Hdyn Hnc Hne Hlt.
  - cbn [run List.length Z.of_nat]. rewrite Z.add_0_r. destruct fsm; reflexivity.
  - cbn [all_dynamic none_static none_elapsed forallb static_gesture dynamic_gesture now]
      in Hdyn, Hnc, Hne.
    apply andb_prop in Hdyn as [Hd Hdyn], Hnc as [Hc Hnc], Hne as [He Hne].
    apply String.eqb_eq in Hd. subst dyn.
    apply negb_true_iff in Hc, He.
    cbn [List.length] in Hlt |- *. rewrite Nat2Z.inj_succ in Hlt |- *.
    cbn [run static_gesture dynamic_gesture now].
    rewrite (waiting_tick robot st dir t fsm made Hs); trivial.
    2:{ unfold stop_due. rewrite Hc. reflexivity. }
    2:{ unfold selection_is. rewrite Hps. apply String.eqb_refl. }
    2:{ lia. }
    unfold stop_hold_next. rewrite Hc.
    destruct fsm as [s gc cc sh th ah rh ps lg].
    cbn [state pending_selection stop_hold_since confirm_counter
         awaiting_confirm_since] in *. subst s ps th.
    unfold with_stop_hold_since, with_confirm_counter.
    cbn [state gesture_counter confirm_counter start_hold_since stop_hold_since
         awaiting_confirm_since running_since pending_selection log_messages].
    rewrite IH; trivial; cbn [confirm_counter]; [|lia].
    unfold with_confirm_counter.
    cbn [state gesture_counter confirm_counter start_hold_since stop_hold_since
         awaiting_confirm_since running_since pending_selection log_messages].
    rewrite <- Z.add_assoc, Z.add_1_l. reflexivity.
Qed.

(** X5. No partial credit in ENABLED. From the engine as it enters ENABLED
    (counter at zero, nothing pending, no stop hold), after fewer than fifteen
    ticks of one direction: (1) a tick showing no direction puts the engine
    back exactly where it was (same attributes, nothing logged, nothing
    called), so that a full run of fifteen is needed again; (2) a tick showing
    the other direction makes that one pending with the counter at one. *)
Theorem interrupted_selection_starts_over robot dir counted fsm made :
  state fsm = ENABLED ->
  gesture_counter fsm = 0 ->
  pending_selection fsm = None ->
  stop_hold_since fsm = None ->
  is_direction dir = true ->
  all_dynamic dir counted = true ->
  none_static "Close" counted = true ->
  Z.of_nat (List.length counted) < GESTURE_CONFIRM_COUNT ->
  (forall st dyn t,
      st <> "Close" -> is_direction dyn = false ->
      run robot (counted ++ [mkTick st dyn t]) fsm made = (Returned tt, fsm, made))
  /\ (forall st other t,
         st <> "Close" -> is_direction other = true -> other <> dir ->
         run robot (counted ++ [mkTick st other t]) fsm made
         = (Returned tt,
            with_gesture_counter 1 (with_pending_selection (Some other) fsm),
            made)).
Proof.
  intros Hs Hgc Hps Hstop Hdir Hdyn Hnc Hlen.
  destruct fsm as [s gc cc sh th ah rh ps lg].
  cbn [state gesture_counter pending_selection stop_hold_since] in Hs, Hgc, Hps, Hstop.
  subst s gc ps th.
  assert (Hrun :
    run robot counted (mkFSM ENABLED 0 cc sh None ah rh None lg) made
    = (Returned tt,
       match counted with
       | [] => mkFSM ENABLED 0 cc sh None ah rh None lg
       | _ => mkFSM ENABLED (Z.of_nat (List.length counted)) cc sh None ah rh (Some dir) lg
       end, made)).
  { destruct counted as [|[st dyn t] rest]; [reflexivity|].
    cbn [all_dynamic none_static forallb static_gesture dynamic_gesture] in Hdyn, Hnc.
    apply andb_prop in Hdyn as [Hd Hdyn], Hnc as [Hc Hnc].
    apply String.eqb_eq in Hd. subst dyn.
    apply negb_true_iff, String.eqb_neq in Hc.
    cbn [List.length] in Hlen |- *. rewrite Nat2Z.inj_succ in Hlen |- *.
    cbn [run static_gesture dynamic_gesture now].
    rewrite counting_tick; trivial;
      [|unfold gesture_count_next, selection_is, GESTURE_CONFIRM_COUNT; cbn; lia].
    unfold gesture_count_next, with_stop_hold_since, with_gesture_counter,
      with_pending_selection.
    cbn [state gesture_counter confirm_counter start_hold_since stop_hold_since
         awaiting_confirm_since running_since pending_selection log_messages
         selection_is].
    unfold selection_is.
    rewrite counting_run_exact with (dir := dir); trivial; cbn [gesture_counter]; [|lia].
    unfold with_gesture_counter.
    cbn [state gesture_counter confirm_counter start_hold_since stop_hold_since
         awaiting_confirm_since running_since pending_selection log_messages].
    rewrite Z.add_1_l. reflexivity. }
  split.
  - intros st dyn t Hst Hnodir.
    rewrite run_app, Hrun. cbn [run static_gesture dynamic_gesture now].
    rewrite pause_tick; trivial; destruct counted; reflexivity.
  - intros st other t Hst Hodir Hother.
    rewrite run_app, Hrun. cbn [run static_gesture dynamic_gesture now].
    rewrite counting_tick; trivial.
    + destruct counted; unfold gesture_count_next, selection_is;
        cbn [pending_selection]; [reflexivity|].
      apply not_eq_sym, String.eqb_neq in Hother. rewrite Hother. reflexivity.
    + destruct counted; reflexivity.
    + destruct counted; unfold gesture_count_next, selection_is, GESTURE_CONFIRM_COUNT;
        cbn [pending_selection]; [lia|].
      apply not_eq_sym, String.eqb_neq in Hother. rewrite Hother. lia.
Qed.

(** Fourteen ticks of CW, then a pause, or a CCW tick. *)
Lemma interrupted_selection_starts_over_witness :
  (forall st dyn t,
      st <> "Close" -> is_direction dyn = false ->
      run unplugged (firstn 14 (fifteen "CW" 104) ++ [mkTick st dyn t])
        (with_log_messages [] armed) []
      = (Returned tt, with_log_messages [] armed, []))
  /\ (forall st other t,
         st <> "Close" -> is_direction other = true -> other <> "CW" ->
         run unplugged (firstn 14 (fifteen "CW" 104) ++ [mkTick st other t])
           (with_log_messages [] armed) []
         = (Returned tt,
            with_gesture_counter 1
              (with_pending_selection (Some other) (with_log_messages [] armed)),
            [])).
Proof.
  apply (interrupted_selection_starts_over unplugged "CW" (firstn 14 (fifteen "CW" 104))
           (with_log_messages [] armed) []); evaluated.
Defined.

(** X6. No partial credit in AWAIT_CONFIRM, and no second chance on the
    clock. From the engine as it enters AWAIT_CONFIRM (confirm counter at
    zero, no stop hold), after fewer than fifteen repeats of the pending
    selection, a tick showing anything else before the timeout puts the
    engine back exactly where it was: the counter is at zero again, and
    [awaiting_confirm_since] still holds the instant of the selection, so the
    interruption does not extend the time left to confirm. Nothing is logged
    and nothing is called. *)
Theorem interrupted_confirmation_starts_over robot dir repeats st dyn t fsm made :
  state fsm = AWAIT_CONFIRM ->
  pending_selection fsm = Some dir ->
  confirm_counter fsm = 0 ->
  stop_hold_since fsm = None ->
  all_dynamic dir repeats = true ->
  Z.of_nat (List.length repeats) < GESTURE_CONFIRM_COUNT ->
  dyn <> dir ->
  none_static "Close" (repeats ++ [mkTick st dyn t]) = true ->
  none_elapsed (awaiting_confirm_since fsm) CONFIRM_TIMEOUT (repeats ++ [mkTick st dyn t])
  = true ->
  run robot (repeats ++ [mkTick st dyn t]) fsm made = (Returned tt, fsm, made).
Proof.
  intros Hs Hps Hcc Hstop Hdyn Hlen Hother Hnc Hne.
  unfold none_static, none_elapsed in Hnc, Hne.
  rewrite forallb_snoc in Hnc, Hne.
  apply andb_prop in Hnc as [Hnc Hc], Hne as [Hne He].
  cbn [static_gesture now] in Hc, He.
  apply negb_true_iff, String.eqb_neq in Hc. apply negb_true_iff in He.
  rewrite run_app, (waiting_run_exact robot dir repeats fsm made); trivial; [|lia].
  cbn [run static_gesture dynamic_gesture now].
  rewrite mismatch_tick; trivial.
  - destruct fsm as [s gc cc sh th ah rh ps lg].
    cbn [confirm_counter stop_hold_since] in Hcc, Hstop. subst cc th. reflexivity.
  - cbn [pending_selection with_confirm_counter]. rewrite Hps. unfold selection_is.
    apply String.eqb_neq. congruence.
Qed.

(** Fourteen repeats of CCW within two seconds of the selection, then a CW. *)
Lemma interrupted_confirmation_starts_over_witness :
  run unplugged (firstn 14 (fifteen_quick "CCW" 120) ++ [mkTick "Pointer" "CW" 122])
    awaiting_ccw []
  = (Returned tt, awaiting_ccw, []).
Proof.
  apply (interrupted_confirmation_starts_over unplugged "CCW"
           (firstn 14 (fifteen_quick "CCW" 120)) "Pointer" "CW" 122 awaiting_ccw []);
    evaluated.
Defined.

(** * The robot controller *)

Ltac unfold_controller :=
  unfold method, RobotController.set_enabled, RobotController.set_program_selection,
    RobotController.pulse_execute, RobotController.get_program_finished,
    RobotController.stop_robot, RobotController.is_connected,
    RobotController.call_on, RobotController.live,
    RobotController.try_except, RobotController.try_finally, RobotController.bind,
    RobotController.get, RobotController.assign, RobotController.perform,
    RobotController.raise, RobotController.ret in *.

(** On a library that works, an operation is done. *)
Ltac answered Hwork :=
  match goal with
  | |- context [match ?x with RobotController.Done _ => _ | RobotController.Fails _ => _ end] =>
      let H := fresh "Hanswer" in
      destruct x eqn:H;
      [ cbn
      | exfalso;
        match type of H with
        | ?dev ?before ?o = _ => destruct (Hwork before o); congruence
        end ]
  end.

(** No method the engine calls raises, whatever the library does. *)
Lemma method_returns device c w :
  exists v, fst (method device c w) = Returned v.
Proof.
  destruct c; unfold_controller; cbn.
  all: repeat (case_step; cbn); eauto.
Qed.

(** The methods leave the attributes of the controller alone. *)
Lemma method_keeps_controller device c w :
  RobotController.this (snd (method device c w)) = RobotController.this w.
Proof.
  destruct c; unfold_controller; cbn.
  all: repeat (case_step; cbn); reflexivity.
Qed.

Lemma robot_controller_answers device w made c :
  exists v, as_robot device w made c = Returns v.
Proof.
  unfold as_robot.
  destruct (method_returns device c (world_after device w made)) as [v ->].
  eauto.
Qed.

Lemma run_returns_on_the_robot_controller device w ticks fsm made :
  outcome_of (run (as_robot device w) ticks fsm made) = Returned tt.
Proof.
  apply run_returns_on_a_robot_that_answers. intros before c _.
  apply robot_controller_answers.
Qed.

(** X7. With the repository's [RobotController] in the place of the robot,
    whatever the RTDE library does and in whatever condition the controller
    is, no method the engine calls raises, and so every [update] of every run
    returns. *)
Theorem update_returns_on_the_robot_controller device w :
  (forall made c, exists v, as_robot device w made c = Returns v)
  /\ (forall ticks fsm made,
         outcome_of (run (as_robot device w) ticks fsm made) = Returned tt).
Proof.
  split.
  - apply robot_controller_answers.
  - apply run_returns_on_the_robot_controller.
Qed.

(** ** The outputs of a working robot *)

Lemma method_on_a_working_robot device c w :
  working device ->
  connected_to_robot (RobotController.this w) = true ->
  snd (method device c w)
  = RobotController.mkWorld (RobotController.this w)
      (RobotController.performed w ++ operations_of c).
Proof.
  intros Hwork Hlive.
  destruct w as [[h f io r cc d con sim] ios].
  unfold connected_to_robot in Hlive. cbn in Hlive.
  repeat (apply andb_prop in Hlive as [Hlive ?]). apply negb_true_iff in H3. subst.
  destruct c; unfold_controller; cbn.
  all: repeat answered Hwork.
  all: rewrite <- ?app_assoc; reflexivity.
Qed.

Lemma world_after_on_a_working_robot device made :
  forall w,
    working device ->
    connected_to_robot (RobotController.this w) = true ->
    world_after device w made
    = RobotController.mkWorld (RobotController.this w)
        (RobotController.performed w ++ flat_map operations_of made).
Proof.
  induction made as [|c made IH]; intros w Hwork Hlive.
  - cbn. rewrite app_nil_r. destruct w; reflexivity.
  - cbn [world_after fold_left flat_map].
    rewrite (method_on_a_working_robot device c w Hwork Hlive).
    pose proof (IH (RobotController.mkWorld (RobotController.this w)
                      (RobotController.performed w ++ operations_of c))
                  Hwork Hlive) as Hrest.
    unfold world_after in Hrest. rewrite Hrest.
    cbn. rewrite <- app_assoc. reflexivity.
Qed.

Lemma enable_output_follows_the_calls made :
  forall known,
    high (standard_out 4 known (flat_map operations_of made))
    = enabled_after (high known) made.
Proof.
  induction made as [|[b|b|t|] made IH]; intros known; cbn; rewrite ?IH; trivial.
  destruct b; reflexivity.
Qed.

Lemma program_output_follows_the_calls made :
  forall known,
    high (standard_out 5 known (flat_map operations_of made))
    = program_after (high known) made.
Proof.
  induction made as [|[b|b|t|] made IH]; intros known; cbn; rewrite ?IH; trivial.
  destruct b; reflexivity.
Qed.

Lemma pulse_output_is_low_after_the_calls made :
  forall known,
    high known = false ->
    high (standard_out 6 known (flat_map operations_of made)) = false.
Proof.
  induction made as [|[] made IH]; intros known Hlow; cbn; auto.
Qed.

Lemma enabled_after_snoc e a c :
  enabled_after e (a ++ [c])
  = match c with set_enabled b => b | _ => enabled_after e a end.
Proof. rewrite enabled_after_app. destruct c; reflexivity. Qed.

Lemma program_after_app p a b :
  program_after p (a ++ b) = program_after (program_after p a) b.
Proof. revert p. induction a as [|[] a IH]; intros p; cbn; auto. Qed.

(** Between ticks the robot is enabled exactly when the engine is not
    DISABLED, and program 1 is selected. *)
Lemma update_keeps_the_outputs st dyn robot t fsm made fsm' made' :
  enabled_after false made = negb (FSMState_eqb (state fsm) DISABLED) ->
  program_after false made = false ->
  update st dyn robot t fsm made = (Returned tt, fsm', made') ->
  enabled_after false made' = negb (FSMState_eqb (state fsm') DISABLED)
  /\ program_after false made' = false.
Proof.
  destruct fsm as [s gc cc sh th ah rh ps lg].
  cbn [state]. intros Hen Hprog.
  destruct s; cbn [FSMState_eqb negb] in Hen.
  all: engine_cases.
  all: try discriminate.
  all: returned; read_fields.
  all: rewrite <- ?app_assoc; cbn [app].
  all: rewrite ?enabled_after_app, ?program_after_app, ?Hen, ?Hprog; cbn.
  all: split; trivial.
Qed.

Lemma run_keeps_the_outputs robot ticks :
  forall fsm made fsm' made',
    enabled_after false made = negb (FSMState_eqb (state fsm) DISABLED) ->
    program_after false made = false ->
    run robot ticks fsm made = (Returned tt, fsm', made') ->
    enabled_after false made' = negb (FSMState_eqb (state fsm') DISABLED)
    /\ program_after false made' = false.
Proof.
  induction ticks as [|[st dyn t] ticks IH]; intros fsm made fsm' made' Hen Hprog Hrun.
  - cbn in Hrun. inversion Hrun; subst. auto.
  - cbn [run static_gesture dynamic_gesture now] in Hrun.
    destruct (update st dyn robot t fsm made) as [[[[]|e] fsm1] made1] eqn:Hup;
      [|discriminate].
    destruct (update_keeps_the_outputs _ _ _ _ _ _ _ _ Hen Hprog Hup) as [Hen1 Hprog1].
    apply (IH fsm1 made1); trivial.
Qed.

(** X8. The engine on a [RobotController] connected to a robot whose library
    works, from the initial engine and nothing performed: after any ticks,
    the last value written to the enable output DO4 is high exactly when the
    engine is not DISABLED, and neither the program-selection output DO5 nor
    the execute output DO6 is left high. *)
Theorem outputs_between_ticks device w ticks :
  working device ->
  connected_to_robot (RobotController.this w) = true ->
  RobotController.performed w = [] ->
  let r := run (as_robot device w) ticks __init__ [] in
  let ios := RobotController.performed (world_after device w (calls_after r)) in
  (standard_out 4 None ios = Some true <-> state (engine_after r) <> DISABLED)
  /\ standard_out 5 None ios <> Some true
  /\ standard_out 6 None ios <> Some true.
Proof.
  intros Hwork Hlive Hfresh r ios. subst ios.
  rewrite (world_after_on_a_working_robot device _ w Hwork Hlive), Hfresh.
  cbn [RobotController.performed app].
  pose proof (run_returns_on_the_robot_controller device w ticks __init__ []) as Hret.
  fold r in Hret.
  destruct r as [[out fsm'] made'] eqn:Hr. cbn [outcome_of fst] in Hret. subst out.
  cbn [calls_after engine_after fst snd].
  destruct (run_keeps_the_outputs (as_robot device w) ticks __init__ [] fsm' made'
              eq_refl eq_refl Hr) as [Hen Hprog].
  pose proof (enable_output_follows_the_calls made' None) as H4.
  pose proof (program_output_follows_the_calls made' None) as H5.
  pose proof (pulse_output_is_low_after_the_calls made' None eq_refl) as H6.
  cbn [high] in H4, H5. rewrite Hen in H4. rewrite Hprog in H5.
  repeat split.
  - intros Hhigh. rewrite Hhigh in H4. cbn in H4.
    intros Hs. rewrite Hs in H4. discriminate.
  - intros Hs.
    destruct (state fsm'); try congruence; cbn in H4;
      destruct (standard_out 4 None (flat_map operations_of made')) as [[]|];
      try discriminate; reflexivity.
  - intros Hhigh. rewrite Hhigh in H5. discriminate.
  - intros Hhigh. rewrite Hhigh in H6. discriminate.
Qed.

Lemma robot_ready_works : working robot_ready.
Proof. intros before o. exists true. reflexivity. Qed.

(** The scenario up to the selection of CCW, on a robot that works. *)
Lemma outputs_between_ticks_witness :
  (standard_out 4 None
     (RobotController.performed
        (world_after robot_ready on_line
           (calls_after (run (as_robot robot_ready on_line)
                           (arming ++ fifteen "CCW" 104) __init__ []))))
   = Some true
   <-> state (engine_after (run (as_robot robot_ready on_line)
                              (arming ++ fifteen "CCW" 104) __init__ []))
       <> DISABLED)
  /\ standard_out 5 None
       (RobotController.performed
          (world_after robot_ready on_line
             (calls_after (run (as_robot robot_ready on_line)
                             (arming ++ fifteen "CCW" 104) __init__ []))))
     <> Some true
  /\ standard_out 6 None
       (RobotController.performed
          (world_after robot_ready on_line
             (calls_after (run (as_robot robot_ready on_line)
                             (arming ++ fifteen "CCW" 104) __init__ []))))
     <> Some true.
Proof.
  apply (outputs_between_ticks robot_ready on_line (arming ++ fifteen "CCW" 104)
           robot_ready_works eq_refl eq_refl).
Defined.

(** ** What the engine does not learn *)

(** X9. With the repository's [RobotController], a confirmed selection takes
    the engine to RUNNING and logs the confirmation alone, whatever the RTDE
    library does: when the pulse or a selection write fails, the controller
    returns False, the engine does not look at it, and no error reaches the
    engine's log. *)
Theorem failed_pulse_goes_unnoticed device w st dyn t fsm made :
  state fsm = AWAIT_CONFIRM ->
  stop_due fsm st t = false ->
  selection_is (pending_selection fsm) dyn = true ->
  confirm_counter fsm + 1 >= GESTURE_CONFIRM_COUNT ->
  update st dyn (as_robot device w) t fsm made =
  (Returned tt,
   mkFSM RUNNING (gesture_counter fsm) 0 (start_hold_since fsm)
         (stop_hold_next fsm st t) None (Some t) None
         (log_messages fsm
          ++ [("Seleção '" ++ fmt_selection (pending_selection fsm)
               ++ "' confirmada. Executando.")%string]),
   made ++ [set_program_selection (selection_is (pending_selection fsm) "CCW");
            pulse_execute EXEC_PULSE_TIME;
            set_program_selection false]).
Proof.
  intros Hs Hstop Hsel Hcount.
  destruct (robot_controller_answers device w made
              (set_program_selection (selection_is (pending_selection fsm) "CCW")))
    as [v1 Hv1].
  destruct (robot_controller_answers device w
              (made ++ [set_program_selection (selection_is (pending_selection fsm) "CCW");
                        pulse_execute EXEC_PULSE_TIME])
              (set_program_selection false)) as [v2 Hv2].
  destruct (robot_controller_answers device w
              (made ++ [set_program_selection (selection_is (pending_selection fsm) "CCW")])
              (pulse_execute EXEC_PULSE_TIME)) as [v3 Hv3].
  rewrite (execution_tick (as_robot device w) st dyn t fsm made v1 v2); trivial.
  unfold pulse_error. rewrite Hv3, app_nil_r. reflexivity.
Qed.

(** The robot gone: every write fails, the engine starts waiting for the
    program all the same. *)
Lemma failed_pulse_goes_unnoticed_witness :
  update "Pointer" "CCW" (as_robot robot_gone on_line) 121.75 almost_confirmed [] =
  (Returned tt,
   mkFSM RUNNING 0 0 None None None (Some 121.75%float) None
         (log_messages almost_confirmed ++ ["Seleção 'CCW' confirmada. Executando."]),
   [set_program_selection true; pulse_execute EXEC_PULSE_TIME;
    set_program_selection false]).
Proof.
  apply (failed_pulse_goes_unnoticed robot_gone on_line "Pointer" "CCW" 121.75
           almost_confirmed []); evaluated.
Defined.

(** What the robot saw of that execution: three writes, each failed, and no
    pulse. *)
Example failed_pulse_operations :
  RobotController.performed
    (world_after robot_gone on_line
       [set_program_selection true; pulse_execute EXEC_PULSE_TIME;
        set_program_selection false])
  = [RobotController.setStandardDigitalOut 5 true;
     RobotController.setStandardDigitalOut 6 true;
     RobotController.setStandardDigitalOut 5 false].
Proof. vm_compute. reflexivity. Qed.

(** ** Without a robot *)

Lemma method_without_a_robot device c w :
  RobotController.connected (RobotController.this w)
  && negb (RobotController.simulation_mode (RobotController.this w)) = false ->
  method device c w = (Returned true, w).
Proof.
  destruct w as [[h f io r cc d con sim] ios]. cbn. intros Hoff.
  destruct c; unfold_controller; cbn; rewrite Hoff; reflexivity.
Qed.

Lemma world_after_without_a_robot device made :
  forall w,
    RobotController.connected (RobotController.this w)
    && negb (RobotController.simulation_mode (RobotController.this w)) = false ->
    world_after device w made = w.
Proof.
  induction made as [|c made IH]; intros w Hoff; [reflexivity|].
  cbn [world_after fold_left].
  rewrite (method_without_a_robot device c w Hoff).
  apply IH. exact Hoff.
Qed.

(** A poll that answers True ends the run. *)
Lemma finished_poll_ends_the_run robot st dyn t fsm made :
  state fsm = RUNNING ->
  stop_due fsm st t = false ->
  robot made get_program_finished = Returns true ->
  update st dyn robot t fsm made =
  (Returned tt,
   mkFSM ENABLED (gesture_counter fsm) (confirm_counter fsm) (start_hold_since fsm)
         (stop_hold_next fsm st t) (awaiting_confirm_since fsm) None None
         (log_messages fsm ++ ["Programa finalizado. Retornando para HABILITADO."]),
   made ++ [get_program_finished]).
Proof.
  destruct fsm as [s gc cc sh th ah rh ps lg].
  unfold stop_due, stop_hold_next, hold_start.
  cbn [state stop_hold_since pending_selection confirm_counter gesture_counter
       start_hold_since log_messages awaiting_confirm_since running_since].
  intros -> Hstop Hpoll.
  engine_cases; excluded.
  all: rewrite ?app_nil_r; reflexivity.
Qed.

(** X10. A [RobotController] that is in simulation mode or not connected
    answers True to every call of the engine and performs nothing on the
    library. On such a controller the program is reported finished at the
    first poll: from RUNNING, on a tick where the stop override does not
    fire, the engine is back in ENABLED with the completion logged. *)
Theorem simulated_robot_finishes_at_once device w :
  RobotController.connected (RobotController.this w)
  && negb (RobotController.simulation_mode (RobotController.this w)) = false ->
  (forall made c,
      as_robot device w made c = Returns true
      /\ world_after device w (made ++ [c]) = w)
  /\ (forall st dyn t fsm made,
         state fsm = RUNNING ->
         stop_due fsm st t = false ->
         update st dyn (as_robot device w) t fsm made =
         (Returned tt,
          mkFSM ENABLED (gesture_counter fsm) (confirm_counter fsm) (start_hold_since fsm)
                (stop_hold_next fsm st t) (awaiting_confirm_since fsm) None None
                (log_messages fsm ++ ["Programa finalizado. Retornando para HABILITADO."]),
          made ++ [get_program_finished])).
Proof.
  intros Hoff.
  assert (Hans : forall made c, as_robot device w made c = Returns true).
  { intros made c. unfold as_robot.
    rewrite (world_after_without_a_robot device made w Hoff).
    rewrite (method_without_a_robot device c w Hoff). reflexivity. }
  split.
  - intros made c. split; [apply Hans|].
    apply world_after_without_a_robot, Hoff.
  - intros st dyn t fsm made Hs Hstop.
    apply finished_poll_ends_the_run; trivial.
Qed.

Lemma simulated_robot_finishes_at_once_witness :
  (forall made c,
      as_robot robot_gone simulated made c = Returns true
      /\ world_after robot_gone simulated (made ++ [c]) = simulated)
  /\ (forall st dyn t fsm made,
         state fsm = RUNNING ->
         stop_due fsm st t = false ->
         update st dyn (as_robot robot_gone simulated) t fsm made =
         (Returned tt,
          mkFSM ENABLED (gesture_counter fsm) (confirm_counter fsm) (start_hold_since fsm)
                (stop_hold_next fsm st t) (awaiting_confirm_since fsm) None None
                (log_messages fsm ++ ["Programa finalizado. Retornando para HABILITADO."]),
          made ++ [get_program_finished])).
Proof.
  apply (simulated_robot_finishes_at_once robot_gone simulated). reflexivity.
Defined.

(** ** Connecting and cleaning up *)

Ltac unfold_connect :=
  unfold RobotController.__init__, RobotController.connect,
    RobotController._set_all_outputs_false, RobotController.cleanup in *;
  unfold_controller.

(** X11. The constructor of [RobotController] never raises and writes no
    output. Without the RTDE library it performs nothing and leaves the
    controller connected in simulation mode. With the library it performs the
    seven set-up operations in order, up to the first that fails: when none
    fails the controller is connected to the robot; when one fails the
    controller is not connected and in simulation mode for good, and
    [connect] called again returns True without performing anything. The
    reset of the outputs that [connect] calls writes nothing, since the
    controller is not connected yet when it runs. *)
Theorem constructor_connects_or_simulates rtde_available host frequency device w :
  exists w' new,
    RobotController.__init__ rtde_available host frequency device w = (Returned tt, w')
    /\ RobotController.performed w' = RobotController.performed w ++ new
    /\ forallb (fun o => negb (is_output_write o)) new = true
    /\ ((rtde_available = false /\ new = []
         /\ RobotController.connected (RobotController.this w') = true
         /\ RobotController.simulation_mode (RobotController.this w') = true)
        \/ (rtde_available = true /\ new = setup host frequency
            /\ connected_to_robot (RobotController.this w') = true)
        \/ (rtde_available = true
            /\ RobotController.connected (RobotController.this w') = false
            /\ RobotController.simulation_mode (RobotController.this w') = true
            /\ (exists done o rest e,
                   setup host frequency = done ++ o :: rest
                   /\ new = done ++ [o]
                   /\ device (RobotController.performed w ++ done) o
                      = RobotController.Fails e)
            /\ RobotController.connect device w'
               = (Returned true,
                  RobotController.mkWorld
                    (RobotController.with_connected true (RobotController.this w'))
                    (RobotController.performed w')))).
Proof.
  destruct w as [c ios].
  destruct rtde_available; unfold_connect; cbn.
  - repeat (case_step; cbn).
    all: rewrite <- ?app_assoc in *; cbn [app] in *.
    all: eexists; eexists; (split; [reflexivity|]); (split; [reflexivity|]).
    all: (split; [reflexivity|]).
    1: right; left; auto.
    all: right; right; repeat split.
    1: exists [RobotController.RTDEIOInterface host;
               RobotController.RTDEReceiveInterface host frequency;
               RobotController.RTDEControlInterface host frequency;
               RobotController.DashboardClient host;
               RobotController.dash_connect;
               RobotController.dash_loadURP "Futurecom/main.urp"].
    2: exists [RobotController.RTDEIOInterface host;
               RobotController.RTDEReceiveInterface host frequency;
               RobotController.RTDEControlInterface host frequency;
               RobotController.DashboardClient host;
               RobotController.dash_connect].
    3: exists [RobotController.RTDEIOInterface host;
               RobotController.RTDEReceiveInterface host frequency;
               RobotController.RTDEControlInterface host frequency;
               RobotController.DashboardClient host].
    4: exists [RobotController.RTDEIOInterface host;
               RobotController.RTDEReceiveInterface host frequency;
               RobotController.RTDEControlInterface host frequency].
    5: exists [RobotController.RTDEIOInterface host;
               RobotController.RTDEReceiveInterface host frequency].
    6: exists [RobotController.RTDEIOInterface host].
    7: exists [].
    all: eexists; eexists; eexists; cbn [app]; rewrite <- ?app_assoc; cbn [app].
    all: (split; [reflexivity|]); split; [reflexivity | rewrite ?app_nil_r; eassumption].
  - eexists; exists []; rewrite app_nil_r.
    repeat split. left. auto.
Qed.

Lemma bind_keeps_attributes {A B} (m : RobotController.M A) (k : A -> RobotController.M B) :
  keeps_attributes m -> (forall a, keeps_attributes (k a)) ->
  keeps_attributes (RobotController.bind m k).
Proof.
  intros Hm Hk w. unfold RobotController.bind.
  specialize (Hm w). destruct (m w) as [[a|e] w1]; cbn in *; [|exact Hm].
  rewrite (Hk a w1). exact Hm.
Qed.

Lemma try_except_keeps_attributes {A} (m : RobotController.M A) h :
  keeps_attributes m -> (forall e, keeps_attributes (h e)) ->
  keeps_attributes (RobotController.try_except m h).
Proof.
  intros Hm Hh w. unfold RobotController.try_except.
  specialize (Hm w). destruct (m w) as [[a|e] w1]; cbn in *; [exact Hm|].
  rewrite (Hh e w1). exact Hm.
Qed.

Lemma ret_keeps_attributes {A} (a : A) : keeps_attributes (RobotController.ret a).
Proof. intros w. reflexivity. Qed.

Lemma get_keeps_attributes {A} (attr : RobotController.controller -> A) :
  keeps_attributes (RobotController.get attr).
Proof. intros w. reflexivity. Qed.

Lemma perform_keeps_attributes device o :
  keeps_attributes (RobotController.perform device o).
Proof.
  intros w. unfold RobotController.perform.
  destruct (device (RobotController.performed w) o); reflexivity.
Qed.

Lemma call_on_keeps_attributes attr device o :
  keeps_attributes (RobotController.call_on attr device o).
Proof.
  unfold RobotController.call_on.
  apply bind_keeps_attributes; [apply get_keeps_attributes|].
  intros []; [apply perform_keeps_attributes | intros w; reflexivity].
Qed.

Lemma for_each_keeps_attributes {A} (xs : list A) body :
  (forall x, keeps_attributes (body x)) ->
  keeps_attributes (RobotController.for_each xs body).
Proof.
  intros Hbody. induction xs as [|x xs IH]; cbn [RobotController.for_each].
  - apply ret_keeps_attributes.
  - apply bind_keeps_attributes; auto.
Qed.

Ltac keeps :=
  repeat first
    [ apply ret_keeps_attributes
    | apply get_keeps_attributes
    | apply perform_keeps_attributes
    | apply call_on_keeps_attributes
    | apply for_each_keeps_attributes; intros
    | apply try_except_keeps_attributes; [|intros]
    | apply bind_keeps_attributes; [|intros]
    | match goal with |- keeps_attributes (if ?b then _ else _) => destruct b end ].

Lemma try_except_swallowing_returns (m : RobotController.M unit) w :
  fst (RobotController.try_except m (fun _ => RobotController.ret tt) w) = Returned tt.
Proof.
  unfold RobotController.try_except.
  destruct (m w) as [[[]|e] w1]; reflexivity.
Qed.

Lemma try_finally_assign (m : RobotController.M unit) upd w :
  keeps_attributes m ->
  fst (m w) = Returned tt ->
  RobotController.try_finally m (RobotController.assign upd) w
  = (Returned tt,
     RobotController.mkWorld (upd (RobotController.this w))
       (RobotController.performed (snd (m w)))).
Proof.
  intros Hkeeps Hret. unfold RobotController.try_finally, RobotController.assign.
  specialize (Hkeeps w).
  destruct (m w) as [[[]|e] w1]; cbn in *; [|discriminate].
  rewrite Hkeeps. reflexivity.
Qed.

(** X12. [cleanup] never raises and always leaves the controller marked not
    connected, its other attributes unchanged; after it every call of the
    engine is answered True without touching the library. On a controller
    that is in simulation mode or not connected it performs nothing. On a
    controller connected to a robot whose library works it stops the
    program, writes False to the eighteen outputs (standard 0 to 7,
    configurable 8 to 15, tool 0 and 1), stops the movement with deceleration
    10.0 and disconnects the control, receive, I/O and dashboard interfaces,
    in that order. *)
Theorem cleanup_disconnects device w :
  exists w',
    RobotController.cleanup device w = (Returned tt, w')
    /\ RobotController.this w'
       = RobotController.with_connected false (RobotController.this w)
    /\ (forall c, method device c w' = (Returned true, w'))
    /\ (RobotController.connected (RobotController.this w)
        && negb (RobotController.simulation_mode (RobotController.this w)) = false ->
        RobotController.performed w' = RobotController.performed w)
    /\ (working device ->
        connected_to_robot (RobotController.this w) = true ->
        RobotController.performed w'
        = RobotController.performed w
          ++ RobotController.dash_stop :: all_outputs_false
          ++ [RobotController.stopL 10.0;
              RobotController.disconnect_c; RobotController.disconnect_r;
              RobotController.disconnect_io; RobotController.disconnect_dash]).
Proof.
  unfold RobotController.cleanup.
  rewrite try_finally_assign.
  2:{ unfold RobotController.live, RobotController._set_all_outputs_false,
        RobotController.stop_robot, RobotController.live.
      keeps. }
  2:{ apply try_except_swallowing_returns. }
  eexists. split; [reflexivity|].
  split; [reflexivity|].
  split; [|split].
  - intros c. apply method_without_a_robot. reflexivity.
  - intros Hoff. destruct w as [[h f io r cc d con sim] ios]. cbn in Hoff.
    unfold_connect. cbn. rewrite Hoff. reflexivity.
  - intros Hwork Hlive.
    destruct w as [[h f io r cc d con sim] ios].
    unfold connected_to_robot in Hlive. cbn in Hlive.
    repeat (apply andb_prop in Hlive as [Hlive ?]). apply negb_true_iff in H3. subst.
    unfold_connect. cbn.
    repeat first [ answered Hwork | progress (unfold_controller; cbn) ].
    rewrite <- ?app_assoc. reflexivity.
Qed.

(** * The window and the frame loop *)

(** ** What the window logs *)

Lemma stamped_app strftime ms1 :
  forall n ms2,
    stamped strftime n (ms1 ++ ms2)
    = stamped strftime n ms1 ++ stamped strftime (n + List.length ms1) ms2.
Proof.
  induction ms1 as [|m ms1 IH]; intros n ms2; cbn [stamped app List.length].
  - rewrite Nat.add_0_r. reflexivity.
  - rewrite IH. f_equal. f_equal. f_equal. lia.
Qed.

Lemma stamped_bracketed strftime ms :
  forall n, forallb bracketed (stamped strftime n ms) = true.
Proof.
  induction ms as [|m ms IH]; intros n; cbn [stamped forallb].
  - reflexivity.
  - rewrite IH. reflexivity.
Qed.

Lemma stamped_length strftime ms :
  forall n, List.length (stamped strftime n ms) = List.length ms.
Proof.
  induction ms as [|m ms IH]; intros n; cbn [stamped List.length]; auto.
Qed.

(** A message that does not open with a bracket is none of the lines logged. *)
Lemma not_logged_without_bracket m g :
  forallb bracketed (GUIInterface.log_messages g) = true ->
  bracketed m = false ->
  GUIInterface.not_logged m g = true.
Proof.
  unfold GUIInterface.not_logged.
  induction (GUIInterface.log_messages g) as [|e es IH]; cbn [forallb existsb]; intros Hes Hm.
  - reflexivity.
  - apply andb_true_iff in Hes. destruct Hes as [He Hes].
    destruct (String.eqb m e) eqn:Heq.
    + apply String.eqb_eq in Heq. subst. congruence.
    + cbn. apply IH; assumption.
Qed.

Lemma display_loop strftime ms :
  forall g,
    forallb bracketed (GUIInterface.log_messages g) = true ->
    forallb (fun m => negb (bracketed m)) ms = true ->
    GUIInterface.log_messages
      (fold_left
         (fun g message =>
            if GUIInterface.not_logged message g
            then GUIInterface.log_message strftime (replace "[timestamp] " "" message) g
            else g)
         ms g)
    = GUIInterface.log_messages g
      ++ stamped strftime (List.length (GUIInterface.log_messages g)) ms.
Proof.
  induction ms as [|m ms IH]; intros g Hg Hms; cbn [fold_left stamped forallb] in *.
  - rewrite app_nil_r. reflexivity.
  - apply andb_true_iff in Hms. destruct Hms as [Hm Hms].
    apply negb_true_iff in Hm.
    rewrite (not_logged_without_bracket m g Hg Hm).
    rewrite IH; trivial.
    + cbn [GUIInterface.log_message GUIInterface.log_messages].
      rewrite <- app_assoc. cbn [app]. rewrite length_app. cbn [List.length].
      replace (List.length (GUIInterface.log_messages g) + 1)%nat
        with (S (List.length (GUIInterface.log_messages g))) by lia.
      reflexivity.
    + cbn [GUIInterface.log_message GUIInterface.log_messages].
      rewrite forallb_app, Hg. reflexivity.
Qed.

Lemma display_logs strftime state st dyn pending messages g :
  forallb bracketed (GUIInterface.log_messages g) = true ->
  forallb (fun m => negb (bracketed m)) messages = true ->
  GUIInterface.log_messages
    (GUIInterface.update_display strftime state st dyn pending messages g)
  = GUIInterface.log_messages g
    ++ stamped strftime (List.length (GUIInterface.log_messages g)) messages.
Proof.
  intros Hg Hms. unfold GUIInterface.update_display.
  rewrite display_loop; trivial.
Qed.

(** X13. The window's filter against lines shown before compares a message
    with the lines as logged, which open with the bracket of their
    timestamp. So when the lines logged so far are of that kind, as they are
    from the constructor on, and no message opens with a bracket,
    [update_display] logs every message, one line each in the order given,
    repeated messages included; and the lines logged are again of that
    kind. *)
Theorem display_logs_every_message strftime state st dyn pending messages g :
  forallb bracketed (GUIInterface.log_messages g) = true ->
  forallb (fun m => negb (bracketed m)) messages = true ->
  let g' := GUIInterface.update_display strftime state st dyn pending messages g in
  GUIInterface.log_messages g'
  = GUIInterface.log_messages g
    ++ stamped strftime (List.length (GUIInterface.log_messages g)) messages
  /\ List.length (GUIInterface.log_messages g')
     = (List.length (GUIInterface.log_messages g) + List.length messages)%nat
  /\ forallb bracketed (GUIInterface.log_messages g') = true.
Proof.
  intros Hg Hms g'. unfold g'.
  rewrite (display_logs strftime state st dyn pending messages g Hg Hms).
  repeat split.
  - rewrite length_app, stamped_length. reflexivity.
  - rewrite forallb_app, Hg, stamped_bracketed. reflexivity.
Qed.

Lemma display_logs_every_message_witness :
  GUIInterface.log_messages
    (GUIInterface.update_display (fun _ => "10:15:00") "ENABLED" "Open" "" None
       ["START >= 3.0s -> HABILITADO"; "START >= 3.0s -> HABILITADO"]
       (HandGestureApp.gui (HandGestureApp.__init__ (fun _ => "10:14:57"))))
  = [ "[10:14:57] Aplicação iniciada. Aguardando gestos.";
      "[10:15:00] START >= 3.0s -> HABILITADO";
      "[10:15:00] START >= 3.0s -> HABILITADO" ].
Proof.
  exact (proj1 (display_logs_every_message (fun _ => "10:15:00") "ENABLED" "Open" "" None
                  ["START >= 3.0s -> HABILITADO"; "START >= 3.0s -> HABILITADO"]
                  (HandGestureApp.gui (HandGestureApp.__init__ (fun _ => "10:14:57")))
                  eq_refl eq_refl)).
Defined.

(** From the constructor on, whatever is logged, the lines open with a
    bracket. *)
Lemma log_message_keeps_bracketed strftime m g :
  forallb bracketed (GUIInterface.log_messages g) = true ->
  forallb bracketed (GUIInterface.log_messages (GUIInterface.log_message strftime m g)) = true.
Proof.
  intros Hg. cbn [GUIInterface.log_message GUIInterface.log_messages].
  rewrite forallb_app, Hg. reflexivity.
Qed.

(** ** The engine's messages *)

Lemma update_emits st dyn robot t fsm made r fsm' made' :
  update st dyn robot t (with_log_messages [] fsm) made = (r, fsm', made') ->
  forallb (fun m => negb (bracketed m)) (log_messages fsm') = true
  /\ (forall e, r = Raised e -> log_messages fsm' = []).
Proof.
  destruct fsm as [s gc cc sh th ah rh ps lg].
  engine_cases.
  all: returned.
  all: read_fields.
  all: split; [reflexivity | intros e' He'; try discriminate He'; reflexivity].
Qed.

(** ** Frames *)

Lemma with_log_messages_empty fsm :
  log_messages fsm = [] -> with_log_messages [] fsm = fsm.
Proof. intros H. rewrite <- H. apply with_log_messages_same. Qed.

Lemma with_log_messages_twice l l' fsm :
  with_log_messages l (with_log_messages l' fsm) = with_log_messages l fsm.
Proof. destruct fsm; reflexivity. Qed.

Lemma log_messages_with l fsm : log_messages (with_log_messages l fsm) = l.
Proof. destruct fsm; reflexivity. Qed.

Lemma frames_against_run robot strftime fs :
  forall a o a',
    log_messages (HandGestureApp.fsm_controller a) = [] ->
    forallb bracketed (GUIInterface.log_messages (HandGestureApp.gui a)) = true ->
    frames robot strftime fs a = (o, a') ->
    let r := run robot (ticks_of_frames fs)
               (HandGestureApp.fsm_controller a) (HandGestureApp.robot_calls a) in
    o = outcome_of r
    /\ HandGestureApp.fsm_controller a' = with_log_messages [] (engine_after r)
    /\ HandGestureApp.robot_calls a' = calls_after r
    /\ GUIInterface.log_messages (HandGestureApp.gui a')
       = GUIInterface.log_messages (HandGestureApp.gui a)
         ++ stamped strftime (List.length (GUIInterface.log_messages (HandGestureApp.gui a)))
              (log_messages (engine_after r)).
Proof.
  induction fs as [|[[hands|] t] fs IH]; intros a o a' Hempty Hgui.
  - cbn. returned. rewrite Hempty. cbn. rewrite app_nil_r.
    rewrite <- Hempty, with_log_messages_same. auto.
  - cbn [frames ticks_of_frames run HandGestureApp.update_frame
         static_gesture dynamic_gesture now].
    destruct (HandGestureApp.gestures hands) as [st dyn]. cbn [fst snd].
    destruct a as [fsm g made].
    cbn [HandGestureApp.fsm_controller HandGestureApp.gui HandGestureApp.robot_calls] in *.
    rewrite <- (with_log_messages_empty fsm Hempty).
    destruct (update st dyn robot t (with_log_messages [] fsm) made)
      as [[[[]|e] fsm1] made1] eqn:Hup.
    + destruct (update_emits _ _ _ _ _ _ _ _ _ Hup) as [Hplain _].
      cbn [get_log_messages].
      intros Hrest.
      pose proof (display_logs strftime (HandGestureApp.name (state fsm1))
                    st dyn (pending_selection fsm1) (log_messages fsm1) g Hgui Hplain)
        as Hshown.
      assert (Hkind : forallb bracketed
                        (GUIInterface.log_messages
                           (GUIInterface.update_display strftime
                              (HandGestureApp.name (state fsm1)) st dyn
                              (pending_selection fsm1) (log_messages fsm1) g)) = true)
        by (rewrite Hshown, forallb_app, Hgui, stamped_bracketed; reflexivity).
      apply IH in Hrest;
        cbn [HandGestureApp.fsm_controller HandGestureApp.gui HandGestureApp.robot_calls];
        [|apply log_messages_with|exact Hkind].
      cbn [HandGestureApp.fsm_controller HandGestureApp.gui HandGestureApp.robot_calls]
        in Hrest.
      replace (run robot (ticks_of_frames fs) fsm1 made1)
        with (run robot (ticks_of_frames fs)
                (with_log_messages (log_messages fsm1) fsm1) made1)
        by (rewrite with_log_messages_same; reflexivity).
      rewrite run_appends_to_any_buffer.
      destruct (run robot (ticks_of_frames fs) (with_log_messages [] fsm1) made1)
        as [[r2 fsm2] made2].
      unfold outcome_of, engine_after, calls_after in *. cbn [fst snd] in *.
      destruct Hrest as (-> & -> & -> & ->).
      rewrite with_log_messages_twice, log_messages_with.
      repeat split; trivial.
      rewrite Hshown, <- app_assoc, stamped_app, length_app, stamped_length.
      reflexivity.
    + destruct (update_emits _ _ _ _ _ _ _ _ _ Hup) as [_ Hnone].
      specialize (Hnone e eq_refl).
      returned. cbn. rewrite Hnone. cbn. rewrite app_nil_r.
      rewrite <- Hnone, with_log_messages_same. auto.
  - cbn [frames ticks_of_frames HandGestureApp.update_frame]. apply IH; assumption.
Qed.

(** X14. Over any frames, from an application whose engine buffer is empty
    and whose window holds timestamped lines, as after the constructor: the
    frames without an image change nothing; the engine, the robot calls and
    the outcome are those of the engine run on the gestures of the frames
    with an image, the buffer drained; and the window has logged, after the
    lines it had, every message the engine emitted in those updates, one
    timestamped line each, in the order emitted. *)
Theorem frames_show_the_engine_log robot strftime fs a :
  log_messages (HandGestureApp.fsm_controller a) = [] ->
  forallb bracketed (GUIInterface.log_messages (HandGestureApp.gui a)) = true ->
  let r := run robot (ticks_of_frames fs)
             (HandGestureApp.fsm_controller a) (HandGestureApp.robot_calls a) in
  let a' := snd (frames robot strftime fs a) in
  fst (frames robot strftime fs a) = outcome_of r
  /\ HandGestureApp.fsm_controller a' = with_log_messages [] (engine_after r)
  /\ HandGestureApp.robot_calls a' = calls_after r
  /\ GUIInterface.log_messages (HandGestureApp.gui a')
     = GUIInterface.log_messages (HandGestureApp.gui a)
       ++ stamped strftime (List.length (GUIInterface.log_messages (HandGestureApp.gui a)))
            (log_messages (engine_after r)).
Proof.
  intros Hempty Hgui.
  destruct (frames robot strftime fs a) as [o a'] eqn:Hframes.
  exact (frames_against_run robot strftime fs a o a' Hempty Hgui Hframes).
Qed.

Lemma frames_show_the_engine_log_witness :
  GUIInterface.log_messages
    (HandGestureApp.gui
       (snd (frames simulation (fun n => if Nat.eqb n 0 then "10:14:57" else "10:15:03")
               [ (Some [("Open", "Stop")], 100%float);
                 (None, 101%float);
                 (Some [("Open", "Stop")], 103%float) ]
               (HandGestureApp.__init__
                  (fun n => if Nat.eqb n 0 then "10:14:57" else "10:15:03")))))
  = [ "[10:14:57] Aplicação iniciada. Aguardando gestos.";
      "[10:15:03] START >= 3.0s -> HABILITADO" ].
Proof.
  exact (proj2 (proj2 (proj2
           (frames_show_the_engine_log simulation
              (fun n => if Nat.eqb n 0 then "10:14:57" else "10:15:03")
              [ (Some [("Open", "Stop")], 100%float);
                (None, 101%float);
                (Some [("Open", "Stop")], 103%float) ]
              (HandGestureApp.__init__
                 (fun n => if Nat.eqb n 0 then "10:14:57" else "10:15:03"))
              eq_refl eq_refl)))).
Defined.

(** * The gesture labels *)

(** ** Counting *)

Lemma seen_cons x a acc :
  a <> x -> seen x (a :: acc) = a :: seen x acc.
Proof.
  intros Hne. unfold seen. cbn [existsb].
  destruct (Z.eqb_spec x a) as [->|_]; [congruence|].
  cbn. destruct (existsb (Z.eqb x) acc); reflexivity.
Qed.

Lemma existsb_eqb_In x acc : existsb (Z.eqb x) acc = true <-> In x acc.
Proof.
  rewrite existsb_exists. split.
  - intros (y & Hy & Heq). apply Z.eqb_eq in Heq. subst. exact Hy.
  - intros H. exists x. split; [exact H | apply Z.eqb_refl].
Qed.

Lemma seen_In x acc k : In k (seen x acc) <-> In k acc \/ k = x.
Proof.
  unfold seen. destruct (existsb (Z.eqb x) acc) eqn:Hx.
  - apply existsb_eqb_In in Hx. split; [auto|]. intros [H| ->]; assumption.
  - rewrite in_app_iff. cbn. intuition.
Qed.

Lemma seen_NoDup x acc : NoDup acc -> NoDup (seen x acc).
Proof.
  intros Hnd. unfold seen. destruct (existsb (Z.eqb x) acc) eqn:Hx; [exact Hnd|].
  assert (Hnot : ~ In x acc).
  { intros Hin. apply existsb_eqb_In in Hin. congruence. }
  clear Hx. induction Hnd as [|a acc Ha Hnd IH]; cbn.
  - constructor; [intros []|constructor].
  - constructor.
    + rewrite in_app_iff. cbn. intros [H|[H|[]]]; [auto|].
      subst. apply Hnot. left. reflexivity.
    + apply IH. intros H. apply Hnot. right. exact H.
Qed.

(** One more element counted, on items that list each key once. *)
Lemma count_one_map x (c : Z -> Z) acc :
  NoDup acc ->
  (~ In x acc -> c x = 0) ->
  GestureDetector.count_one x (map (fun k => (k, c k)) acc)
  = map (fun k => (k, if (k =? x)%Z then c k + 1 else c k)) (seen x acc).
Proof.
  induction acc as [|a acc IH]; intros Hnd Hzero.
  - cbn. rewrite Z.eqb_refl, Hzero by (intros []). reflexivity.
  - inversion Hnd as [|? ? Ha Hnd']; subst.
    cbn [map GestureDetector.count_one].
    destruct (Z.eqb_spec a x) as [->|Hne].
    + unfold seen. cbn [existsb]. rewrite Z.eqb_refl. cbn [orb map].
      rewrite Z.eqb_refl. f_equal.
      apply map_ext_in. intros k Hk.
      destruct (Z.eqb_spec k x) as [->|_]; [contradiction|reflexivity].
    + rewrite seen_cons by exact Hne. cbn [map].
      destruct (Z.eqb_spec a x) as [|_]; [contradiction|].
      f_equal. apply IH; trivial.
      intros Hnot. apply Hzero. intros [H|H]; [congruence|contradiction].
Qed.

Lemma occurrences_snoc l x k :
  occurrences k (l ++ [x]) = if (k =? x)%Z then occurrences k l + 1 else occurrences k l.
Proof.
  unfold occurrences. rewrite count_occ_app. cbn [count_occ].
  destruct (Z.eq_dec x k) as [->|Hne].
  - rewrite Z.eqb_refl. lia.
  - destruct (Z.eqb_spec k x); [congruence|lia].
Qed.

Lemma firsts_snoc l x : firsts (l ++ [x]) = seen x (firsts l).
Proof. unfold firsts. rewrite fold_left_app. reflexivity. Qed.

Lemma firsts_In l : forall k, In k (firsts l) <-> In k l.
Proof.
  induction l as [|x l IH] using rev_ind; intros k.
  - cbn. tauto.
  - rewrite firsts_snoc, seen_In, in_app_iff, IH. cbn. intuition.
Qed.

Lemma firsts_NoDup l : NoDup (firsts l).
Proof.
  induction l as [|x l IH] using rev_ind.
  - constructor.
  - rewrite firsts_snoc. apply seen_NoDup. exact IH.
Qed.

(** [Counter] lists the elements in the order of their first appearance,
    each with the number of its occurrences. *)
Lemma Counter_counts l :
  GestureDetector.Counter l = map (fun k => (k, occurrences k l)) (firsts l).
Proof.
  induction l as [|x l IH] using rev_ind.
  - reflexivity.
  - unfold GestureDetector.Counter in *. rewrite fold_left_app. cbn [fold_left].
    rewrite IH, firsts_snoc.
    rewrite count_one_map.
    + apply map_ext. intros k. rewrite occurrences_snoc. reflexivity.
    + apply firsts_NoDup.
    + intros Hnot. rewrite firsts_In in Hnot.
      unfold occurrences. rewrite (proj1 (count_occ_not_In Z.eq_dec l x) Hnot).
      reflexivity.
Qed.

(** Whatever precedes the first appearance of an element is listed before
    it. *)
Lemma firsts_order l :
  forall A k B,
    firsts l = A ++ k :: B ->
    exists pre post, l = pre ++ k :: post /\ forall j, In j pre -> In j A.
Proof.
  induction l as [|x l IH] using rev_ind; intros A k B Hsplit.
  - destruct A; discriminate.
  - rewrite firsts_snoc in Hsplit. unfold seen in Hsplit.
    destruct (existsb (Z.eqb x) (firsts l)) eqn:Hx.
    + destruct (IH A k B Hsplit) as (pre & post & -> & Hpre).
      exists pre, (post ++ [x]). split; [|exact Hpre].
      rewrite <- app_assoc. reflexivity.
    + destruct B as [|b B] using rev_ind.
      * apply app_inj_tail in Hsplit. destruct Hsplit as [HA <-].
        exists l, []. split; [reflexivity|].
        intros j Hj. rewrite <- HA. apply firsts_In. exact Hj.
      * clear IHB.
        change (A ++ k :: B ++ [b]) with (A ++ (k :: B) ++ [b]) in Hsplit.
        rewrite app_assoc in Hsplit.
        apply app_inj_tail in Hsplit. destruct Hsplit as [Hsplit _].
        destruct (IH A k B Hsplit) as (pre & post & -> & Hpre).
        exists pre, (post ++ [x]). split; [|exact Hpre].
        rewrite <- app_assoc. reflexivity.
Qed.

(** ** The most common item *)

Lemma most_common_first items :
  items <> [] ->
  exists A k n B rest,
    items = A ++ (k, n) :: B
    /\ GestureDetector.most_common items = (k, n) :: rest
    /\ (forall a, In a A -> snd a < n)
    /\ (forall b, In b B -> snd b <= n).
Proof.
  induction items as [|[x m] items IH]; intros Hne; [congruence|].
  destruct items as [|y items].
  - exists [], x, m, [], []. cbn. repeat split; intros ? [].
  - destruct IH as (A & k & n & B & rest & Hsplit & Hhead & HA & HB); [discriminate|].
    cbn [GestureDetector.most_common fold_right] in *.
    rewrite Hhead. cbn [GestureDetector.insert_item snd].
    destruct (Z.leb_spec n m) as [Hle|Hlt].
    + exists [], x, m, (y :: items), ((k, n) :: rest).
      repeat split; [intros ? []|].
      intros b Hb. rewrite Hsplit in Hb. apply in_app_iff in Hb.
      destruct Hb as [Hb|[<-|Hb]].
      * specialize (HA b Hb). lia.
      * cbn. lia.
      * specialize (HB b Hb). lia.
    + exists ((x, m) :: A), k, n, B, (GestureDetector.insert_item (x, m) rest).
      rewrite Hsplit. repeat split; trivial.
      intros a [<-|Ha]; [cbn; lia|auto].
Qed.

(** X15. The label of the dynamic gesture is a vote over the history of
    class ids. For a history that is not empty there is an id [k] in it which
    no id outnumbers and which every id seen before [k] first appears falls
    short of: the most frequent id, the earliest seen among the most
    frequent. The label returned is the one at index [k] when [k] is an index
    of the label list, and the empty string when [k] is past its end. *)
Theorem dynamic_label_is_the_vote labels history :
  history <> [] ->
  exists k pre post,
    history = pre ++ k :: post
    /\ (forall j, occurrences j history <= occurrences k history)
    /\ (forall j, In j pre -> occurrences j history < occurrences k history)
    /\ (0 <= k < Z.of_nat (List.length labels) ->
        GestureDetector.get_dynamic_gesture_label labels history
        = Returned (nth (Z.to_nat k) labels ""))
    /\ (Z.of_nat (List.length labels) <= k ->
        GestureDetector.get_dynamic_gesture_label labels history = Returned "").
Proof.
  intros Hne.
  assert (Hitems : GestureDetector.Counter history <> []).
  { rewrite Counter_counts. destruct history as [|x l]; [congruence|].
    intros Hnil. apply map_eq_nil in Hnil.
    assert (Hin : In x (firsts (x :: l))) by (apply firsts_In; left; reflexivity).
    rewrite Hnil in Hin. exact Hin. }
  destruct (most_common_first _ Hitems) as (A & k & n & B & rest & Hsplit & Hhead & HA & HB).
  rewrite Counter_counts in Hsplit.
  apply map_eq_app in Hsplit. destruct Hsplit as (A' & R & Hfirsts & HmapA & HmapR).
  destruct R as [|k' B']; [discriminate|].
  cbn [map] in HmapR. inversion HmapR as [[Hk Hn HmapB]]. subst k'.
  destruct (firsts_order history A' k B' Hfirsts) as (pre & post & Hhist & Hpre).
  assert (Hbefore : forall j, In j A' -> occurrences j history < n).
  { intros j Hj. apply (HA (j, occurrences j history)).
    rewrite <- HmapA. apply (in_map (fun k => (k, occurrences k history))). exact Hj. }
  assert (Hafter : forall j, In j B' -> occurrences j history <= n).
  { intros j Hj. apply (HB (j, occurrences j history)).
    rewrite <- HmapB. apply (in_map (fun k => (k, occurrences k history))). exact Hj. }
  exists k, pre, post. rewrite Hn. split; [exact Hhist|]. split; [|split; [|split]].
  - intros j. destruct (in_dec Z.eq_dec j history) as [Hin|Hout].
    + apply firsts_In in Hin. rewrite Hfirsts in Hin. apply in_app_iff in Hin.
      destruct Hin as [Hin|[<-|Hin]].
      * specialize (Hbefore j Hin). lia.
      * lia.
      * exact (Hafter j Hin).
    + unfold occurrences at 1.
      rewrite (proj1 (count_occ_not_In Z.eq_dec history j) Hout).
      rewrite <- Hn. unfold occurrences. lia.
  - intros j Hj. apply Hbefore, Hpre, Hj.
  - intros [Hlo Hhi]. unfold GestureDetector.get_dynamic_gesture_label.
    destruct history as [|x l]; [congruence|]. rewrite Hhead.
    destruct (Z.ltb_spec k (Z.of_nat (List.length labels))); [|lia].
    unfold GestureDetector.item.
    destruct (Z.leb_spec 0 k); [|lia].
    destruct (Z.ltb_spec k (Z.of_nat (List.length labels))); [|lia].
    reflexivity.
  - intros Hpast. unfold GestureDetector.get_dynamic_gesture_label.
    destruct history as [|x l]; [congruence|]. rewrite Hhead.
    destruct (Z.ltb_spec k (Z.of_nat (List.length labels))); [lia|reflexivity].
Qed.

Lemma dynamic_label_is_the_vote_witness :
  exists k pre post,
    [0; 2; 1; 2; 1; 0; 1; 2] = pre ++ k :: post
    /\ (forall j, occurrences j [0; 2; 1; 2; 1; 0; 1; 2]
                  <= occurrences k [0; 2; 1; 2; 1; 0; 1; 2])
    /\ (forall j, In j pre ->
                  occurrences j [0; 2; 1; 2; 1; 0; 1; 2]
                  < occurrences k [0; 2; 1; 2; 1; 0; 1; 2])
    /\ (0 <= k < Z.of_nat (List.length ["Stop"; "Clockwise"; "Counter Clockwise"; "Move"]) ->
        GestureDetector.get_dynamic_gesture_label
          ["Stop"; "Clockwise"; "Counter Clockwise"; "Move"] [0; 2; 1; 2; 1; 0; 1; 2]
        = Returned (nth (Z.to_nat k) ["Stop"; "Clockwise"; "Counter Clockwise"; "Move"] ""))
    /\ (Z.of_nat (List.length ["Stop"; "Clockwise"; "Counter Clockwise"; "Move"]) <= k ->
        GestureDetector.get_dynamic_gesture_label
          ["Stop"; "Clockwise"; "Counter Clockwise"; "Move"] [0; 2; 1; 2; 1; 0; 1; 2]
        = Returned "").
Proof.
  apply (dynamic_label_is_the_vote
           ["Stop"; "Clockwise"; "Counter Clockwise"; "Move"] [0; 2; 1; 2; 1; 0; 1; 2]).
  discriminate.
Defined.

(** On that history ids 1 and 2 occur three times each; 2 was seen first. *)
Example vote_on_a_tie :
  GestureDetector.get_dynamic_gesture_label
    ["Stop"; "Clockwise"; "Counter Clockwise"; "Move"] [0; 2; 1; 2; 1; 0; 1; 2]
  = Returned "Counter Clockwise".
Proof. reflexivity. Qed.

(** ** The gestures the engine is given *)

Lemma prefix_app needle post : String.prefix needle (needle ++ post)%string = true.
Proof.
  induction needle as [|c needle IH].
  - destruct post; reflexivity.
  - change (String c needle ++ post)%string with (String c (needle ++ post)).
    cbn [String.prefix].
    destruct (Ascii.ascii_dec c c) as [_|Hne]; [exact IH | congruence].
Qed.

(** A string holds the words that are part of it. *)
Lemma contains_part needle pre post :
  contains needle (pre ++ needle ++ post)%string = true.
Proof.
  induction pre as [|c pre IH].
  - change ("" ++ needle ++ post)%string with (needle ++ post)%string.
    destruct (needle ++ post)%string eqn:Hs; cbn [contains];
      rewrite <- Hs, prefix_app; reflexivity.
  - change (String c pre ++ needle ++ post)%string
      with (String c (pre ++ needle ++ post)).
    cbn [contains]. rewrite IH. apply orb_true_r.
Qed.

Lemma gestures_snoc hands static_label dynamic_label :
  HandGestureApp.gestures (hands ++ [(static_label, dynamic_label)])
  = ((if contains "Close" static_label then "Close"
      else if contains "Open" static_label then "Open"
      else static_label),
     (if contains "Counter" dynamic_label then "CCW"
      else if contains "Clockwise" dynamic_label then "CW"
      else snd (HandGestureApp.gestures hands))).
Proof.
  unfold HandGestureApp.gestures. rewrite fold_left_app. cbn [fold_left].
  destruct (fold_left _ hands ("", "")) as [st dyn]. reflexivity.
Qed.

Lemma gestures_direction hands :
  let dyn := snd (HandGestureApp.gestures hands) in
  dyn = "" \/ dyn = "CW" \/ dyn = "CCW".
Proof.
  induction hands as [|[s d] hands IH] using rev_ind.
  - left. reflexivity.
  - rewrite gestures_snoc. cbn [snd].
    destruct (contains "Counter" d); [auto|].
    destruct (contains "Clockwise" d); [auto|].
    exact IH.
Qed.

(** X16. What [update_frame] hands the engine. The dynamic gesture is the
    empty string, CW or CCW, whatever the labels, so the engine sees a
    direction exactly when it sees a dynamic gesture at all. A hand whose
    dynamic label holds the word Counter gives CCW, also when the label
    holds Clockwise as well, as the label Counter Clockwise does; a hand
    whose static label holds Close gives Close. *)
Theorem engine_is_given_directions hands :
  (let dyn := snd (HandGestureApp.gestures hands) in
   (dyn = "" \/ dyn = "CW" \/ dyn = "CCW")
   /\ is_direction dyn = negb (String.eqb dyn ""))
  /\ (forall static_label pre post,
         snd (HandGestureApp.gestures
                (hands ++ [(static_label, (pre ++ "Counter" ++ post)%string)]))
         = "CCW")
  /\ (forall dynamic_label pre post,
         fst (HandGestureApp.gestures
                (hands ++ [((pre ++ "Close" ++ post)%string, dynamic_label)]))
         = "Close").
Proof.
  split; [|split].
  - cbv zeta. pose proof (gestures_direction hands) as Hdyn. cbv zeta in Hdyn.
    split; [exact Hdyn|].
    destruct Hdyn as [-> | [-> | ->]]; reflexivity.
  - intros s pre post. rewrite gestures_snoc. cbn [snd].
    rewrite (contains_part "Counter" pre post). reflexivity.
  - intros d pre post. rewrite gestures_snoc. cbn [fst].
    rewrite (contains_part "Close" pre post). reflexivity.
Qed.

(** The label of the third dynamic class holds both words. *)
Example counter_clockwise_is_ccw :
  HandGestureApp.gestures [("Pointer", "Counter Clockwise")] = ("Pointer", "CCW").
Proof. reflexivity. Qed.
